(* ===== verification/_CoqProject ===== *)
-Q . S2P
Prelude.v
PyFloat.v
Geometry.v
Config.v
Dungeon.v
Player.v
Transition.v
Chest.v
Combat.v
Fireball.v
Enemies.v
Generation.v
Game.v
Render.v
