(* ===== verification/Prelude.v ===== *)
(** * A verification development of the dungeon game ([src/main.py])

    The program is one Python/pygame file.  Its core is a closed,
    frame-stepped simulation: ten rooms built once per run from hand
    written tables, a player and enemies that move and fight, fireballs,
    chests feeding an inventory, door-crossing room transitions, and a
    title/play/gameover/win loop.  Rendering, asset loading, fonts and
    the pygame event queue are thin I/O around that core.

    ** Files, in dependency order (one per component)

    - [Prelude]: this header; the [dg_scope] notation scope; the Python
      exception type [pyexc] and the result monad [res] ([let!]) used
      wherever the code can raise ([KeyError] on a dict, [IndexError] on a
      list); Python list indexing with its negative-index rule
      ([py_getitem], [py_setitem], [py_get2], [py_set2]); [range]
      ([py_range]); monadic loops ([res_foldl]) and comprehensions
      ([res_concat_map]); the shared lemmas, the [dungeon] hint databases
      and the tactics.
    - [PyFloat]: Python's [float] and the [math] functions the code calls
      ([hypot], [atan2], [degrees], [%] on floats, [int()]) as the type
      class [PyFloat]; positions are [pynum], Python's int-or-float; the
      module [QFloat] is an exact-rational instance used to run examples.
    - [Geometry]: [pygame.Rect] ([Rect], [colliderect], [centerx] ...),
      pixel masks ([Mask], [mask_overlap]) and [pixel_collision]
      (main.py 117-119).  Rect and Mask are pygame's semantics, written
      from pygame's documented behaviour.
    - [Config]: the constants (main.py 10-41), [ENEMY_STATS] over the enum
      [EnemyKind], [ITEM_ORDER] and [item_heal] over the enum [Item], and
      the class [Sprites] holding the masks loaded from image files.
    - [Dungeon]: [NEIGHBORS], [ROOM_CONFIG], [EXTRA_WALLS] as [gmap]s,
      [make_static_room] (main.py 175-212) step by step, [list_walls]
      (214-218), and the first loop of [generate_static_dungeon]
      ([build_static_rooms], 236-240); [room_cell_spec], [gap_cell] and
      [pixel_in] are the declarative room.
    - [Player]: the [Player] class (main.py 273-356) as a record and one
      function per method: [move] with its all-or-nothing wall rollback,
      [start_attack]/[update_attack]/[can_hit], [take_damage] with its
      invulnerability frames, [heal]; [player_reach] is the set of players
      the loop's calls produce.
    - [Transition]: [try_room_transition] (main.py 585-639) on the state
      [(current_room, player)], with the [room_doors[t][side]] lookups that
      can raise.
    - [Chest]: the [Chest] class and the inventory dict as a [gmap]
      (main.py 491-504, 524), the [K_e] handler ([open_chests]) and the
      [K_1]..[K_4] handlers ([consume_item], 666-678).
    - [Combat]: the [Enemy] attributes and [alive]/[take_damage]
      (main.py 369-397), [handle_melee], [handle_sword] (568-580), the
      dead-enemy purge (708) and the win test (718).
    - [Fireball]: the [Fireball] class (456-489) and the frame's
      fireball loop and purge (711-713): [fireball_update] moves, dies off
      screen or in a wall cell, and hits the player through [take_damage].
    - [Enemies]: [Enemy.update] for the four kinds (399-442) with the
      wall roll-back, [Enemy.shoot] (444-450) appending to the shared
      projectile list, and the frame's enemy loop (705-706).
    - [Generation]: Python's [random] module as the class [PyRandom]
      ([_randbelow], with [randint] and [choice] built as in CPython),
      [random_free] (220-229), the placement loops and the second loop of
      [generate_static_dungeon] (243-268), in the computation type
      [gen A = option (res A)] (out of fuel, raised, returned).
    - [Game]: the module globals as the record [World] (the game state,
      [running], player, current room, projectiles, inventory, the room
      lists and the generator state); [reset_run] (518-524); the event
      handlers of each state ([handle_event], 650-682); the play update
      in the loop's order ([play_update], 693-719); one pass of the loop
      ([frame]); the program start ([initial_world], 644-645); the
      reachable worlds ([reachable]) and their invariant ([world_inv]).
    - [Render]: every draw method and helper (358-368, 452-454, 486-489,
      506-507, 529-563) and the drawing part of the loop (684-691,
      720-752) as the list of [fill]/[blit]/[flip] calls it makes; image
      and text sizes are the class [Surfaces].

    Components interact through the shared state the loop threads: the
    player is passed through [move], [try_room_transition],
    [update_attack], the enemy updates, [handle_melee] and the fireball
    loop in that order; the enemy updates append to the projectile list
    the fireball loop consumes; [room_data[current_room]] is read and
    written back at the current room.

    ** What the theorems show (claim ids C1..C37)

    - Transitions (C1, C3, C8-C10): from any room, a crossing that
      returns lands a player of at most one tile inside the target room,
      off every wall cell and every door, and pixel-clear of the wall
      list [move] tests next frame; it raises only [KeyError], exactly on
      the two asymmetric edges of [NEIGHBORS] (room 5 east to 8, room 8
      north to 5), and there it always raises; the first door touched in
      the order N, S, E, W decides the target room.
    - Room generation (C2, C11, C13): for each of the ten rooms
      [make_static_room] refines the declarative room (border wall but
      for the door gaps, interior floor but for the extra walls, a door
      exactly where the graph has a neighbour, its rectangle covering
      exactly the two gap tiles astride the midline); the gap cells and
      door pixels are described geometrically ([gap_cell], [pixel_in]),
      apart from the code's cell list and rectangles; [list_walls] lists
      exactly the wall cells, and a fireball dies in a wall exactly when
      [list_walls] lists the tile under it; an index outside the graph
      raises [KeyError] (a lemma).
    - Player (C4, C7, C14-C16, C21): invulnerability frames; the health
      invariant (health in [0, max], zero exactly when dead) over every
      reachable player; movement never enters a wall; the swing window;
      the spec's skeleton scenario; and the finding that [heal] keeps the
      invariant exactly for live players (or a zero heal).
    - Chests (C5, C17, C18): opening adds each item once, capped at 5,
      and a second open changes nothing; counts stay in [0, 5] for every
      reachable inventory; eating never raises on such an inventory.
    - Combat (C6, C20): one contact hit per frame however many enemies
      touch; two clicks of one swing kill a spider.
    - Fireballs (C13, C22, C23): a fireball hits at most once and is dead
      after; the frame's fireball step never raises on a room grid, hits
      the player at most once and leaves only live fireballs.
    - Enemies (C12, C24-C27): the projectile list grows by at most one
      fireball per eye and frame; an eye's rate of fire; only eyes shoot
      and only their update can raise; the update loop keeps each enemy's
      kind, hit points and contact damage; spiders, skeletons and eyes
      never walk into a wall.
    - Generation (C28, C29, C36): [random_free] can always stop, in every
      room with as many sprites as generation places; a generated room
      holds what [ROOM_CONFIG] asks for, each sprite on a free floor
      cell; [reset_run] never raises.
    - The game (C19, C30-C33): the invariant of every reachable world
      (static dungeon, room in range, one data entry per room,
      well-formed inventory, the player's health invariant with
      [max_health = 10], a live player in [play]); the finding that the
      win test overrides the death test; end screens ignore everything
      but the start keys; a start key restarts the run, and never
      crashes on an end screen.
    - Drawing (C34, C35, C37): the heart row equals its reference (full,
      half, empty hearts for the health); drawing a frame never raises
      in a reachable world; the drawn room is the declared room.

    ** Choices and bounds

    Timestamps are [pygame.time.get_ticks()] values, passed as an explicit
    [now : Z] (one value per frame; the code reads the clock several
    times per frame, milliseconds apart).  The mouse position of a click
    is the event's position ([pygame.mouse.get_pos()] in the code).
    Sprite sizes and masks come from image files that are not part of the
    repository: they are the fields of the [Sprites] and [Surfaces]
    classes, and theorems that depend on them state the size bound they
    need (a sprite no larger than a tile, [TILE = 32]).  Float arithmetic
    is left abstract ([PyFloat]): the theorems about code that computes
    with floats are structural and hold for every implementation of the
    float operations.  Python's generator is abstract ([PyRandom]), with
    the one law [_randbelow(n)] in [[0, n)]; [lcg] is a concrete
    generator used to run the model.  [random_free] is a [while True]
    loop: it runs on [fuel] and yields [None] when the fuel runs out,
    and C28 shows the loop always has a way out; every other loop runs
    over a finite [range] or list.  Facts about the ten rooms are checked
    by evaluating boolean checkers with [vm_compute] over
    [range(ROOM_COUNT)] and turned into propositions by their soundness
    lemmas; the examples run with fuel 100 and seed 7 or 42.

    ** Not modelled

    pygame setup, image and font loading, [clock.tick] and the event
    queue are I/O: the events, the key state and the clock reading of a
    frame are the inputs of [frame] ([FrameInput]).  The pixels a blit
    writes are pygame's; drawing is modelled as the calls made.
    [pygame.mask.from_surface] and [Mask.overlap] are library code: the
    masks are the fields of the [Sprites] class and the theorems hold for
    any masks (with [tile_sized] where a size bound is needed). *)

From Stdlib Require Export ZArith Lia.
From stdpp Require Export base list gmap.

Declare Scope dg_scope.
Delimit Scope dg_scope with dg.
Open Scope Z_scope.

(** ** Python exceptions and the result monad *)

Inductive pyexc := KeyError | IndexError | ZeroDivisionError.

Inductive res (A : Type) : Type :=
| Ok (a : A)
| Raise (e : pyexc).
Arguments Ok {A} a.
Arguments Raise {A} e.

Definition res_bind {A B} (m : res A) (k : A -> res B) : res B :=
  match m with Ok a => k a | Raise e => Raise e end.

Notation "'let!' x := m 'in' k" := (res_bind m (fun x => k))
  (at level 10, x name, m at level 100, k at level 200) : dg_scope.
Open Scope dg_scope.

Definition res_ok {A} (r : res A) : bool :=
  match r with Ok _ => true | Raise _ => false end.

(** Python's dict lookup [d[k]]: a missing key raises [KeyError]. *)
Definition dict_get {V} (o : option V) : res V :=
  match o with Some v => Ok v | None => Raise KeyError end.

(** ** Python lists indexed by an int *)

(** [l[i]]: a negative index counts from the end; out of range raises. *)
Definition py_norm_index {A} (l : list A) (i : Z) : Z :=
  if i <? 0 then Z.of_nat (length l) + i else i.

Definition py_getitem {A} (l : list A) (i : Z) : res A :=
  let j := py_norm_index l i in
  if (0 <=? j) && (j <? Z.of_nat (length l)) then
    match l !! Z.to_nat j with Some x => Ok x | None => Raise IndexError end
  else Raise IndexError.

(** [l[i] = v] *)
Definition py_setitem {A} (l : list A) (i : Z) (v : A) : res (list A) :=
  let j := py_norm_index l i in
  if (0 <=? j) && (j <? Z.of_nat (length l)) then Ok (<[Z.to_nat j := v]> l)
  else Raise IndexError.

(** [grid[y][x]] and [grid[y][x] = v] on a list of rows. *)
Definition py_get2 {A} (g : list (list A)) (y x : Z) : res A :=
  let! row := py_getitem g y in py_getitem row x.

Definition py_set2 {A} (g : list (list A)) (y x : Z) (v : A) : res (list (list A)) :=
  let! row := py_getitem g y in
  let! row' := py_setitem row x v in
  py_setitem g y row'.

(** [range(a, b)] *)
Definition py_range (a b : Z) : list Z :=
  map (fun k => a + Z.of_nat k) (seq 0 (Z.to_nat (b - a))).

(** A [for] loop whose body can raise. *)
Fixpoint res_foldl {A B} (f : A -> B -> res A) (a : A) (l : list B) : res A :=
  match l with
  | [] => Ok a
  | b :: l' => let! a' := f a b in res_foldl f a' l'
  end.

(** A list comprehension [[y for x in l ...]] whose body can raise. *)
Fixpoint res_concat_map {A B} (f : A -> res (list B)) (l : list A) : res (list B) :=
  match l with
  | [] => Ok []
  | a :: l' => let! b := f a in let! bs := res_concat_map f l' in Ok (b ++ bs)
  end.

(** [grid[y][x]] read as a total lookup, for statements. *)
Definition grid_at {A} (g : list (list A)) (x y : Z) : option A :=
  if (0 <=? x) && (0 <=? y) then
    match g !! Z.to_nat y with Some row => row !! Z.to_nat x | None => None end
  else None.

(** ** Generic lemmas *)

Lemma py_range_spec a b x : x ∈ py_range a b <-> a <= x < b.
Proof.
  unfold py_range. rewrite list_elem_of_fmap. split.
  - intros (k & -> & Hk). apply elem_of_seq in Hk. lia.
  - intros H. exists (Z.to_nat (x - a)). split; [lia|].
    apply elem_of_seq. lia.
Qed.

Lemma length_py_range a b : length (py_range a b) = Z.to_nat (b - a).
Proof. unfold py_range. by rewrite length_map, length_seq. Qed.

Lemma py_getitem_ok {A} (l : list A) (i : Z) :
  0 <= i < Z.of_nat (length l) ->
  exists x, l !! Z.to_nat i = Some x /\ py_getitem l i = Ok x.
Proof.
  intros Hi. unfold py_getitem, py_norm_index.
  destruct (lookup_lt_is_Some_2 l (Z.to_nat i)) as [x Hx]; [lia|].
  exists x. split; [done|].
  replace (i <? 0) with false by lia.
  replace ((0 <=? i) && (i <? Z.of_nat (length l))) with true by lia.
  by rewrite Hx.
Qed.

Lemma py_getitem_lookup {A} (l : list A) (i : Z) (x : A) :
  0 <= i -> py_getitem l i = Ok x -> l !! Z.to_nat i = Some x.
Proof.
  unfold py_getitem, py_norm_index. intros Hi.
  replace (i <? 0) with false by lia.
  destruct (_ && _); [|done]. by destruct (l !! _) as [y|]; [intros [= ->]|].
Qed.

Lemma py_getitem_elem {A} (l : list A) (i : Z) (x : A) : py_getitem l i = Ok x -> x ∈ l.
Proof.
  unfold py_getitem. destruct (_ && _); [|done].
  destruct (l !! _) as [y|] eqn:Hl; [intros [= <-] | done]. by eapply list_elem_of_lookup_2.
Qed.

Lemma py_setitem_Forall {A} (P : A -> Prop) (l l' : list A) (i : Z) (v : A) :
  Forall P l -> P v -> py_setitem l i v = Ok l' -> Forall P l'.
Proof.
  unfold py_setitem. intros Hl Hv. destruct (_ && _); [|done]. intros [= <-].
  by apply Forall_insert.
Qed.

Lemma py_setitem_ok {A} (l : list A) (i : Z) (v : A) :
  0 <= i < Z.of_nat (length l) -> py_setitem l i v = Ok (<[Z.to_nat i := v]> l).
Proof.
  intros Hi. unfold py_setitem, py_norm_index.
  replace (i <? 0) with false by lia.
  by replace ((0 <=? i) && (i <? Z.of_nat (length l))) with true by lia.
Qed.

Lemma py_setitem_length {A} (l l' : list A) (i : Z) (v : A) :
  py_setitem l i v = Ok l' -> length l' = length l.
Proof.
  unfold py_setitem. destruct (_ && _); [|done].
  intros [= <-]. apply length_insert.
Qed.

(** A list built by [[f(i) for i in range(n)]] holds [f(c)] at [c]. *)
Lemma py_getitem_fmap_range {A} (f : Z -> A) n c :
  0 <= c < n -> py_getitem (f <$> py_range 0 n) c = Ok (f c).
Proof.
  intros Hc. destruct (py_getitem_ok (f <$> py_range 0 n) c) as (x & Hl & ->).
  { rewrite length_fmap, length_py_range. lia. }
  rewrite list_lookup_fmap in Hl. apply fmap_Some in Hl as (c' & Hr & ->).
  unfold py_range in Hr. rewrite list_lookup_fmap, lookup_seq_lt in Hr by lia.
  injection Hr as <-. do 2 f_equal. lia.
Qed.

(** Reading back the index just written gives the value written. *)
Lemma py_getitem_setitem {A} (l l' : list A) (i : Z) (v : A) :
  py_setitem l i v = Ok l' -> py_getitem l' i = Ok v.
Proof.
  unfold py_setitem, py_getitem, py_norm_index.
  destruct (_ && _) eqn:Hc; [|done]. intros [= <-]. rewrite length_insert, Hc.
  rewrite list_lookup_insert_eq; [done|]. destruct (i <? 0); lia.
Qed.

Lemma res_bind_ok {A B} (m : res A) (k : A -> res B) (b : B) :
  res_bind m k = Ok b -> exists a, m = Ok a /\ k a = Ok b.
Proof. destruct m as [a|e]; simpl; [eauto|done]. Qed.

Lemma Z_of_nat_length_insert {A} (l : list A) i (v : A) :
  Z.of_nat (length (<[i := v]> l)) = Z.of_nat (length l).
Proof. by rewrite length_insert. Qed.

Lemma fmap_list_map {A B} (f : A -> B) (l : list A) : f <$> l = map f l.
Proof. induction l as [|a l IH]; [done|]. cbn. by rewrite <- IH. Qed.

(** A comprehension whose body returns at every element. *)
Lemma res_concat_map_pointwise {A B} (f : A -> res (list B)) (g : A -> list B) (l : list A) :
  (forall a, a ∈ l -> f a = Ok (g a)) -> res_concat_map f l = Ok (concat (g <$> l)).
Proof.
  induction l as [|a l IH]; intros Hf; [done|]. cbn [res_concat_map].
  rewrite (Hf a) by by left. cbn [res_bind]. rewrite IH by (intros b Hb; apply Hf; by right).
  reflexivity.
Qed.

Lemma concat_fmap_singleton {A B} (h : A -> B) (l : list A) : concat ((fun a => [h a]) <$> l) = h <$> l.
Proof. induction l as [|a l IH]; [done|]. cbn. by rewrite IH. Qed.

(** A map over [seq] that is constant on the range. *)
Lemma map_seq_const {A} (f : nat -> A) s k c :
  (forall j, (s <= j < s + k)%nat -> f j = c) -> map f (seq s k) = replicate k c.
Proof.
  revert s. induction k as [|k IH]; intros s Hf; [done|]. cbn [seq map replicate].
  rewrite (Hf s) by lia. f_equal. apply IH. intros j Hj. apply Hf. lia.
Qed.

(** A check run over a whole [range] holds at each of its points. *)
Lemma forallb_py_range (P : Z -> bool) a b :
  forallb P (py_range a b) = true -> forall i, a <= i < b -> P i = true.
Proof.
  intros Hall i Hi. rewrite forallb_forall in Hall. apply Hall.
  apply list_elem_of_In, py_range_spec. lia.
Qed.

Lemma res_concat_map_app {A B} (f : A -> res (list B)) l1 l2 :
  res_concat_map f (l1 ++ l2) =
  let! b1 := res_concat_map f l1 in let! b2 := res_concat_map f l2 in Ok (b1 ++ b2).
Proof.
  induction l1 as [|a l1 IH]; simpl.
  - by destruct (res_concat_map f l2).
  - destruct (f a); simpl; [|done]. rewrite IH.
    destruct (res_concat_map f l1); simpl; [|done].
    destruct (res_concat_map f l2); simpl; [|done]. by rewrite app_assoc.
Qed.

(** Every element of a comprehension comes from some input, and every
    input's output is in it. *)
Lemma res_concat_map_elem {A B} (f : A -> res (list B)) l bs :
  res_concat_map f l = Ok bs ->
  forall y, y ∈ bs <-> exists a b, a ∈ l /\ f a = Ok b /\ y ∈ b.
Proof.
  revert bs. induction l as [|a l IH]; intros bs Hm y; simpl in Hm.
  - injection Hm as <-. split; [intros Hy; by apply not_elem_of_nil in Hy|].
    intros (? & ? & Ha & _). by apply not_elem_of_nil in Ha.
  - destruct (f a) as [b|] eqn:Hfa; simpl in Hm; [|done].
    destruct (res_concat_map f l) as [bs'|] eqn:Hl; simpl in Hm; [|done].
    injection Hm as <-. rewrite elem_of_app, (IH bs' eq_refl). split.
    + intros [Hy | (a' & b' & Ha' & Hf & Hy)]; [exists a, b | exists a', b'];
        rewrite ?elem_of_cons; auto.
    + intros (a' & b' & Ha' & Hf & Hy). apply elem_of_cons in Ha' as [-> | Ha'].
      * left. congruence.
      * right. eauto.
Qed.

(** ** Counting with a boolean filter *)

Lemma length_filter_orb {A} (f g : A -> bool) (l : list A) :
  (length (List.filter (fun x => f x || g x) l) <=
   length (List.filter f l) + length (List.filter g l))%nat.
Proof. induction l as [|a l IH]; simpl; [lia|]. destruct (f a), (g a); simpl; lia. Qed.

(** A test that holds of at most one element of a duplicate-free list
    keeps at most one. *)
Lemma length_filter_unique {A} (f : A -> bool) (l : list A) :
  NoDup l -> (forall x y, x ∈ l -> y ∈ l -> f x = true -> f y = true -> x = y) ->
  (length (List.filter f l) <= 1)%nat.
Proof.
  induction l as [|a l IH]; intros Hnd Hu; simpl; [lia|].
  apply NoDup_cons in Hnd as [Hna Hnd].
  assert (IH' : (length (List.filter f l) <= 1)%nat).
  { apply IH; [done|]. intros x y Hx Hy. apply Hu; by apply elem_of_cons; right. }
  destruct (f a) eqn:Hfa; simpl; [|done].
  destruct (List.filter f l) as [|b l'] eqn:Hl; simpl; [lia|]. exfalso.
  assert (Hb : In b (List.filter f l)) by (rewrite Hl; left; done).
  apply filter_In in Hb as [Hb Hfb]. apply list_elem_of_In in Hb.
  assert (a = b) as -> by (apply Hu; [left | right; done | done | done]).
  by apply Hna.
Qed.

(** Pigeonhole: if each of the [rs] meets at most one of the [cs], and
    there are fewer [rs] than [cs], some [c] meets none of them. *)
Lemma pigeonhole_free {A B} (meets : A -> B -> bool) (rs : list A) (cs : list B) :
  NoDup cs ->
  (forall r c1 c2, r ∈ rs -> c1 ∈ cs -> c2 ∈ cs -> meets r c1 = true -> meets r c2 = true -> c1 = c2) ->
  (length rs < length cs)%nat ->
  exists c, c ∈ cs /\ existsb (fun r => meets r c) rs = false.
Proof.
  intros Hnd Hu Hlt.
  assert (Hcount : (length (List.filter (fun c => existsb (fun r => meets r c) rs) cs) <= length rs)%nat).
  { clear Hlt. induction rs as [|r rs IH]; simpl.
    - clear. induction cs; simpl; lia.
    - etransitivity; [apply (length_filter_orb (meets r))|].
      assert (Hr : r ∈ r :: rs) by (apply elem_of_cons; by left).
      pose proof (length_filter_unique (meets r) cs Hnd (fun c1 c2 => Hu r c1 c2 Hr)).
      assert (length (List.filter (fun c => existsb (fun r => meets r c) rs) cs) <= length rs)%nat
        by (apply IH; intros r' c1 c2 Hr'; apply (Hu r'); by apply elem_of_cons; right). lia. }
  clear Hu Hnd. revert Hcount Hlt. generalize (length rs). intros n.
  revert n. induction cs as [|c cs IH]; intros n Hc Hlt; simpl in *; [lia|].
  destruct (existsb _ rs) eqn:He.
  - simpl in Hc. destruct (IH (n - 1)%nat) as (c' & Hc' & Hf); [lia|lia|].
    exists c'. split; [by right|done].
  - exists c. split; [left|done].
Qed.

Create HintDb dungeon.
Create Rewrite HintDb dungeon_rw.
#[export] Hint Rewrite @length_insert @length_py_range : dungeon_rw.
#[export] Hint Resolve py_setitem_length : dungeon.

(** Case analysis on the boolean tests of the code: each [if] on a
    [Z] comparison becomes two goals with the comparison as a hypothesis. *)
Ltac zbool_cases :=
  repeat match goal with
  | |- context [Z.ltb ?a ?b] => destruct (Z.ltb_spec a b)
  | |- context [Z.leb ?a ?b] => destruct (Z.leb_spec a b)
  | |- context [Z.eqb ?a ?b] => destruct (Z.eqb_spec a b)
  end.

(** Split a chain of [let!] binds that returned [Ok]. *)
Ltac res_inv :=
  repeat match goal with
  | H : res_bind _ _ = Ok _ |- _ =>
      let a := fresh "a" in let Ha := fresh "Ha" in
      apply res_bind_ok in H as (a & Ha & H)
  | H : Ok _ = Ok _ |- _ => injection H as H; subst
  end.

(** [lia] after turning each [/] and [mod] by a constant into equations. *)
Ltac zlia := Z.div_mod_to_equations; lia.
