(* ===== verification/PyFloat.v ===== *)
(** * Python numbers: [float], the [math] functions the game calls, and
    values that are an int or a float.

    The game keeps positions in attributes that hold a Python [int]
    after an assignment of integer arithmetic (the spawn point, a room
    transition) and a [float] after a movement step ([self.x += dx*speed]).
    [pynum] records which one it is, so that [int(self.x)] is exact on an
    int.  The float operations themselves are the class [PyFloat]: an
    interface, not an implementation, since IEEE rounding and libm's
    [atan2] are outside the program.  [QFloat] is an exact-rational
    instance used to run the model on concrete inputs. *)

From S2P Require Import Prelude.
From Stdlib Require Import QArith Qround Qabs.
Local Open Scope Z_scope.

Class PyFloat (F : Type) := {
  flt_of_Z : Z -> F;                 (** [float(n)] *)
  flt_lit : Z -> Z -> F;             (** the literal [m * 10^-k], as [1.4] *)
  flt_add : F -> F -> F;
  flt_sub : F -> F -> F;
  flt_mul : F -> F -> F;
  flt_div : F -> F -> F;
  flt_hypot : F -> F -> F;           (** [math.hypot] *)
  flt_atan2 : F -> F -> F;           (** [math.atan2(y, x)] *)
  flt_degrees : F -> F;              (** [math.degrees] *)
  flt_mod : F -> F -> F;             (** [%] on floats, nonzero divisor *)
  flt_abs : F -> F;                  (** [abs] *)
  flt_eqb : F -> F -> bool;          (** [==] *)
  flt_ltb : F -> F -> bool;          (** [<] *)
  flt_leb : F -> F -> bool;          (** [<=] *)
  flt_int : F -> Z                   (** [int(f)], truncation toward 0 *)
}.

Section Numbers.
Context {F : Type} `{PyFloat F}.

(** A Python attribute holding an int or a float. *)
Inductive pynum := PInt (z : Z) | PFloat (f : F).

(** [float(x)], also the implicit promotion in mixed arithmetic. *)
Definition to_flt (x : pynum) : F :=
  match x with PInt z => flt_of_Z z | PFloat f => f end.

(** [int(x)] *)
Definition py_int (x : pynum) : Z :=
  match x with PInt z => z | PFloat f => flt_int f end.

(** [x + d] for a float [d]: the result is a float. *)
Definition num_add_flt (x : pynum) (d : F) : pynum :=
  PFloat (flt_add (to_flt x) d).

(** [z - x] for an int [z]: int when [x] is an int. *)
Definition int_sub_num (z : Z) (x : pynum) : pynum :=
  match x with
  | PInt a => PInt (z - a)
  | PFloat f => PFloat (flt_sub (flt_of_Z z) f)
  end.
End Numbers.

Arguments pynum F : clear implicits.

(** ** An exact-rational instance, to evaluate the model

    Sums, products and quotients are exact; [hypot] is the square root
    to six decimals and [atan2] a rational approximation (error under
    0.0015 rad) with pi as 355/113.  It runs the model on concrete
    inputs; it is not a model of IEEE rounding. *)
Module QFloat.
Local Open Scope Q_scope.
Abbreviation QF := Q.
Definition q_pi : Q := 355 # 113.

Definition q_sqrt (q : Q) : Q :=
  Qred (Z.sqrt (Qnum q * Zpos (Qden q) * 10 ^ 12) # (Qden q * 1000000)).

Definition q_atan_unit (t : Q) : Q :=
  Qred (t * (q_pi / 4) - t * (Qabs t - 1) * ((2447 # 10000) + (663 # 10000) * Qabs t)).

Definition q_atan2 (y x : Q) : Q :=
  if Qeq_bool x 0 && Qeq_bool y 0 then 0
  else if Qle_bool (Qabs y) (Qabs x) then
    let a := q_atan_unit (y / x) in
    if Qle_bool 0 x then a else if Qle_bool 0 y then Qred (a + q_pi) else Qred (a - q_pi)
  else
    let a := q_atan_unit (x / y) in
    if Qle_bool 0 y then Qred (q_pi / 2 - a) else Qred (- (q_pi / 2) - a).

Definition q_int (q : Q) : Z :=
  if Qle_bool 0 q then Qfloor q else (- Qfloor (- q))%Z.

Definition q_mod (x y : Q) : Q :=
  Qred (x - y * inject_Z (Qfloor (x / y))).

#[export] Instance QFloat : PyFloat Q := {
  flt_of_Z := inject_Z;
  flt_lit m k := Qred (m # Z.to_pos (10 ^ k));
  flt_add x y := Qred (x + y);
  flt_sub x y := Qred (x - y);
  flt_mul x y := Qred (x * y);
  flt_div x y := Qred (x / y);
  flt_hypot x y := q_sqrt (x * x + y * y);
  flt_atan2 := q_atan2;
  flt_degrees x := Qred (x * 180 / q_pi);
  flt_mod := q_mod;
  flt_abs := Qabs;
  flt_eqb := Qeq_bool;
  flt_ltb x y := negb (Qle_bool y x);
  flt_leb := Qle_bool;
  flt_int := q_int
}.
End QFloat.

(** ** Lemmas *)
Section NumberLemmas.
Context {F : Type} `{PyFloat F}.

Lemma py_int_PInt z : py_int (PInt z) = z.
Proof. reflexivity. Qed.

Lemma int_sub_num_PInt z a : py_int (int_sub_num z (PInt a)) = z - a.
Proof. reflexivity. Qed.
End NumberLemmas.

#[export] Hint Rewrite @py_int_PInt @int_sub_num_PInt : dungeon_rw.
