(* ===== verification/Geometry.v ===== *)
(** * Geometry and collision: [pygame.Rect], pixel masks and
    [pixel_collision] (main.py 117-125).

    [Rect] and [colliderect] follow pygame's rectangle (an integer
    origin and size; rectangles of zero width or height collide with
    nothing).  [Mask] is a [pygame.mask.Mask]: a size and the opaque bits;
    [mask_overlap] is [Mask.overlap(other, offset) is not None].  The
    main lemma, [pixel_collision_colliderect], says that a pixel hit at an
    integer position implies that the two bounding rectangles meet, so
    disjoint rectangles never collide pixel-wise. *)

From S2P Require Import Prelude PyFloat.
From Stdlib Require Import Btauto.

(** ** pygame.Rect *)

Record Rect := mkRect { rect_x : Z; rect_y : Z; rect_w : Z; rect_h : Z }.

Definition rect_left (r : Rect) := rect_x r.
Definition rect_top (r : Rect) := rect_y r.
Definition rect_right (r : Rect) := rect_x r + rect_w r.
Definition rect_bottom (r : Rect) := rect_y r + rect_h r.
Definition rect_centerx (r : Rect) := rect_x r + rect_w r / 2.
Definition rect_centery (r : Rect) := rect_y r + rect_h r / 2.

(** [Rect.colliderect]: the open rectangles intersect. *)
Definition colliderect (a b : Rect) : bool :=
  if (rect_w a =? 0) || (rect_h a =? 0) || (rect_w b =? 0) || (rect_h b =? 0)
  then false
  else (Z.min (rect_x a) (rect_right a) <? Z.max (rect_x b) (rect_right b)) &&
       (Z.min (rect_y a) (rect_bottom a) <? Z.max (rect_y b) (rect_bottom b)) &&
       (Z.min (rect_x b) (rect_right b) <? Z.max (rect_x a) (rect_right a)) &&
       (Z.min (rect_y b) (rect_bottom b) <? Z.max (rect_y a) (rect_bottom a)).

(** Things that have a [.rect] property. *)
Class HasRect (A : Type) := rect_of : A -> Rect.

(** A rectangle with positive size. *)
Definition rect_pos (r : Rect) : Prop := 0 < rect_w r /\ 0 < rect_h r.

(** Strict containment of the cell range a rectangle covers. *)
Definition rect_inside (r outer : Rect) : Prop :=
  rect_x outer <= rect_x r /\ rect_right r <= rect_right outer /\
  rect_y outer <= rect_y r /\ rect_bottom r <= rect_bottom outer.

(** ** pygame.mask.Mask *)

Record Mask := mkMask {
  mask_w : Z;
  mask_h : Z;
  mask_bit : Z -> Z -> bool
}.

(** [Mask.get_at], with pixels outside the mask unset. *)
Definition mask_get (m : Mask) (x y : Z) : bool :=
  (0 <=? x) && (x <? mask_w m) && (0 <=? y) && (y <? mask_h m) && mask_bit m x y.

(** [m1.overlap(m2, (ox, oy)) is not None]: some set pixel of [m1]
    lies on a set pixel of [m2] placed at offset [(ox, oy)]. *)
Definition mask_overlap (m1 m2 : Mask) (ox oy : Z) : bool :=
  existsb (fun y =>
    existsb (fun x => mask_get m1 x y && mask_get m2 (x - ox) (y - oy))
      (py_range 0 (mask_w m1)))
    (py_range 0 (mask_h m1)).

(** A mask whose every pixel inside its size is set. *)
Definition full_mask (w h : Z) : Mask := mkMask w h (fun _ _ => true).

Section PixelCollision.
Context {F : Type} `{PyFloat F}.

(** [pixel_collision(obj, tx, ty, tmask)], for [obj] at [(ox, oy)] with
    mask [omask]. *)
Definition pixel_collision (ox oy : pynum F) (omask : Mask)
    (tx ty : Z) (tmask : Mask) : bool :=
  mask_overlap omask tmask (py_int (int_sub_num tx ox)) (py_int (int_sub_num ty oy)).
End PixelCollision.

(** ** Lemmas *)

Lemma colliderect_pos_iff (a b : Rect) :
  rect_pos a -> rect_pos b ->
  colliderect a b = true <->
  rect_x a < rect_right b /\ rect_y a < rect_bottom b /\
  rect_x b < rect_right a /\ rect_y b < rect_bottom a.
Proof.
  destruct a as [ax ay aw ah], b as [bx b_y bw bh].
  unfold rect_pos, colliderect, rect_right, rect_bottom; simpl. intros [] [].
  replace ((aw =? 0) || (ah =? 0) || (bw =? 0) || (bh =? 0)) with false by lia.
  rewrite !Z.min_l, !Z.max_r by lia.
  rewrite !andb_true_iff, !Z.ltb_lt. tauto.
Qed.

Lemma colliderect_sym (a b : Rect) : colliderect a b = colliderect b a.
Proof.
  unfold colliderect.
  destruct (rect_w a =? 0), (rect_h a =? 0), (rect_w b =? 0), (rect_h b =? 0);
    simpl; try reflexivity; btauto.
Qed.

Lemma mask_get_true (m : Mask) (x y : Z) :
  mask_get m x y = true -> 0 <= x < mask_w m /\ 0 <= y < mask_h m.
Proof. unfold mask_get. rewrite !andb_true_iff, !Z.leb_le, !Z.ltb_lt. tauto. Qed.

(** A pixel overlap forces the offset into the range where the two
    masks' boxes meet. *)
Lemma mask_overlap_offset (m1 m2 : Mask) (ox oy : Z) :
  mask_overlap m1 m2 ox oy = true ->
  0 < mask_w m1 /\ 0 < mask_h m1 /\ 0 < mask_w m2 /\ 0 < mask_h m2 /\
  - mask_w m2 < ox < mask_w m1 /\ - mask_h m2 < oy < mask_h m1.
Proof.
  unfold mask_overlap. rewrite existsb_exists.
  intros (y & _ & Hx). apply existsb_exists in Hx as (x & _ & Hb).
  apply andb_true_iff in Hb as [H1 H2].
  apply mask_get_true in H1. apply mask_get_true in H2. lia.
Qed.

Lemma pixel_collision_colliderect {F} `{PyFloat F} (x y : Z) (om : Mask)
    (tx ty : Z) (tm : Mask) :
  pixel_collision (PInt x) (PInt y) om tx ty tm = true ->
  colliderect (mkRect x y (mask_w om) (mask_h om))
              (mkRect tx ty (mask_w tm) (mask_h tm)) = true.
Proof.
  unfold pixel_collision. simpl. intros Hov.
  apply mask_overlap_offset in Hov.
  apply colliderect_pos_iff; unfold rect_pos, rect_right, rect_bottom; simpl; lia.
Qed.

(** The contrapositive used by the placement theorems. *)
Lemma disjoint_no_pixel_collision {F} `{PyFloat F} (x y : Z) (om : Mask)
    (tx ty : Z) (tm : Mask) :
  colliderect (mkRect x y (mask_w om) (mask_h om))
              (mkRect tx ty (mask_w tm) (mask_h tm)) = false ->
  pixel_collision (PInt x) (PInt y) om tx ty tm = false.
Proof.
  intros Hd. destruct (pixel_collision _ _ _ _ _ _) eqn:E; [|done].
  apply pixel_collision_colliderect in E. congruence.
Qed.

(** Growing either rectangle keeps a collision. *)
Lemma colliderect_mono (a a' b b' : Rect) :
  rect_pos a -> rect_pos b -> rect_inside a a' -> rect_inside b b' ->
  colliderect a b = true -> colliderect a' b' = true.
Proof.
  unfold rect_inside, rect_right, rect_bottom. intros Ha Hb Hia Hib Hc.
  assert (rect_pos a') by (unfold rect_pos in *; lia).
  assert (rect_pos b') by (unfold rect_pos in *; lia).
  apply colliderect_pos_iff in Hc; [|done..]. apply colliderect_pos_iff; [done..|].
  unfold rect_right, rect_bottom in *. lia.
Qed.

Lemma rect_inside_refl (r : Rect) : rect_inside r r.
Proof. unfold rect_inside. lia. Qed.

#[export] Hint Resolve disjoint_no_pixel_collision rect_inside_refl : dungeon.
