(* ===== verification/Config.v ===== *)
(** * Constants, enemy kinds, items and sprites (main.py 10-41, 60-112).

    The string keys the code uses for enemy kinds (["spider"], ...) and
    items (["apple"], ...) are the constructors of [EnemyKind] and [Item],
    so a misspelt key cannot occur.  Images are not part of the
    repository: the masks that [load_masked] derives from them, and with
    them the sprite sizes, are the fields of the class [Sprites]. *)

From S2P Require Import Prelude PyFloat Geometry.

(** ** CONSTANTS *)

Definition TILE : Z := 32.
Definition SCREEN_WIDTH : Z := 800.
Definition SCREEN_HEIGHT : Z := 576.
Definition PLAYER_MAX_HEARTS : Z := 5.
Definition PLAYER_IFRAME_MS : Z := 800.
Definition SWORD_RANGE_PIXELS : Z := 110.
Definition SWORD_DAMAGE : Z := 2.
Definition SWORD_ARC_DEG : Z := 90.
Definition SWORD_SWING_MS : Z := 160.
Definition FIREBALL_DAMAGE : Z := 1.
Definition FIREBALL_RANGE : Z := 260.
Definition FIREBALL_COOLDOWN_MS : Z := 1200.
Definition ROOM_COUNT : Z := 10.
Definition FINAL_ROOM_INDEX : Z := ROOM_COUNT - 1.
Definition ROOM_W : Z := SCREEN_WIDTH / TILE.
Definition ROOM_H : Z := SCREEN_HEIGHT / TILE.

Section FloatConstants.
Context {F : Type} `{PyFloat F}.
Definition PLAYER_SPEED : F := flt_lit 20 1.     (** 2.0 *)
Definition FIREBALL_SPEED : F := flt_lit 30 1.   (** 3.0 *)
End FloatConstants.

(** ** Enemy kinds and ENEMY_STATS *)

Inductive EnemyKind := spider | skeleton | ghost | eye.

#[export] Instance EnemyKind_eq_dec : EqDecision EnemyKind.
Proof. solve_decision. Defined.

Record EnemyStats (F : Type) := mkStats {
  stat_hp : Z;
  stat_speed : F;
  stat_contact_damage : Z
}.
Arguments mkStats {F}.
Arguments stat_hp {F}.
Arguments stat_speed {F}.
Arguments stat_contact_damage {F}.

Definition ENEMY_STATS {F} `{PyFloat F} (k : EnemyKind) : EnemyStats F :=
  match k with
  | spider => mkStats 3 (flt_lit 14 1) 2
  | skeleton => mkStats 5 (flt_lit 11 1) 2
  | ghost => mkStats 4 (flt_lit 9 1) 1
  | eye => mkStats 4 (flt_lit 8 1) 0
  end.

(** ** Items *)

Inductive Item := apple | bread | meat | chicken.

#[export] Instance Item_eq_dec : EqDecision Item.
Proof. solve_decision. Defined.

Definition item_index (i : Item) : nat :=
  match i with apple => 0%nat | bread => 1%nat | meat => 2%nat | chicken => 3%nat end.
Definition item_of_index (n : nat) : Item :=
  match n with O => apple | 1%nat => bread | 2%nat => meat | _ => chicken end.

#[export] Instance Item_countable : Countable Item.
Proof. apply (inj_countable' item_index item_of_index). by intros []. Defined.

Definition ITEM_ORDER : list Item := [apple; bread; meat; chicken].

Definition item_heal (i : Item) : Z :=
  match i with apple => 1 | bread => 2 | meat => 3 | chicken => 4 end.

(** ** Sprites: the masks [load_masked] builds from the image files.
    [pygame.mask.from_surface] gives a mask of the image's size, so an
    image's [get_width()]/[get_height()] are its mask's size. *)
Class Sprites := {
  player_mask : Mask;
  wall_mask : Mask;
  enemy_masks : EnemyKind -> Mask;
  chest_mask : Mask
}.

(** Sprites that fill one tile, used to run the model on concrete
    inputs (the repository's art is drawn at the tile size). *)
Definition tile_sprites : Sprites := {|
  player_mask := full_mask TILE TILE;
  wall_mask := full_mask TILE TILE;
  enemy_masks _ := full_mask TILE TILE;
  chest_mask := full_mask TILE TILE
|}.

(** Sprites of at most one tile, the size the game's art is drawn at. *)
Definition tile_sized (m : Mask) : Prop :=
  0 < mask_w m <= TILE /\ 0 < mask_h m <= TILE.

Lemma ITEM_ORDER_complete (i : Item) : i ∈ ITEM_ORDER.
Proof. destruct i; set_solver. Qed.

Lemma item_heal_pos (i : Item) : 1 <= item_heal i <= 4.
Proof. destruct i; simpl; lia. Qed.

#[export] Hint Resolve ITEM_ORDER_complete item_heal_pos : dungeon.

Lemma ROOM_W_eq : ROOM_W = 25.
Proof. reflexivity. Qed.

Lemma ROOM_H_eq : ROOM_H = 18.
Proof. reflexivity. Qed.
