(* ===== verification/Dungeon.v ===== *)
(** * The dungeon graph and the static room generator (main.py 130-218,
    231-241).

    [NEIGHBORS] is the hand-written graph (a dict of dicts: a [gmap] of a
    record with the four direction keys), [ROOM_CONFIG] and [EXTRA_WALLS]
    the per-room tables.  [make_static_room] follows the code step by
    step: an all-wall grid, the interior carved to floor, the extra walls
    put back, then for N, S, E, W in that order the two-tile door gap and
    the door rectangle when the graph has a neighbour there.  Grid writes
    are Python list writes ([py_set2]); a missing dict key raises
    [KeyError].  [room_cell_spec] is the declarative description of a
    room, with the door gaps and door rectangles described geometrically
    ([gap_cell], [pixel_in]) rather than by the code's cell list, and
    [make_static_room_spec] proves the generator meets it. *)

From S2P Require Import Prelude PyFloat Geometry Config.

(** ** Directions and the graph *)

Inductive Dir := North | East | South | West.

#[export] Instance Dir_eq_dec : EqDecision Dir.
Proof. solve_decision. Defined.

Definition dir_index (d : Dir) : nat :=
  match d with North => 0%nat | East => 1%nat | South => 2%nat | West => 3%nat end.
Definition dir_of_index (n : nat) : Dir :=
  match n with O => North | 1%nat => East | 2%nat => South | _ => West end.

#[export] Instance Dir_countable : Countable Dir.
Proof. apply (inj_countable' dir_index dir_of_index). by intros []. Defined.

Definition opposite (d : Dir) : Dir :=
  match d with North => South | South => North | East => West | West => East end.

Definition all_dirs : list Dir := [North; East; South; West].

(** One entry of [NEIGHBORS]: [{"N": .., "E": .., "S": .., "W": ..}]. *)
Record Neigh := mkNeigh { nb_N : option Z; nb_E : option Z; nb_S : option Z; nb_W : option Z }.

(** [n["N"]] and its siblings. *)
Definition nb (n : Neigh) (d : Dir) : option Z :=
  match d with North => nb_N n | East => nb_E n | South => nb_S n | West => nb_W n end.

Definition NEIGHBORS : gmap Z Neigh := list_to_map [
  (0, mkNeigh None (Some 1) (Some 2) None);
  (1, mkNeigh None (Some 3) (Some 4) (Some 0));
  (2, mkNeigh (Some 0) (Some 4) None None);
  (3, mkNeigh None None (Some 6) (Some 1));
  (4, mkNeigh (Some 1) (Some 7) (Some 5) (Some 2));
  (5, mkNeigh (Some 4) (Some 8) None None);
  (6, mkNeigh (Some 3) None None None);
  (7, mkNeigh None (Some 9) None (Some 4));
  (8, mkNeigh (Some 5) None None None);
  (9, mkNeigh None None None None)].

(** ** ROOM_CONFIG and EXTRA_WALLS *)

Inductive Theme := normal | library | final.

Record RoomConfig := mkRoomConfig {
  theme : Theme;
  enemy_min : Z;
  enemy_max : Z;
  enemy_types : list EnemyKind;
  no_chests : bool
}.

(** The body of the dict comprehension, for room [i]. *)
Definition room_config (i : Z) : RoomConfig := {|
  theme := if i =? 9 then final else if (i =? 3) || (i =? 5) then library else normal;
  enemy_min := if i =? 9 then 10 else 8;
  enemy_max := if i =? 9 then 12 else 12;
  enemy_types := if 3 <=? i then [skeleton; ghost; eye] else [spider; skeleton; ghost];
  no_chests := i =? 9
|}.

Definition ROOM_CONFIG : gmap Z RoomConfig :=
  list_to_map ((fun i => (i, room_config i)) <$> py_range 0 ROOM_COUNT).

Definition EXTRA_WALLS : gmap Z (list (Z * Z)) := list_to_map [
  (0, []);
  (1, [(5, 4); (14, 4); (5, 9); (14, 9)]);
  (2, [(8, 5); (11, 5); (8, 8); (11, 8)]);
  (3, [(4, 4); (15, 4); (4, 9); (15, 9)]);
  (4, [(6, 6); (13, 6); (6, 7); (13, 7)]);
  (5, [(3, 5); (16, 5); (9, 3); (9, 10)]);
  (6, [(7, 4); (12, 4); (7, 9); (12, 9)]);
  (7, [(4, 6); (15, 6); (9, 4); (9, 9)]);
  (8, [(6, 4); (13, 4); (6, 9); (13, 9)]);
  (9, [(8, 6); (11, 6); (8, 7); (11, 7)])].

(** ** make_static_room *)

Abbreviation Grid := (list (list Z)).
Abbreviation Doors := (gmap Dir Rect).

Definition mid_x : Z := ROOM_W / 2.
Definition mid_y : Z := ROOM_H / 2.

(** [[[1]*ROOM_W for _ in range(ROOM_H)]]: distinct rows. *)
Definition wall_grid : Grid := replicate (Z.to_nat ROOM_H) (replicate (Z.to_nat ROOM_W) 1).

(** [for y in range(1, ROOM_H-1): for x in range(1, ROOM_W-1): grid[y][x] = 0] *)
Definition carve_interior (g : Grid) : res Grid :=
  res_foldl (fun g y => res_foldl (fun g x => py_set2 g y x 0) g (py_range 1 (ROOM_W - 1)))
    g (py_range 1 (ROOM_H - 1)).

(** [for (x,y) in ...: if 1 <= x < ROOM_W-1 and 1 <= y < ROOM_H-1: grid[y][x] = 1] *)
Definition add_extra_walls (g : Grid) (ws : list (Z * Z)) : res Grid :=
  res_foldl (fun g '(x, y) =>
    if (1 <=? x) && (x <? ROOM_W - 1) && (1 <=? y) && (y <? ROOM_H - 1)
    then py_set2 g y x 1 else Ok g) g ws.

(** The two cells [(y, x)] a door opens, and its rectangle. *)
Definition door_cells (d : Dir) : list (Z * Z) :=
  match d with
  | North => [(0, mid_x - 1); (0, mid_x)]
  | South => [(ROOM_H - 1, mid_x - 1); (ROOM_H - 1, mid_x)]
  | East => [(mid_y - 1, ROOM_W - 1); (mid_y, ROOM_W - 1)]
  | West => [(mid_y - 1, 0); (mid_y, 0)]
  end.

Definition door_rect (d : Dir) : Rect :=
  match d with
  | North => mkRect ((mid_x - 1) * TILE) 0 (2 * TILE) TILE
  | South => mkRect ((mid_x - 1) * TILE) ((ROOM_H - 1) * TILE) (2 * TILE) TILE
  | East => mkRect ((ROOM_W - 1) * TILE) ((mid_y - 1) * TILE) TILE (2 * TILE)
  | West => mkRect 0 ((mid_y - 1) * TILE) TILE (2 * TILE)
  end.

(** [if n[d] is not None: grid[..][..] = 0; grid[..][..] = 0; doors[d] = Rect(..)] *)
Definition carve_door (n : Neigh) (gd : Grid * Doors) (d : Dir) : res (Grid * Doors) :=
  let (g, doors) := gd in
  match nb n d with
  | Some _ =>
      let! g' := res_foldl (fun g '(y, x) => py_set2 g y x 0) g (door_cells d) in
      Ok (g', <[d := door_rect d]> doors)
  | None => Ok gd
  end.

Definition make_static_room (room_index : Z) : res (Grid * Doors) :=
  let! grid := carve_interior wall_grid in
  let! grid := add_extra_walls grid (default [] (EXTRA_WALLS !! room_index)) in
  let! n := dict_get (NEIGHBORS !! room_index) in
  res_foldl (carve_door n) (grid, ∅) [North; South; East; West].

(** [list_walls(grid)]: the pixel origins of the wall cells, row by row. *)
Definition list_walls (g : Grid) : res (list (Z * Z)) :=
  res_concat_map (fun y =>
    res_concat_map (fun x =>
      let! c := py_get2 g y x in
      Ok (if c =? 1 then [(x * TILE, y * TILE)] else []))
    (py_range 0 ROOM_W))
  (py_range 0 ROOM_H).

(** The first loop of [generate_static_dungeon]: [rooms], [room_doors]
    and [room_themes], in room order. *)
Definition build_static_rooms : res (list Grid * list Doors * list Theme) :=
  res_foldl (fun acc i =>
    let '(rs, ds, ts) := acc in
    let! gd := make_static_room i in
    let! cfg := dict_get (ROOM_CONFIG !! i) in
    Ok (rs ++ [gd.1], ds ++ [gd.2], ts ++ [theme cfg]))
    ([], [], []) (py_range 0 ROOM_COUNT).

(** ** The declarative room *)

(** The graph entry of room [i] ([NEIGHBORS[i]] for the ten rooms). *)
Definition neighbors (i : Z) : Neigh :=
  default (mkNeigh None None None None) (NEIGHBORS !! i).

Definition is_extra_wall (i x y : Z) : bool :=
  existsb (fun '(a, b) => (a =? x) && (b =? y)) (default [] (EXTRA_WALLS !! i)).

(** The door gap of side [d], described geometrically and apart from
    the code's cell list: the two cells of that edge of the grid whose
    centres lie half a tile either side of the grid line [ROOM_W // 2]
    (north and south) or [ROOM_H // 2] (east and west). *)
Definition gap_cell (d : Dir) (x y : Z) : bool :=
  let astride c n := Z.abs (2 * c + 1 - 2 * (n / 2)) =? 1 in
  match d with
  | North => (y =? 0) && astride x ROOM_W
  | South => (y =? ROOM_H - 1) && astride x ROOM_W
  | East => (x =? ROOM_W - 1) && astride y ROOM_H
  | West => (x =? 0) && astride y ROOM_H
  end.

Definition in_door_gap (i x y : Z) : bool :=
  existsb (fun d =>
    match nb (neighbors i) d with
    | Some _ => gap_cell d x y
    | None => false
    end) all_dirs.

(** [Rect.collidepoint]: the pixel [(px, py)] lies in [r]. *)
Definition pixel_in (r : Rect) (px py : Z) : bool :=
  (rect_left r <=? px) && (px <? rect_right r) && (rect_top r <=? py) && (py <? rect_bottom r).

Definition interior (x y : Z) : bool :=
  (1 <=? x) && (x <? ROOM_W - 1) && (1 <=? y) && (y <? ROOM_H - 1).

(** A room cell: door gaps are floor, the rest of the border is wall,
    the interior is floor but for the extra walls. *)
Definition room_cell_spec (i x y : Z) : Z :=
  if in_door_gap i x y then 0
  else if interior x y then (if is_extra_wall i x y then 1 else 0)
  else 1.

(** A door on side [d] exactly when the graph has a neighbour there. *)
Definition doors_spec (i : Z) (d : Dir) : option Rect :=
  match nb (neighbors i) d with Some _ => Some (door_rect d) | None => None end.

(** ** Executable checks, and what they mean *)

Definition grid_matches_b (g : Grid) (spec : Z -> Z -> Z) : bool :=
  (length g =? Z.to_nat ROOM_H)%nat &&
  forallb (fun row => (length row =? Z.to_nat ROOM_W)%nat) g &&
  forallb (fun y => forallb (fun x =>
    bool_decide (grid_at g x y = Some (spec x y))) (py_range 0 ROOM_W)) (py_range 0 ROOM_H).

#[export] Instance Rect_eq_dec : EqDecision Rect.
Proof. solve_decision. Defined.

Definition doors_match_b (i : Z) (ds : Doors) : bool :=
  forallb (fun d => bool_decide (ds !! d = doors_spec i d)) all_dirs.

Definition room_check_b (i : Z) : bool :=
  match make_static_room i with
  | Ok (g, ds) => grid_matches_b g (room_cell_spec i) && doors_match_b i ds
  | Raise _ => false
  end.

(** A grid of the room's shape. *)
Definition grid_shaped (g : Grid) : Prop :=
  length g = Z.to_nat ROOM_H /\ Forall (fun row => length row = Z.to_nat ROOM_W) g.

(** The lists [generate_static_dungeon] leaves in [rooms] and
    [room_doors]: room [i]'s grid and door dict at index [i]. *)
Definition static_rooms : list Grid :=
  (fun i => match make_static_room i with Ok (g, _) => g | Raise _ => [] end) <$> py_range 0 ROOM_COUNT.
Definition static_room_doors : list Doors :=
  (fun i => match make_static_room i with Ok (_, ds) => ds | Raise _ => ∅ end) <$> py_range 0 ROOM_COUNT.
Definition static_themes : list Theme := (fun i => theme (room_config i)) <$> py_range 0 ROOM_COUNT.

(** A cell's rectangle, and the whole room's. *)
Definition tile_rect (cx cy : Z) : Rect := mkRect (cx * TILE) (cy * TILE) TILE TILE.
Definition room_rect : Rect := mkRect 0 0 SCREEN_WIDTH SCREEN_HEIGHT.

(** ** Lemmas *)

Lemma grid_matches_b_sound g spec :
  grid_matches_b g spec = true ->
  grid_shaped g /\
  forall x y, 0 <= x < ROOM_W -> 0 <= y < ROOM_H -> grid_at g x y = Some (spec x y).
Proof.
  unfold grid_matches_b. rewrite !andb_true_iff, Nat.eqb_eq, forallb_forall.
  intros [[Hlen Hrows] Hcells]. split.
  - split; [done|]. apply Forall_forall. intros row Hrow.
    apply list_elem_of_In, Hrows in Hrow. by apply Nat.eqb_eq.
  - intros x y Hx Hy.
    pose proof (forallb_py_range _ 0 ROOM_H Hcells y Hy) as Hr.
    pose proof (forallb_py_range _ 0 ROOM_W Hr x Hx) as Hc.
    by apply bool_decide_eq_true in Hc.
Qed.

Lemma doors_match_b_sound i ds :
  doors_match_b i ds = true -> forall d, ds !! d = doors_spec i d.
Proof.
  unfold doors_match_b. rewrite forallb_forall. intros Hall d.
  apply (bool_decide_eq_true _), Hall. destruct d; simpl; tauto.
Qed.

(** The code's door rectangle covers exactly the pixels of the tiles of
    the declarative gap. *)
Lemma door_rect_gap d px py :
  pixel_in (door_rect d) px py = true <->
  0 <= px /\ 0 <= py /\ gap_cell d (px / TILE) (py / TILE) = true.
Proof.
  unfold pixel_in, gap_cell, rect_left, rect_right, rect_top, rect_bottom.
  destruct d; cbn [door_rect rect_x rect_y rect_w rect_h];
    unfold mid_x, mid_y, ROOM_W, ROOM_H, SCREEN_WIDTH, SCREEN_HEIGHT, TILE;
    rewrite !andb_true_iff, ?Z.eqb_eq, ?Z.leb_le, ?Z.ltb_lt; zlia.
Qed.

(** In a room-shaped grid every in-range read succeeds and agrees with
    [grid_at]. *)
Lemma py_get2_shaped g x y :
  grid_shaped g -> 0 <= x < ROOM_W -> 0 <= y < ROOM_H ->
  exists c, py_get2 g y x = Ok c /\ grid_at g x y = Some c.
Proof.
  intros [Hlen Hrows] Hx Hy.
  assert (Z.of_nat (length g) = ROOM_H) as Hlen' by (rewrite Hlen; reflexivity).
  destruct (py_getitem_ok g y) as (row & Hrow & Hget); [lia|].
  assert (Z.of_nat (length row) = ROOM_W) as Hrl.
  { rewrite (Forall_lookup_1 _ _ _ _ Hrows Hrow). reflexivity. }
  destruct (py_getitem_ok row x) as (c & Hc & Hgetc); [lia|].
  exists c. unfold py_get2, grid_at. rewrite Hget; simpl. split; [done|].
  replace ((0 <=? x) && (0 <=? y)) with true by lia. by rewrite Hrow.
Qed.

Lemma res_concat_map_ok {A B} (f : A -> res (list B)) (l : list A) :
  (forall a, a ∈ l -> exists b, f a = Ok b) -> exists bs, res_concat_map f l = Ok bs.
Proof.
  induction l as [|a l IH]; intros Hall; simpl; [eauto|].
  destruct (Hall a) as [b ->]; [set_solver|]. simpl.
  destruct IH as [bs ->]; [set_solver|]. simpl. eauto.
Qed.

(** ** Theorems *)

(** The generator meets the declarative room, checked room by room. *)
Lemma make_static_room_correct (i : Z) :
  0 <= i < ROOM_COUNT ->
  exists g ds, make_static_room i = Ok (g, ds) /\ grid_shaped g /\
    (forall x y, 0 <= x < ROOM_W -> 0 <= y < ROOM_H -> grid_at g x y = Some (room_cell_spec i x y)) /\
    (forall d, ds !! d = doors_spec i d).
Proof.
  intros Hi.
  assert (Hall : forallb room_check_b (py_range 0 ROOM_COUNT) = true) by (vm_compute; reflexivity).
  pose proof (forallb_py_range _ _ _ Hall i Hi) as Hc. unfold room_check_b in Hc.
  destruct (make_static_room i) as [[g ds]|]; [|done].
  apply andb_true_iff in Hc as [Hg Hd].
  apply grid_matches_b_sound in Hg as [Hshape Hcells].
  exists g, ds. eauto using doors_match_b_sound.
Qed.

(** C2: the generator meets the declarative room.  For each of the ten
    rooms, [make_static_room] returns without raising a grid of the
    room's shape whose every cell is [room_cell_spec] (border wall but
    for the door gaps, interior floor but for the extra walls), and a door
    dict with a door exactly on the sides where [NEIGHBORS] has a
    neighbour, whose rectangle covers exactly the pixels of that side's
    two gap tiles astride the midline ([gap_cell]). *)
Theorem make_static_room_spec (i : Z) :
  0 <= i < ROOM_COUNT ->
  exists g ds, make_static_room i = Ok (g, ds) /\ grid_shaped g /\
    (forall x y, 0 <= x < ROOM_W -> 0 <= y < ROOM_H -> grid_at g x y = Some (room_cell_spec i x y)) /\
    (forall d, match ds !! d with
       | Some r => nb (neighbors i) d <> None /\
           forall px py, pixel_in r px py = true <->
             0 <= px /\ 0 <= py /\ gap_cell d (px / TILE) (py / TILE) = true
       | None => nb (neighbors i) d = None
       end).
Proof.
  intros Hi. destruct (make_static_room_correct i Hi) as (g & ds & Hm & Hs & Hc & Hd).
  exists g, ds. do 3 (split; [done|]). intros d. rewrite Hd. unfold doors_spec.
  destruct (nb _ d); [|done]. split; [done|]. apply door_rect_gap.
Qed.

Lemma make_static_room_spec_witness :
  0 <= 4 < ROOM_COUNT /\
  exists g ds, make_static_room 4 = Ok (g, ds) /\ grid_shaped g /\
    (forall x y, 0 <= x < ROOM_W -> 0 <= y < ROOM_H -> grid_at g x y = Some (room_cell_spec 4 x y)) /\
    (forall d, match ds !! d with
       | Some r => nb (neighbors 4) d <> None /\
           forall px py, pixel_in r px py = true <->
             0 <= px /\ 0 <= py /\ gap_cell d (px / TILE) (py / TILE) = true
       | None => nb (neighbors 4) d = None
       end).
Proof. split; [unfold ROOM_COUNT; lia|]. apply (make_static_room_spec 4). unfold ROOM_COUNT; lia. Defined.

(** A room index outside the graph raises [KeyError] at
    [NEIGHBORS[room_index]] ([EXTRA_WALLS.get] has a default and does not). *)
Lemma make_static_room_keyerror (i : Z) :
  i < 0 \/ ROOM_COUNT <= i -> make_static_room i = Raise KeyError.
Proof.
  intros Hi.
  assert (HE : EXTRA_WALLS !! i = None).
  { apply not_elem_of_list_to_map_1. rewrite list_elem_of_In. simpl. unfold ROOM_COUNT in Hi. lia. }
  assert (HN : NEIGHBORS !! i = None).
  { apply not_elem_of_list_to_map_1. rewrite list_elem_of_In. simpl. unfold ROOM_COUNT in Hi. lia. }
  unfold make_static_room. rewrite HE, HN.
  destruct (carve_interior wall_grid) eqn:E; [reflexivity|]. vm_compute in E. discriminate.
Qed.

(** What [list_walls] returns on a room-shaped grid. *)
Lemma list_walls_correct (g : Grid) :
  grid_shaped g ->
  exists ws, list_walls g = Ok ws /\
    forall p, p ∈ ws <-> exists x y, 0 <= x < ROOM_W /\ 0 <= y < ROOM_H /\
      grid_at g x y = Some 1 /\ p = (x * TILE, y * TILE).
Proof.
  intros Hg. unfold list_walls.
  set (row y := res_concat_map (fun x => let! c := py_get2 g y x in
                  Ok (if c =? 1 then [(x * TILE, y * TILE)] else [])) (py_range 0 ROOM_W)).
  assert (Hrow : forall y, 0 <= y < ROOM_H -> exists bs, row y = Ok bs /\ forall p, p ∈ bs <->
            exists x, 0 <= x < ROOM_W /\ grid_at g x y = Some 1 /\ p = (x * TILE, y * TILE)).
  { intros y Hy. destruct (res_concat_map_ok (fun x => let! c := py_get2 g y x in
        Ok (if c =? 1 then [(x * TILE, y * TILE)] else [])) (py_range 0 ROOM_W)) as [bs Hbs].
    { intros x Hx%py_range_spec. destruct (py_get2_shaped g x y) as (c & -> & _); eauto. }
    exists bs. split; [done|]. intros p. rewrite (res_concat_map_elem _ _ _ Hbs). split.
    - intros (x & b & Hx%py_range_spec & Hf & Hp).
      destruct (py_get2_shaped g x y) as (c & Hc & Hat); [done..|].
      rewrite Hc in Hf. simpl in Hf. injection Hf as <-.
      destruct (Z.eqb_spec c 1) as [Hc1|]; [subst c|by apply not_elem_of_nil in Hp].
      apply list_elem_of_singleton in Hp. eauto.
    - intros (x & Hx & Hat & ->).
      destruct (py_get2_shaped g x y) as (c & Hc & Hat'); [done..|].
      rewrite Hat in Hat'. injection Hat' as <-.
      exists x, [(x * TILE, y * TILE)]. rewrite py_range_spec, Hc. simpl.
      split; [done|]. split; [done|]. by apply list_elem_of_singleton. }
  destruct (res_concat_map_ok row (py_range 0 ROOM_H)) as [ws Hws].
  { intros y Hy%py_range_spec. destruct (Hrow y Hy) as (bs & -> & _). eauto. }
  exists ws. split; [done|]. intros p. rewrite (res_concat_map_elem _ _ _ Hws). split.
  - intros (y & bs & Hy%py_range_spec & Hr & Hp).
    destruct (Hrow y Hy) as (bs' & Hr' & Hspec). rewrite Hr in Hr'. injection Hr' as <-.
    apply Hspec in Hp as (x & ? & ? & ->). eauto 10.
  - intros (x & y & Hx & Hy & Hat & ->).
    destruct (Hrow y Hy) as (bs & Hr & Hspec). exists y, bs.
    rewrite py_range_spec. split; [done|]. split; [done|]. apply Hspec. eauto.
Qed.

(** C11: [list_walls] lists exactly the wall cells.  On a room-shaped
    grid it returns, and a point is in its result exactly when it is the
    pixel origin [(x*TILE, y*TILE)] of a cell holding 1. *)
Theorem list_walls_spec (g : Grid) :
  grid_shaped g ->
  exists ws, list_walls g = Ok ws /\
    forall p, p ∈ ws <-> exists x y, 0 <= x < ROOM_W /\ 0 <= y < ROOM_H /\
      grid_at g x y = Some 1 /\ p = (x * TILE, y * TILE).
Proof. exact (list_walls_correct g). Qed.

Lemma list_walls_spec_witness :
  grid_shaped wall_grid /\
  exists ws, list_walls wall_grid = Ok ws /\
    forall p, p ∈ ws <-> exists x y, 0 <= x < ROOM_W /\ 0 <= y < ROOM_H /\
      grid_at wall_grid x y = Some 1 /\ p = (x * TILE, y * TILE).
Proof.
  assert (Hs : grid_shaped wall_grid) by (split; [reflexivity | repeat constructor]).
  split; [exact Hs|]. apply (list_walls_spec wall_grid). exact Hs.
Defined.

(** A cell's pixel origin is listed exactly when the cell holds 1. *)
Lemma list_walls_cell_mem (g : Grid) ws x y :
  grid_shaped g -> list_walls g = Ok ws -> 0 <= x < ROOM_W -> 0 <= y < ROOM_H ->
  (x * TILE, y * TILE) ∈ ws <-> grid_at g x y = Some 1.
Proof.
  intros Hg Hws Hx Hy. destruct (list_walls_correct g Hg) as (ws' & Hws' & Hspec).
  rewrite Hws in Hws'. injection Hws' as <-. rewrite Hspec. split; [|eauto 10].
  intros (x' & y' & _ & _ & Hat & Heq). injection Heq as Hx' Hy'.
  assert (x' = x) as -> by (unfold TILE in *; lia).
  assert (y' = y) as -> by (unfold TILE in *; lia). done.
Qed.

Lemma build_static_rooms_eq :
  build_static_rooms = Ok (static_rooms, static_room_doors, static_themes).
Proof. vm_compute. reflexivity. Qed.

Lemma NEIGHBORS_lookup c : 0 <= c < ROOM_COUNT -> NEIGHBORS !! c = Some (neighbors c).
Proof.
  intros Hc. unfold neighbors.
  assert (Hall : forallb (fun c => bool_decide (is_Some (NEIGHBORS !! c))) (py_range 0 ROOM_COUNT) = true)
    by (vm_compute; reflexivity).
  pose proof (forallb_py_range _ _ _ Hall c Hc) as Hs%bool_decide_eq_true.
  by destruct Hs as [n ->].
Qed.

(** Every room has a configuration, with at least one enemy kind. *)
Lemma ROOM_CONFIG_lookup c :
  0 <= c < ROOM_COUNT -> exists cfg, ROOM_CONFIG !! c = Some cfg /\ enemy_types cfg <> [].
Proof.
  intros Hc.
  assert (Hall : forallb (fun c => match ROOM_CONFIG !! c with
                                   | Some cfg => match enemy_types cfg with [] => false | _ => true end
                                   | None => false end) (py_range 0 ROOM_COUNT) = true)
    by (vm_compute; reflexivity).
  pose proof (forallb_py_range _ _ _ Hall c Hc) as Hs. cbv beta in Hs.
  destruct (ROOM_CONFIG !! c) as [cfg|]; [|done]. exists cfg. split; [done|].
  by destruct (enemy_types cfg).
Qed.

(** Every edge of the graph leads to one of the ten rooms. *)
Lemma neighbors_in_range c d t :
  0 <= c < ROOM_COUNT -> nb (neighbors c) d = Some t -> 0 <= t < ROOM_COUNT.
Proof.
  intros Hc Ht.
  assert (Hall : forallb (fun c => forallb (fun d =>
      match nb (neighbors c) d with Some t => (0 <=? t) && (t <? ROOM_COUNT) | None => true end)
      all_dirs) (py_range 0 ROOM_COUNT) = true) by (vm_compute; reflexivity).
  pose proof (forallb_py_range _ _ _ Hall c Hc) as Hd. rewrite forallb_forall in Hd.
  specialize (Hd d ltac:(destruct d; simpl; tauto)). rewrite Ht in Hd. lia.
Qed.

(** [room_doors[c]] for a room of the dungeon is its door dict. *)
Lemma static_doors_get c :
  0 <= c < ROOM_COUNT ->
  exists ds, py_getitem static_room_doors c = Ok ds /\ forall d, ds !! d = doors_spec c d.
Proof.
  intros Hc. destruct (make_static_room_correct c Hc) as (g & ds & Hm & _ & _ & Hds).
  exists ds. split; [|done].
  unfold static_room_doors. by rewrite py_getitem_fmap_range, Hm.
Qed.

(** Room [c]'s grid is room-shaped; its theme is [ROOM_CONFIG[c]["theme"]]. *)
Lemma static_rooms_get c :
  0 <= c < ROOM_COUNT -> exists g, py_getitem static_rooms c = Ok g /\ grid_shaped g /\
    forall x y, 0 <= x < ROOM_W -> 0 <= y < ROOM_H -> grid_at g x y = Some (room_cell_spec c x y).
Proof.
  intros Hc. destruct (make_static_room_correct c Hc) as (g & ds & Hm & Hshape & Hcells & _).
  exists g. split; [|exact (conj Hshape Hcells)].
  unfold static_rooms. by rewrite py_getitem_fmap_range, Hm.
Qed.

Lemma static_themes_get c :
  0 <= c < ROOM_COUNT -> py_getitem static_themes c = Ok (theme (room_config c)).
Proof. intros Hc. unfold static_themes. by rewrite py_getitem_fmap_range. Qed.

(** The cells that hold 1 in a room of the dungeon are the wall cells
    of [room_cell_spec], and [list_walls] lists their origins. *)
Lemma static_walls c :
  0 <= c < ROOM_COUNT ->
  exists g ws, py_getitem static_rooms c = Ok g /\ list_walls g = Ok ws /\
    forall p, p ∈ ws <-> exists x y, 0 <= x < ROOM_W /\ 0 <= y < ROOM_H /\
      room_cell_spec c x y = 1 /\ p = (x * TILE, y * TILE).
Proof.
  intros Hc. destruct (make_static_room_correct c Hc) as (g & ds & Hm & Hshape & Hcells & _).
  destruct (list_walls_correct g Hshape) as (ws & Hws & Hspec).
  exists g, ws. split; [|split; [done|]].
  - unfold static_rooms. by rewrite py_getitem_fmap_range, Hm.
  - intros p. rewrite Hspec. split.
    + intros (x & y & Hx & Hy & Hat & ->). rewrite Hcells in Hat by done.
      injection Hat. eauto 10.
    + intros (x & y & Hx & Hy & Hat & ->). exists x, y. rewrite Hcells by done. rewrite Hat. eauto.
Qed.
