(* ===== verification/Player.v ===== *)
(** * The player (main.py 121-125, 273-356).

    [Player] has the attributes [__init__] sets, in the same order.  The
    methods are functions from the old player to the new one; the time
    [pygame.time.get_ticks()] they read is the argument [now].  Movement
    applies the whole tentative step and rolls both axes back on the
    first wall a pixel test hits.  The attack is the pair
    [attacking]/[attack_end_time]: it starts only on a target in sword
    range and ends by time alone.  [take_damage] is ignored before
    [invuln_until], floors health at 0 and marks the player dead at 0;
    [heal] has no liveness guard. *)

From S2P Require Import Prelude PyFloat Geometry Config.

Section PlayerModel.
Context {F : Type} `{PyFloat F} `{Sprites}.

Record Player := mkPlayer {
  p_x : pynum F;
  p_y : pynum F;
  p_speed : F;
  p_mask : Mask;
  p_width : Z;
  p_height : Z;
  p_max_health : Z;
  p_health : Z;
  p_invuln_until : Z;
  p_alive : bool;
  p_attacking : bool;
  p_attack_angle : pynum F;
  p_attack_end_time : Z
}.

(** [Player.__init__] *)
Definition player_init : Player := {|
  p_x := PInt (TILE * 2);
  p_y := PInt (TILE * 2);
  p_speed := PLAYER_SPEED;
  p_mask := player_mask;
  p_width := mask_w player_mask;
  p_height := mask_h player_mask;
  p_max_health := PLAYER_MAX_HEARTS * 2;
  p_health := PLAYER_MAX_HEARTS * 2;
  p_invuln_until := 0;
  p_alive := true;
  p_attacking := false;
  p_attack_angle := PInt 0;
  p_attack_end_time := 0
|}.

(** Assignments to attributes. *)
Definition set_pos (p : Player) (x y : pynum F) : Player :=
  mkPlayer x y (p_speed p) (p_mask p) (p_width p) (p_height p) (p_max_health p)
    (p_health p) (p_invuln_until p) (p_alive p) (p_attacking p) (p_attack_angle p)
    (p_attack_end_time p).

Definition set_health (p : Player) (h invuln : Z) (alive : bool) : Player :=
  mkPlayer (p_x p) (p_y p) (p_speed p) (p_mask p) (p_width p) (p_height p)
    (p_max_health p) h invuln alive (p_attacking p) (p_attack_angle p)
    (p_attack_end_time p).

Definition set_attack (p : Player) (attacking : bool) (angle : pynum F) (t_end : Z) : Player :=
  mkPlayer (p_x p) (p_y p) (p_speed p) (p_mask p) (p_width p) (p_height p)
    (p_max_health p) (p_health p) (p_invuln_until p) (p_alive p) attacking angle t_end.

(** [Player.rect] and [Player.center] *)
Definition player_rect (p : Player) : Rect :=
  mkRect (py_int (p_x p)) (py_int (p_y p)) (p_width p) (p_height p).

#[global] Instance Player_HasRect : HasRect Player := player_rect.

Definition player_center (p : Player) : Z * Z :=
  (rect_centerx (player_rect p), rect_centery (player_rect p)).

(** [angle_between] and [angle_diff] *)
Definition angle_between (dx dy : F) : F := flt_degrees (flt_atan2 dy dx).

Definition angle_diff (a b : F) : F :=
  flt_sub (flt_mod (flt_add (flt_sub a b) (flt_of_Z 180)) (flt_of_Z 360)) (flt_of_Z 180).

(** The loop [for wx,wy in walls: if pixel_collision(...): ... break]. *)
Definition hits_wall (x y : pynum F) (m : Mask) (walls : list (Z * Z)) : bool :=
  existsb (fun '(wx, wy) => pixel_collision x y m wx wy wall_mask) walls.

(** [Player.move(dx, dy, walls, grid)] *)
Definition move (p : Player) (dx dy : Z) (walls : list (Z * Z)) : Player :=
  if ((dx =? 0) && (dy =? 0)) || negb (p_alive p) then p
  else
    let l := flt_hypot (flt_of_Z dx) (flt_of_Z dy) in
    let fdx := flt_div (flt_of_Z dx) l in
    let fdy := flt_div (flt_of_Z dy) l in
    let x' := num_add_flt (p_x p) (flt_mul fdx (p_speed p)) in
    let y' := num_add_flt (p_y p) (flt_mul fdy (p_speed p)) in
    if hits_wall x' y' (p_mask p) walls then p else set_pos p x' y'.

(** [Player.start_attack(mpos)] at time [now] *)
Definition start_attack (p : Player) (mx my : Z) (now : Z) : Player :=
  if negb (p_alive p) then p
  else
    let '(px, py) := player_center p in
    let dx := mx - px in
    let dy := my - py in
    let d := flt_hypot (flt_of_Z dx) (flt_of_Z dy) in
    if flt_eqb d (flt_of_Z 0) || flt_ltb (flt_of_Z SWORD_RANGE_PIXELS) d then p
    else set_attack p true (PFloat (angle_between (flt_of_Z dx) (flt_of_Z dy)))
           (now + SWORD_SWING_MS).

(** [Player.update_attack()] *)
Definition update_attack (p : Player) (now : Z) : Player :=
  if p_attacking p && (p_attack_end_time p <=? now)
  then set_attack p false (p_attack_angle p) (p_attack_end_time p)
  else p.

(** [Player.can_hit(e)] for an enemy whose rect is [er] *)
Definition can_hit (p : Player) (er : Rect) : bool :=
  if negb (p_attacking p) then false
  else
    let '(px, py) := player_center p in
    let dx := rect_centerx er - px in
    let dy := rect_centery er - py in
    let d := flt_hypot (flt_of_Z dx) (flt_of_Z dy) in
    if flt_ltb (flt_of_Z SWORD_RANGE_PIXELS) d then false
    else
      let diff := flt_abs (angle_diff (angle_between (flt_of_Z dx) (flt_of_Z dy))
                                      (to_flt (p_attack_angle p))) in
      flt_leb diff (flt_div (flt_of_Z SWORD_ARC_DEG) (flt_of_Z 2)).

(** [Player.take_damage(dmg)] at time [now] *)
Definition take_damage (p : Player) (dmg now : Z) : Player :=
  if now <? p_invuln_until p then p
  else
    let h := p_health p - dmg in
    let h := if h <? 0 then 0 else h in
    set_health p h (now + PLAYER_IFRAME_MS) (if h =? 0 then false else p_alive p).

(** [Player.heal(amt)] *)
Definition heal (p : Player) (amt : Z) : Player :=
  set_health p (Z.min (p_health p + amt) (p_max_health p)) (p_invuln_until p) (p_alive p).

(** ** The health invariant *)

Definition player_inv (p : Player) : Prop :=
  0 <= p_health p <= p_max_health p /\ (p_health p = 0 <-> p_alive p = false).

End PlayerModel.

Arguments Player F : clear implicits.

Section PlayerTheorems.
Context {F : Type} `{PyFloat F} `{Sprites}.
Implicit Types p : Player F.

(** Operations the loop applies to a player, with the argument ranges
    the code passes: damages are [contact_damage] or [FIREBALL_DAMAGE]
    ([>= 0]); [heal] is called from the play state only, where the
    player is alive (the loop leaves the play state on death). *)
Inductive player_reach : Player F -> Prop :=
| reach_init : player_reach player_init
| reach_move p dx dy walls : player_reach p -> player_reach (move p dx dy walls)
| reach_attack p mx my now : player_reach p -> player_reach (start_attack p mx my now)
| reach_update p now : player_reach p -> player_reach (update_attack p now)
| reach_damage p dmg now : player_reach p -> 0 <= dmg -> player_reach (take_damage p dmg now)
| reach_heal p amt : player_reach p -> p_alive p = true -> 0 <= amt ->
    player_reach (heal p amt).

(** ** Lemmas: which fields each operation leaves alone *)

Lemma move_health p dx dy walls :
  p_health (move p dx dy walls) = p_health p /\ p_alive (move p dx dy walls) = p_alive p /\
  p_max_health (move p dx dy walls) = p_max_health p.
Proof. unfold move. repeat case_match; simpl; auto. Qed.

Lemma start_attack_health p mx my now :
  p_health (start_attack p mx my now) = p_health p /\
  p_alive (start_attack p mx my now) = p_alive p /\
  p_max_health (start_attack p mx my now) = p_max_health p.
Proof. unfold start_attack. repeat case_match; simpl; auto. Qed.

Lemma update_attack_health p now :
  p_health (update_attack p now) = p_health p /\ p_alive (update_attack p now) = p_alive p /\
  p_max_health (update_attack p now) = p_max_health p.
Proof. unfold update_attack. repeat case_match; simpl; auto. Qed.

Lemma player_inv_same_health p p' :
  p_health p' = p_health p /\ p_alive p' = p_alive p /\ p_max_health p' = p_max_health p ->
  player_inv p -> player_inv p'.
Proof. unfold player_inv. intros (-> & -> & ->). done. Qed.

Lemma take_damage_inv p dmg now :
  player_inv p -> 0 <= dmg -> player_inv (take_damage p dmg now).
Proof.
  unfold player_inv, take_damage. intros [Hb Hz] Hd.
  destruct (Z.ltb_spec now (p_invuln_until p)); [done|]. simpl.
  destruct (Z.ltb_spec (p_health p - dmg) 0); simpl.
  - split; [lia|tauto].
  - destruct (Z.eqb_spec (p_health p - dmg) 0); split; try lia; split; intros; try tauto; try lia.
    apply Hz in H3 as ?. lia.
Qed.

Lemma take_damage_invuln p dmg now : now < p_invuln_until p -> take_damage p dmg now = p.
Proof. intros Hinv. unfold take_damage. by rewrite (proj2 (Z.ltb_lt _ _) Hinv). Qed.

(** A second hit in the same frame does nothing. *)
Lemma take_damage_same_frame p d1 d2 now :
  take_damage (take_damage p d1 now) d2 now = take_damage p d1 now.
Proof.
  destruct (Z.ltb_spec now (p_invuln_until p)) as [Hinv|Hinv].
  - rewrite (take_damage_invuln p d1 now Hinv). by apply take_damage_invuln.
  - apply take_damage_invuln. unfold take_damage. rewrite (proj2 (Z.ltb_ge _ _) Hinv).
    simpl. unfold PLAYER_IFRAME_MS. lia.
Qed.

Lemma take_damage_rect p d now : player_rect (take_damage p d now) = player_rect p.
Proof. unfold take_damage. by destruct (_ <? _). Qed.

Lemma heal_inv p amt :
  player_inv p -> p_alive p = true -> 0 <= amt -> player_inv (heal p amt).
Proof.
  unfold player_inv, heal. simpl. intros [Hb Hz] Ha Hamt. rewrite Ha in *.
  split; [lia|]. split; [|done]. intros Hmin. exfalso.
  assert (p_health p <> 0) by (intros ?%Hz; done). lia.
Qed.

(** ** Theorems *)

(** C7: the health invariant.  In every player the loop can reach,
    health is in [0, max_health] and is 0 exactly when the player is
    dead. *)
Theorem player_reach_inv p : player_reach p -> player_inv p.
Proof.
  induction 1.
  - unfold player_inv; simpl. unfold PLAYER_MAX_HEARTS. lia.
  - eapply player_inv_same_health; [apply move_health | done].
  - eapply player_inv_same_health; [apply start_attack_health | done].
  - eapply player_inv_same_health; [apply update_attack_health | done].
  - by apply take_damage_inv.
  - by apply heal_inv.
Qed.

(** C4: invulnerability frames.  Of two hits at times [now <= now' <
    now + PLAYER_IFRAME_MS], either the first is ignored or the second
    leaves the player exactly as the first left it: health changes at
    most once. *)
Theorem take_damage_iframes p d1 d2 now now' :
  now <= now' < now + PLAYER_IFRAME_MS ->
  take_damage p d1 now = p \/ take_damage (take_damage p d1 now) d2 now' = take_damage p d1 now.
Proof.
  intros Hw. unfold take_damage.
  destruct (Z.ltb_spec now (p_invuln_until p)); [by left|]. right. simpl.
  destruct (Z.ltb_spec now' (now + PLAYER_IFRAME_MS)); [done|lia].
Qed.

(** A dead player stays dead and at zero health under damage. *)
Lemma take_damage_dead p dmg now :
  player_inv p -> p_alive p = false -> 0 <= dmg ->
  p_health (take_damage p dmg now) = 0 /\ p_alive (take_damage p dmg now) = false.
Proof.
  intros [Hb Hz] Ha Hd. apply Hz in Ha as Hh. unfold take_damage.
  destruct (Z.ltb_spec now (p_invuln_until p)); [done|]. simpl.
  rewrite Hh. destruct (Z.ltb_spec (0 - dmg) 0); simpl; [done|].
  replace (0 - dmg) with 0 by lia. done.
Qed.

(** C16: the contact-damage scenario.  A fresh player touched by a
    skeleton at time [t >= 0] drops from 10 to 8 half-hearts and is
    invulnerable until [t + 800]; a second skeleton touching within
    that window changes nothing. *)
Theorem skeleton_contact_scenario t :
  0 <= t ->
  let p1 := take_damage player_init (stat_contact_damage (ENEMY_STATS (F:=F) skeleton)) t in
  p_health p1 = 8 /\ p_invuln_until p1 = t + 800 /\ p_alive p1 = true /\
  forall t', t <= t' < t + 800 ->
    take_damage p1 (stat_contact_damage (ENEMY_STATS (F:=F) skeleton)) t' = p1.
Proof.
  intros Ht p1. unfold p1, take_damage; simpl.
  destruct (Z.ltb_spec t 0); [lia|]. simpl. repeat split.
  intros t' Ht'. destruct (Z.ltb_spec t' (t + PLAYER_IFRAME_MS)); [done|].
  unfold PLAYER_IFRAME_MS in *. lia.
Qed.

(** C15: the swing window.  A swing started at [now] is active up to
    [now + SWORD_SWING_MS] and [update_attack] ends it from then on;
    [update_attack] changes nothing else. *)
Theorem attack_window p mx my now now' :
  let p1 := start_attack p mx my now in
  p1 <> p ->
  p_attacking p1 = true /\ p_attack_end_time p1 = now + SWORD_SWING_MS /\
  p_attacking (update_attack p1 now') = (now' <? now + SWORD_SWING_MS) /\
  set_attack (update_attack p1 now') true (p_attack_angle p1) (p_attack_end_time p1) = p1.
Proof.
  intros p1 Hne. unfold p1 in *. unfold start_attack in *.
  destruct (negb (p_alive p)); [done|].
  destruct (player_center p) as [px py].
  destruct (_ || _); [done|]. unfold update_attack; simpl.
  destruct (Z.leb_spec (now + SWORD_SWING_MS) now'), (Z.ltb_spec now' (now + SWORD_SWING_MS));
    simpl; try lia; repeat split; reflexivity.
Qed.

(** Movement is all or nothing.  [move] either leaves the player
    where it was or moves it to a position where no wall tile collides
    pixel-wise; a dead player never moves. *)
Lemma move_all_or_nothing p dx dy walls :
  move p dx dy walls = p \/
  (p_alive p = true /\ exists x y, move p dx dy walls = set_pos p x y /\
     hits_wall x y (p_mask p) walls = false).
Proof.
  unfold move. destruct (_ || _) eqn:Hg; [by left|].
  apply orb_false_iff in Hg as [_ Ha]. apply negb_false_iff in Ha.
  case_match; [by left|]. right. eauto.
Qed.

(** C14: a player that starts off every wall stays off every wall. *)
Corollary move_keeps_off_walls p dx dy walls :
  hits_wall (p_x p) (p_y p) (p_mask p) walls = false ->
  hits_wall (p_x (move p dx dy walls)) (p_y (move p dx dy walls)) (p_mask (move p dx dy walls))
    walls = false.
Proof.
  intros Hp. unfold move. destruct (_ || _); [done|]. by case_match.
Qed.

(** C21 (divergence from the spec's "health never changes after
    death"): [heal] keeps the health invariant exactly for live players.
    For a player in the invariant with a positive maximum and an amount
    [amt >= 0], the healed player is in the invariant if and only if it
    was alive or [amt = 0]: [heal] has no liveness guard, so any positive
    heal gives a dead player positive health while it stays dead.  The
    loop never does this (items are eaten in the play state only). *)
Theorem heal_inv_iff p amt :
  player_inv p -> 0 < p_max_health p -> 0 <= amt ->
  (player_inv (heal p amt) <-> p_alive p = true \/ amt = 0).
Proof.
  intros [Hb Hz] Hmax Ha. unfold player_inv, heal, set_health. cbn.
  destruct (p_alive p).
  - assert (p_health p <> 0) by (intros E; apply Hz in E; discriminate).
    split; [by left|intros _]. split; [lia|]. split; [lia|discriminate].
  - assert (p_health p = 0) by (by apply Hz). split.
    + intros [_ Hz']. right. specialize (proj2 Hz' eq_refl). lia.
    + intros [Hf | ->]; [discriminate|]. split; [lia|]. split; [done|intros _; lia].
Qed.
End PlayerTheorems.

(** ** Concrete runs: the theorems applied on a fresh player, with the
    rational float model and one-tile sprites. *)
Section PlayerWitnesses.
Import QFloat.
#[local] Existing Instance tile_sprites.

Lemma player_reach_inv_witness : player_inv (take_damage (player_init (F:=QF)) 2 0).
Proof. apply player_reach_inv. apply reach_damage; [apply reach_init | lia]. Defined.

Lemma take_damage_iframes_witness :
  take_damage (player_init (F:=QF)) 2 0 = player_init \/
  take_damage (take_damage (player_init (F:=QF)) 2 0) 2 500 = take_damage player_init 2 0.
Proof. apply take_damage_iframes. unfold PLAYER_IFRAME_MS. lia. Defined.

Lemma skeleton_contact_scenario_witness :
  let p1 := take_damage (player_init (F:=QF)) (stat_contact_damage (ENEMY_STATS (F:=QF) skeleton)) 1000 in
  p_health p1 = 8 /\ p_invuln_until p1 = 1000 + 800 /\ p_alive p1 = true /\
  forall t', 1000 <= t' < 1000 + 800 ->
    take_damage p1 (stat_contact_damage (ENEMY_STATS (F:=QF) skeleton)) t' = p1.
Proof. apply (skeleton_contact_scenario 1000). lia. Defined.

(** A click 70 pixels right of the player's centre. *)
Lemma attack_window_witness :
  let p1 := start_attack (player_init (F:=QF)) 150 80 0 in
  p_attacking p1 = true /\ p_attack_end_time p1 = 0 + SWORD_SWING_MS /\
  p_attacking (update_attack p1 100) = (100 <? 0 + SWORD_SWING_MS) /\
  set_attack (update_attack p1 100) true (p_attack_angle p1) (p_attack_end_time p1) = p1.
Proof.
  apply attack_window. intros Heq. apply (f_equal p_attacking) in Heq.
  vm_compute in Heq. discriminate.
Defined.

(** The walls of room 0 along its top-left corner. *)
Local Abbreviation room0_walls :=
  ([(0,0);(32,0);(64,0);(96,0);(128,0);(160,0);(192,0);(224,0);(256,0);(288,0);(320,0);
   (352,0);(384,0);(416,0);(448,0);(480,0);(512,0);(544,0);(576,0);(608,0);(640,0);
   (672,0);(704,0);(736,0);(768,0);(0,32);(768,32);(0,64);(768,64)] : list (Z * Z)).

Lemma move_keeps_off_walls_witness :
  hits_wall (p_x (move (player_init (F:=QF)) 1 0 room0_walls))
            (p_y (move (player_init (F:=QF)) 1 0 room0_walls))
            (p_mask (move (player_init (F:=QF)) 1 0 room0_walls)) room0_walls = false.
Proof. apply move_keeps_off_walls. vm_compute. reflexivity. Defined.
(** A player killed by a 10-point hit, then given an apple. *)
Lemma heal_inv_iff_witness :
  let dead := take_damage (player_init (F:=QF)) 10 0 in
  player_inv dead /\ 0 < p_max_health dead /\ 0 <= item_heal apple /\
  (player_inv (heal dead (item_heal apple)) <-> p_alive dead = true \/ item_heal apple = 0).
Proof.
  intros dead.
  assert (Hi : player_inv dead) by (split; [vm_compute; split; discriminate | split; reflexivity]).
  assert (Hm : 0 < p_max_health dead) by reflexivity.
  assert (Ha : 0 <= item_heal apple) by (vm_compute; discriminate).
  split; [exact Hi|]. split; [exact Hm|]. split; [exact Ha|].
  exact (heal_inv_iff dead (item_heal apple) Hi Hm Ha).
Defined.
End PlayerWitnesses.
