(* ===== verification/Transition.v ===== *)
(** * Room transitions (main.py 585-639).

    The state is the pair [current_room]/[player]; [try_room_transition]
    checks the current room's doors in the order N, S, E, W, and on the
    first door the player's rect touches moves to the neighbour the graph
    gives and places the player next to the matching door of the new
    room (at a fixed point when the new room is the final one).  Reading
    the matching door is a dict lookup [room_doors[t]["S"]] and raises
    [KeyError] when the new room has no such door.

    The theorems: a transition that returns lands a tile-sized player
    inside the new room, off every wall cell and off every door (so the
    next frame does not bounce it back); it raises only on the two edges
    of [NEIGHBORS] that have no way back, and there it always raises. *)

From S2P Require Import Prelude PyFloat Geometry Config Dungeon Player.

Section TransitionModel.
Context {F : Type} `{PyFloat F}.

(** ["N" in doors and r.colliderect(doors["N"])] *)
Definition door_hit (doors : Doors) (d : Dir) (r : Rect) : bool :=
  match doors !! d with Some dr => colliderect r dr | None => false end.

(** [current_room = t; d = room_doors[t][od]; player.x = ..; player.y = ..] *)
Definition enter_room (room_doors : list Doors) (t : Z) (od : Dir)
    (place : Rect -> Player F) : res (Z * Player F) :=
  let! tdoors := py_getitem room_doors t in
  let! d := dict_get (tdoors !! od) in
  Ok (t, place d).

Definition try_room_transition (current_room : Z) (player : Player F)
    (room_doors : list Doors) : res (Z * Player F) :=
  let r := player_rect player in
  let! doors := py_getitem room_doors current_room in
  if door_hit doors North r then
    let! n := dict_get (NEIGHBORS !! current_room) in
    match nb n North with
    | Some t => enter_room room_doors t South (fun d =>
        set_pos player (PInt (rect_centerx d - p_width player / 2))
                       (PInt (rect_top d - p_height player - 4)))
    | None => Ok (current_room, player)
    end
  else if door_hit doors South r then
    let! n := dict_get (NEIGHBORS !! current_room) in
    match nb n South with
    | Some t => enter_room room_doors t North (fun d =>
        set_pos player (PInt (rect_centerx d - p_width player / 2))
                       (PInt (rect_bottom d + 4)))
    | None => Ok (current_room, player)
    end
  else if door_hit doors East r then
    let! n := dict_get (NEIGHBORS !! current_room) in
    match nb n East with
    | Some t =>
        if t =? FINAL_ROOM_INDEX
        then Ok (t, set_pos player (PInt (TILE * 3)) (PInt (TILE * 3)))
        else enter_room room_doors t West (fun d =>
          set_pos player (PInt (rect_right d + 4))
                         (PInt (rect_centery d - p_height player / 2)))
    | None => Ok (current_room, player)
    end
  else if door_hit doors West r then
    let! n := dict_get (NEIGHBORS !! current_room) in
    match nb n West with
    | Some t =>
        if t =? FINAL_ROOM_INDEX
        then Ok (t, set_pos player (PInt (TILE * (ROOM_W - 4))) (PInt (TILE * 3)))
        else enter_room room_doors t East (fun d =>
          set_pos player (PInt (rect_left d - p_width player - 4))
                         (PInt (rect_centery d - p_height player / 2)))
    | None => Ok (current_room, player)
    end
  else Ok (current_room, player).
End TransitionModel.

(** The position of each side in the code's chain of door tests. *)
Definition dir_rank (d : Dir) : Z :=
  match d with North => 0 | South => 1 | East => 2 | West => 3 end.

(** ** Landing regions

    Where a player of at most one tile lands after crossing door [d]
    into room [t]: the tile-sized box that contains its rect whatever
    its size. *)
Definition entry_box (t : Z) (d : Dir) : Rect :=
  match d with
  | North => mkRect 368 508 32 32
  | South => mkRect 368 36 32 32
  | East => if t =? FINAL_ROOM_INDEX then mkRect 96 96 32 32 else mkRect 36 272 32 32
  | West => if t =? FINAL_ROOM_INDEX then mkRect 672 96 32 32 else mkRect 732 272 32 32
  end.

(** The box lies in the room and meets no wall cell and no door. *)
Definition box_clear_b (t : Z) (box : Rect) : bool :=
  (0 <=? rect_x box) && (rect_right box <=? SCREEN_WIDTH) &&
  (0 <=? rect_y box) && (rect_bottom box <=? SCREEN_HEIGHT) &&
  forallb (fun cy => forallb (fun cx =>
    negb (room_cell_spec t cx cy =? 1) || negb (colliderect box (tile_rect cx cy)))
    (py_range 0 ROOM_W)) (py_range 0 ROOM_H) &&
  forallb (fun d => match doors_spec t d with
                    | Some dr => negb (colliderect box dr) | None => true end) all_dirs.

(** What a safe landing of a [w] by [h] player at [(x, y)] in room [t] is. *)
Definition safe_landing (t x y w h : Z) : Prop :=
  rect_inside (mkRect x y w h) room_rect /\
  (forall cx cy, 0 <= cx < ROOM_W -> 0 <= cy < ROOM_H -> room_cell_spec t cx cy = 1 ->
     colliderect (mkRect x y w h) (tile_rect cx cy) = false) /\
  (forall d dr, doors_spec t d = Some dr -> colliderect (mkRect x y w h) dr = false).

(** ** Lemmas *)

Lemma entry_boxes_clear t d :
  0 <= t < ROOM_COUNT -> box_clear_b t (entry_box t d) = true.
Proof.
  intros Ht.
  assert (Hall : forallb (fun t => forallb (fun d => box_clear_b t (entry_box t d)) all_dirs)
                   (py_range 0 ROOM_COUNT) = true) by (vm_compute; reflexivity).
  pose proof (forallb_py_range _ _ _ Hall t Ht) as Hd. rewrite forallb_forall in Hd.
  apply Hd. destruct d; simpl; tauto.
Qed.

Lemma door_rect_pos d : rect_pos (door_rect d).
Proof. destruct d; split; reflexivity. Qed.

Lemma box_clear_b_sound t box x y w h :
  0 < w -> 0 < h -> rect_inside (mkRect x y w h) box -> box_clear_b t box = true ->
  safe_landing t x y w h.
Proof.
  intros Hw Hh Hin Hb. unfold box_clear_b in Hb.
  rewrite !andb_true_iff, !Z.leb_le in Hb.
  destruct Hb as [[[[[Hx0 Hx1] Hy0] Hy1] Hcells] Hdoors].
  assert (Hpos : rect_pos (mkRect x y w h)) by (unfold rect_pos; simpl; lia).
  split; [|split].
  - clear Hcells Hdoors. unfold rect_inside, room_rect, rect_right, rect_bottom in *.
    cbn [rect_x rect_y rect_w rect_h] in *. unfold SCREEN_WIDTH, SCREEN_HEIGHT in *. lia.
  - intros cx cy Hcx Hcy Hwall. destruct (colliderect _ _) eqn:Hc; [|done]. exfalso.
    pose proof (forallb_py_range _ _ _ Hcells cy Hcy) as Hr.
    pose proof (forallb_py_range _ _ _ Hr cx Hcx) as Hcell. cbv beta in Hcell.
    rewrite Hwall, Z.eqb_refl in Hcell. cbn [negb orb] in Hcell.
    rewrite (colliderect_mono (mkRect x y w h) box (tile_rect cx cy) (tile_rect cx cy)) in Hcell;
      [done|done|split; reflexivity|done|auto with dungeon|done].
  - intros d dr Hd. destruct (colliderect _ _) eqn:Hc; [|done]. exfalso.
    rewrite forallb_forall in Hdoors. specialize (Hdoors d ltac:(destruct d; simpl; tauto)).
    rewrite Hd in Hdoors. unfold doors_spec in Hd. destruct (nb _ d); [|done].
    injection Hd as <-.
    rewrite (colliderect_mono (mkRect x y w h) box (door_rect d) (door_rect d)) in Hdoors;
      [done|done|apply door_rect_pos|done|auto with dungeon|done].
Qed.

Section TransitionLemmas.
Context {F : Type} `{PyFloat F}.

Lemma enter_room_ok t od (place : Rect -> Player F) t' p' :
  0 <= t < ROOM_COUNT ->
  enter_room static_room_doors t od place = Ok (t', p') ->
  doors_spec t od = Some (door_rect od) /\ t' = t /\ p' = place (door_rect od).
Proof.
  intros Ht. destruct (static_doors_get t Ht) as (ds & Hget & Hds).
  unfold enter_room. rewrite Hget. simpl. rewrite Hds. unfold doors_spec.
  destruct (nb (neighbors t) od); simpl; [|done]. by intros [= <- <-].
Qed.

Lemma enter_room_raise t od (place : Rect -> Player F) e :
  0 <= t < ROOM_COUNT ->
  enter_room static_room_doors t od place = Raise e ->
  e = KeyError /\ doors_spec t od = None.
Proof.
  intros Ht. destruct (static_doors_get t Ht) as (ds & Hget & Hds).
  unfold enter_room. rewrite Hget. simpl. rewrite Hds. unfold doors_spec.
  destruct (nb (neighbors t) od); simpl; [done|]. by intros [= <-].
Qed.

Lemma enter_room_keyerror t od (place : Rect -> Player F) :
  0 <= t < ROOM_COUNT -> doors_spec t od = None ->
  enter_room static_room_doors t od place = Raise KeyError.
Proof.
  intros Ht Hnone. destruct (static_doors_get t Ht) as (ds & Hget & Hds).
  unfold enter_room. rewrite Hget. simpl. by rewrite Hds, Hnone.
Qed.

(** The transition on a room of the dungeon, with its lookups done. *)
Lemma try_room_transition_static c (p : Player F) :
  0 <= c < ROOM_COUNT ->
  exists ds, (forall d, ds !! d = doors_spec c d) /\
  try_room_transition c p static_room_doors =
  let r := player_rect p in
  if door_hit ds North r then
    match nb (neighbors c) North with
    | Some t => enter_room static_room_doors t South (fun d =>
        set_pos p (PInt (rect_centerx d - p_width p / 2)) (PInt (rect_top d - p_height p - 4)))
    | None => Ok (c, p)
    end
  else if door_hit ds South r then
    match nb (neighbors c) South with
    | Some t => enter_room static_room_doors t North (fun d =>
        set_pos p (PInt (rect_centerx d - p_width p / 2)) (PInt (rect_bottom d + 4)))
    | None => Ok (c, p)
    end
  else if door_hit ds East r then
    match nb (neighbors c) East with
    | Some t =>
        if t =? FINAL_ROOM_INDEX then Ok (t, set_pos p (PInt (TILE * 3)) (PInt (TILE * 3)))
        else enter_room static_room_doors t West (fun d =>
          set_pos p (PInt (rect_right d + 4)) (PInt (rect_centery d - p_height p / 2)))
    | None => Ok (c, p)
    end
  else if door_hit ds West r then
    match nb (neighbors c) West with
    | Some t =>
        if t =? FINAL_ROOM_INDEX
        then Ok (t, set_pos p (PInt (TILE * (ROOM_W - 4))) (PInt (TILE * 3)))
        else enter_room static_room_doors t East (fun d =>
          set_pos p (PInt (rect_left d - p_width p - 4)) (PInt (rect_centery d - p_height p / 2)))
    | None => Ok (c, p)
    end
  else Ok (c, p).
Proof.
  intros Hc. destruct (static_doors_get c Hc) as (ds & Hget & Hds). exists ds. split; [done|].
  unfold try_room_transition. rewrite Hget, (NEIGHBORS_lookup c Hc). reflexivity.
Qed.

Lemma door_hit_spec c ds d r :
  (forall d, ds !! d = doors_spec c d) ->
  door_hit ds d r = match nb (neighbors c) d with
                    | Some _ => colliderect r (door_rect d) | None => false end.
Proof. intros Hds. unfold door_hit. rewrite Hds. unfold doors_spec. by destruct (nb _ d). Qed.
End TransitionLemmas.

(** The edges of [NEIGHBORS] whose target has no door back, leaving out
    entries into the final room by E or W (placed at a fixed point). *)
Lemma back_door_missing c d t :
  0 <= c < ROOM_COUNT -> nb (neighbors c) d = Some t -> doors_spec t (opposite d) = None ->
  (t = FINAL_ROOM_INDEX -> d = North \/ d = South) ->
  (c = 5 /\ d = East /\ t = 8) \/ (c = 8 /\ d = North /\ t = 5).
Proof.
  intros Hc Ht Hnone Hfin.
  assert (Hall : forallb (fun c => forallb (fun d =>
      match nb (neighbors c) d with
      | Some t =>
          if bool_decide (doors_spec t (opposite d) = None) &&
             (negb (t =? FINAL_ROOM_INDEX) || bool_decide (d = North \/ d = South))
          then bool_decide ((c = 5 /\ d = East /\ t = 8) \/ (c = 8 /\ d = North /\ t = 5))
          else true
      | None => true
      end) all_dirs) (py_range 0 ROOM_COUNT) = true) by (vm_compute; reflexivity).
  pose proof (forallb_py_range _ _ _ Hall c Hc) as Hd. rewrite forallb_forall in Hd.
  specialize (Hd d ltac:(destruct d; simpl; tauto)). cbv beta in Hd. rewrite Ht in Hd.
  rewrite (bool_decide_eq_true_2 _ Hnone) in Hd. cbn [andb] in Hd.
  destruct (Z.eqb_spec t FINAL_ROOM_INDEX) as [Hf|Hf]; cbn [negb orb] in Hd.
  - rewrite (bool_decide_eq_true_2 _ (Hfin Hf)) in Hd. by apply bool_decide_eq_true in Hd.
  - by apply bool_decide_eq_true in Hd.
Qed.

Lemma landing_in_box t d x y w h :
  0 <= t < ROOM_COUNT -> 0 < w -> 0 < h -> rect_inside (mkRect x y w h) (entry_box t d) ->
  safe_landing t x y w h.
Proof. intros. eapply box_clear_b_sound; eauto using entry_boxes_clear. Qed.

Section TransitionTheorems.
Context {F : Type} `{PyFloat F}.

(** Where a transition that returns puts the player. *)
Lemma try_room_transition_landing c (p p' : Player F) t :
  0 <= c < ROOM_COUNT -> 0 < p_width p <= TILE -> 0 < p_height p <= TILE ->
  try_room_transition c p static_room_doors = Ok (t, p') ->
  (t = c /\ p' = p) \/
  (0 <= t < ROOM_COUNT /\ exists x y, p' = set_pos p (PInt x) (PInt y) /\
     safe_landing t x y (p_width p) (p_height p)).
Proof.
  intros Hc Hw Hh. destruct (try_room_transition_static c p Hc) as (ds & Hds & ->). cbv zeta.
  unfold TILE in Hw, Hh.
  destruct (door_hit ds North _);
    [|destruct (door_hit ds South _); [|destruct (door_hit ds East _); [|destruct (door_hit ds West _)]]];
    try (intros [= <- <-]; by left);
    destruct (nb (neighbors c) _) as [t0|] eqn:Ht0; try (intros [= <- <-]; by left);
    pose proof (neighbors_in_range c _ t0 Hc Ht0) as Ht0r; right;
    try match goal with H : _ = Ok (_, _) |- _ => revert H end.
  - intros (_ & -> & ->)%enter_room_ok; [|done]. split; [done|]. eexists _, _.
    split; [reflexivity|]. apply (landing_in_box t0 North); [done|lia|lia|].
    change (rect_centerx (door_rect South)) with 384. change (rect_top (door_rect South)) with 544.
    unfold rect_inside, rect_right, rect_bottom; cbn [entry_box rect_x rect_y rect_w rect_h]. zlia.
  - intros (_ & -> & ->)%enter_room_ok; [|done]. split; [done|]. eexists _, _.
    split; [reflexivity|]. apply (landing_in_box t0 South); [done|lia|lia|].
    change (rect_centerx (door_rect North)) with 384. change (rect_bottom (door_rect North)) with 32.
    unfold rect_inside, rect_right, rect_bottom; cbn [entry_box rect_x rect_y rect_w rect_h]. zlia.
  - destruct (Z.eqb_spec t0 FINAL_ROOM_INDEX) as [Hf|Hf].
    + intros [= <- <-]. split; [done|]. eexists _, _. split; [reflexivity|].
      apply (landing_in_box t0 East); [done|lia|lia|].
      unfold entry_box. rewrite Hf, Z.eqb_refl. unfold rect_inside, rect_right, rect_bottom, TILE.
      cbn [rect_x rect_y rect_w rect_h]. lia.
    + intros (_ & -> & ->)%enter_room_ok; [|done]. split; [done|]. eexists _, _.
      split; [reflexivity|]. apply (landing_in_box t0 East); [done|lia|lia|].
      change (rect_right (door_rect West)) with 32. change (rect_centery (door_rect West)) with 288.
      unfold entry_box. rewrite (proj2 (Z.eqb_neq _ _) Hf).
      unfold rect_inside, rect_right, rect_bottom; cbn [rect_x rect_y rect_w rect_h]. zlia.
  - destruct (Z.eqb_spec t0 FINAL_ROOM_INDEX) as [Hf|Hf].
    + intros [= <- <-]. split; [done|]. eexists _, _. split; [reflexivity|].
      apply (landing_in_box t0 West); [done|lia|lia|].
      unfold entry_box. rewrite Hf, Z.eqb_refl. unfold rect_inside, rect_right, rect_bottom, TILE, ROOM_W.
      cbn [rect_x rect_y rect_w rect_h]. unfold SCREEN_WIDTH, TILE. zlia.
    + intros (_ & -> & ->)%enter_room_ok; [|done]. split; [done|]. eexists _, _.
      split; [reflexivity|]. apply (landing_in_box t0 West); [done|lia|lia|].
      change (rect_left (door_rect East)) with 768. change (rect_centery (door_rect East)) with 288.
      unfold entry_box. rewrite (proj2 (Z.eqb_neq _ _) Hf).
      unfold rect_inside, rect_right, rect_bottom; cbn [rect_x rect_y rect_w rect_h]. zlia.
Qed.

(** C1: a transition lands the player safely.  From any room of the
    dungeon, a [try_room_transition] that returns either leaves room
    and player unchanged, or moves to a room of the dungeon and puts a
    player of at most one tile at an integer position inside the room,
    off every wall cell and off every door of the new room. *)
Theorem transition_lands_safely c (p p' : Player F) t :
  0 <= c < ROOM_COUNT -> 0 < p_width p <= TILE -> 0 < p_height p <= TILE ->
  try_room_transition c p static_room_doors = Ok (t, p') ->
  (t = c /\ p' = p) \/
  (0 <= t < ROOM_COUNT /\ exists x y, p' = set_pos p (PInt x) (PInt y) /\
     safe_landing t x y (p_width p) (p_height p)).
Proof. exact (try_room_transition_landing c p p' t). Qed.

(** C3: a transition from a room of the dungeon raises only
    [KeyError], and only when the player crosses room 5's east door or
    room 8's north door: the two edges of [NEIGHBORS] whose target room
    has no door back. *)
Theorem transition_raise_edges c (p : Player F) e :
  0 <= c < ROOM_COUNT ->
  try_room_transition c p static_room_doors = Raise e ->
  e = KeyError /\
  ((c = 5 /\ colliderect (player_rect p) (door_rect East) = true) \/
   (c = 8 /\ colliderect (player_rect p) (door_rect North) = true)).
Proof.
  intros Hc. destruct (try_room_transition_static c p Hc) as (ds & Hds & ->). cbv zeta.
  destruct (door_hit ds North _) eqn:HN;
    [|destruct (door_hit ds South _) eqn:HS;
      [|destruct (door_hit ds East _) eqn:HE; [|destruct (door_hit ds West _) eqn:HW]]];
    try discriminate;
    destruct (nb (neighbors c) _) as [t0|] eqn:Ht0; try discriminate;
    pose proof (neighbors_in_range c _ t0 Hc Ht0) as Ht0r;
    try (destruct (Z.eqb_spec t0 FINAL_ROOM_INDEX) as [Hf|Hf]; [discriminate|]);
    intros (-> & Hnone)%enter_room_raise; try done; split; try done;
    [ pose proof (back_door_missing c North t0 Hc Ht0 Hnone ltac:(auto)) as Hedge
    | pose proof (back_door_missing c South t0 Hc Ht0 Hnone ltac:(auto)) as Hedge
    | pose proof (back_door_missing c East t0 Hc Ht0 Hnone ltac:(done)) as Hedge
    | pose proof (back_door_missing c West t0 Hc Ht0 Hnone ltac:(done)) as Hedge ];
    destruct Hedge as [(-> & Hd & ->) | (-> & Hd & ->)]; try discriminate.
  - right. split; [done|]. rewrite (door_hit_spec 8 ds North) in HN by done.
    by rewrite Ht0 in HN.
  - left. split; [done|]. rewrite (door_hit_spec 5 ds East) in HE by done.
    by rewrite Ht0 in HE.
Qed.

(** C8: the two edges always raise.  A player touching room 5's east
    door (and not its north door) raises [KeyError], since room 8 has no
    west door; a player touching room 8's north door raises [KeyError],
    since room 5 has no south door. *)
Theorem transition_keyerror_edges (p : Player F) :
  (colliderect (player_rect p) (door_rect North) = false ->
   colliderect (player_rect p) (door_rect East) = true ->
   try_room_transition 5 p static_room_doors = Raise KeyError) /\
  (colliderect (player_rect p) (door_rect North) = true ->
   try_room_transition 8 p static_room_doors = Raise KeyError).
Proof.
  split.
  - intros HN HE. destruct (try_room_transition_static 5 p ltac:(unfold ROOM_COUNT; lia))
      as (ds & Hds & ->). cbv zeta.
    rewrite !(door_hit_spec 5 ds) by done.
    change (neighbors 5) with (mkNeigh (Some 4) (Some 8) None None). cbn [nb].
    rewrite HN, HE. cbn [negb].
    apply enter_room_keyerror; [unfold ROOM_COUNT; lia | reflexivity].
  - intros HN. destruct (try_room_transition_static 8 p ltac:(unfold ROOM_COUNT; lia))
      as (ds & Hds & ->). cbv zeta.
    rewrite !(door_hit_spec 8 ds) by done.
    change (neighbors 8) with (mkNeigh (Some 5) None None None). cbn [nb].
    rewrite HN.
    apply enter_room_keyerror; [unfold ROOM_COUNT; lia | reflexivity].
Qed.
(** C10: the first door wins.  When the player touches the door of
    side [d] of a room of the dungeon, and on every side tested before
    [d] (in the order N, S, E, W) there is no door or the player does not
    touch it, the transition goes to [d]'s neighbour [t] (or raises
    [KeyError] on a missing door back): at most one transition per
    frame, chosen by the fixed order of the tests. *)
Theorem transition_first_door c (p : Player F) d t :
  0 <= c < ROOM_COUNT -> nb (neighbors c) d = Some t ->
  colliderect (player_rect p) (door_rect d) = true ->
  (forall d', dir_rank d' < dir_rank d ->
     nb (neighbors c) d' = None \/ colliderect (player_rect p) (door_rect d') = false) ->
  match try_room_transition c p static_room_doors with
  | Ok (t', _) => t' = t
  | Raise e => e = KeyError
  end.
Proof.
  intros Hc Ht Hcol Hbefore. pose proof (neighbors_in_range c d t Hc Ht) as Htr.
  destruct (try_room_transition_static c p Hc) as (ds & Hds & ->). cbv zeta.
  rewrite !(door_hit_spec c ds _ _ Hds).
  assert (Hpre : forall d', dir_rank d' < dir_rank d ->
    match nb (neighbors c) d' with Some _ => colliderect (player_rect p) (door_rect d')
                                 | None => false end = false).
  { intros d' Hr. destruct (Hbefore d' Hr) as [-> | ->]; [done|]. by destruct (nb _ d'). }
  assert (Hd : match nb (neighbors c) d with Some _ => colliderect (player_rect p) (door_rect d)
                                         | None => false end = true) by (by rewrite Ht).
  destruct d; rewrite ?(Hpre North), ?(Hpre South), ?(Hpre East) by (simpl; lia);
    rewrite Hd, Ht; cbv beta iota; try destruct (t =? FINAL_ROOM_INDEX); try done;
    (destruct (enter_room _ _ _ _) as [[t' p']|e] eqn:E;
     [apply enter_room_ok in E as (_ & -> & _) | apply enter_room_raise in E as [-> _]]; done).
Qed.
End TransitionTheorems.

Section TransitionPixels.
Context {F : Type} `{PyFloat F} `{Sprites}.

(** C9: after a transition, no wall of the new room collides with the
    player pixel-wise: the wall list [move] tests next frame is clear at
    the landing point, for a player mask of the player's size and a wall
    mask of at most one tile. *)
Corollary transition_off_walls c (p p' : Player F) t g ws :
  0 <= c < ROOM_COUNT -> 0 < p_width p <= TILE -> 0 < p_height p <= TILE ->
  mask_w (p_mask p) = p_width p -> mask_h (p_mask p) = p_height p -> tile_sized wall_mask ->
  try_room_transition c p static_room_doors = Ok (t, p') -> t <> c ->
  py_getitem static_rooms t = Ok g -> list_walls g = Ok ws ->
  hits_wall (p_x p') (p_y p') (p_mask p') ws = false.
Proof.
  intros Hc Hw Hh Hmw Hmh Hwm Htr Hne Hg Hws.
  destruct (try_room_transition_landing c p p' t Hc Hw Hh Htr)
    as [[-> _]|(Ht & x & y & -> & _ & Hcells & _)]; [done|].
  destruct (static_walls t Ht) as (g' & ws' & Hg' & Hws' & Hspec).
  rewrite Hg in Hg'. injection Hg' as <-. rewrite Hws in Hws'. injection Hws' as <-.
  unfold hits_wall. apply not_true_iff_false. rewrite existsb_exists.
  intros ((wx, wy) & Hin & Hpc).
  apply list_elem_of_In, Hspec in Hin as (cx & cy & Hcx & Hcy & Hcell & Heq).
  injection Heq as -> ->. cbn [p_x p_y p_mask set_pos] in Hpc.
  apply pixel_collision_colliderect in Hpc. rewrite Hmw, Hmh in Hpc.
  specialize (Hcells cx cy Hcx Hcy Hcell).
  destruct Hwm as [Hwm1 Hwm2]. unfold TILE in *.
  rewrite (colliderect_mono (mkRect x y (p_width p) (p_height p)) (mkRect x y (p_width p) (p_height p))
    (mkRect (cx * 32) (cy * 32) (mask_w wall_mask) (mask_h wall_mask)) (tile_rect cx cy)) in Hcells;
    [done | unfold rect_pos; simpl; lia | unfold rect_pos; simpl; lia | auto with dungeon
    | unfold rect_inside, tile_rect, rect_right, rect_bottom, TILE; simpl; lia | done].
Qed.
End TransitionPixels.

(** ** Concrete runs *)
Section TransitionWitnesses.
Import QFloat.
#[local] Existing Instance tile_sprites.

(** A player standing in room 2's north door, and one in room 5's east door. *)
Local Abbreviation at_north_door := (set_pos (F:=QF) player_init (PInt 370) (PInt 10)).
Local Abbreviation at_east_door := (set_pos (F:=QF) player_init (PInt 770) (PInt 270)).

Lemma transition_lands_safely_witness :
  (0 = 2 /\ set_pos at_north_door (PInt 368) (PInt 508) = at_north_door) \/
  (0 <= 0 < ROOM_COUNT /\ exists x y,
     set_pos at_north_door (PInt 368) (PInt 508) = set_pos at_north_door (PInt x) (PInt y) /\
     safe_landing 0 x y (p_width at_north_door) (p_height at_north_door)).
Proof.
  apply (transition_lands_safely 2 at_north_door); [unfold ROOM_COUNT; lia | cbn; unfold TILE; lia
    | cbn; unfold TILE; lia | vm_compute; reflexivity].
Defined.

Lemma transition_raise_edges_witness :
  KeyError = KeyError /\
  ((5 = 5 /\ colliderect (player_rect at_east_door) (door_rect East) = true) \/
   (5 = 8 /\ colliderect (player_rect at_east_door) (door_rect North) = true)).
Proof.
  apply (transition_raise_edges 5 at_east_door); [unfold ROOM_COUNT; lia | vm_compute; reflexivity].
Defined.

Lemma transition_keyerror_edges_witness :
  try_room_transition 5 at_east_door static_room_doors = Raise KeyError.
Proof.
  apply (proj1 (transition_keyerror_edges at_east_door)); vm_compute; reflexivity.
Defined.

Local Abbreviation room0_grid :=
  (match py_getitem static_rooms 0 with Ok g => g | Raise _ => [] end).
Local Abbreviation room0_wall_list :=
  (match list_walls room0_grid with Ok ws => ws | Raise _ => [] end).

Lemma transition_off_walls_witness :
  hits_wall (PInt 368) (PInt 508) (p_mask at_north_door) room0_wall_list = false.
Proof.
  apply (transition_off_walls 2 at_north_door (set_pos at_north_door (PInt 368) (PInt 508)) 0
           room0_grid room0_wall_list);
    try (vm_compute; reflexivity); try (unfold ROOM_COUNT; lia);
    try (cbn; unfold TILE; lia); try (unfold tile_sized; cbn; unfold TILE; lia); discriminate.
Defined.
Lemma transition_first_door_witness :
  match try_room_transition 2 at_north_door static_room_doors with
  | Ok (t', _) => t' = 0
  | Raise e => e = KeyError
  end.
Proof.
  apply (transition_first_door 2 at_north_door North 0);
    [unfold ROOM_COUNT; lia | vm_compute; reflexivity | vm_compute; reflexivity |].
  intros d' Hr. destruct d'; simpl in Hr; lia.
Defined.
End TransitionWitnesses.
