(* ===== verification/Chest.v ===== *)
(** * Chests and the inventory (main.py 491-504, 524, 666-678).

    The inventory is the dict [{n: 0 for n in ITEM_ORDER}], a [gmap] from
    [Item] to its count; [inv[it]] on a missing key raises [KeyError].
    [try_open] adds each listed item once, capped at 5, and marks the
    chest open; it does nothing on an open chest or one out of reach.
    Eating ([consume_item], the [K_1]..[K_4] handlers) takes one item and
    heals the player, and does nothing at count 0. *)

From S2P Require Import Prelude PyFloat Geometry Config Player.

Abbreviation Inventory := (gmap Item Z).

Record Chest := mkChest {
  c_x : Z;
  c_y : Z;
  c_items : list Item;
  c_open : bool;
  c_rect : Rect
}.

#[global] Instance Chest_HasRect : HasRect Chest := c_rect.

(** [Chest.__init__] *)
Definition chest_init `{Sprites} (x y : Z) (items : list Item) : Chest :=
  mkChest x y items false (mkRect x y (mask_w chest_mask) (mask_h chest_mask)).

Definition set_open (c : Chest) : Chest :=
  mkChest (c_x c) (c_y c) (c_items c) true (c_rect c).

(** [inventory = {n: 0 for n in ITEM_ORDER}] *)
Definition new_inventory : Inventory := list_to_map ((fun n => (n, 0)) <$> ITEM_ORDER).

(** [inv[it] = min(5, inv[it] + 1)] *)
Definition add_item (inv : Inventory) (it : Item) : res Inventory :=
  let! n := dict_get (inv !! it) in Ok (<[it := Z.min 5 (n + 1)]> inv).

(** [Chest.try_open(p_rect, inv)] *)
Definition try_open (c : Chest) (p_rect : Rect) (inv : Inventory) : res (Chest * Inventory) :=
  if c_open c || negb (colliderect p_rect (c_rect c)) then Ok (c, inv)
  else
    let! inv' := res_foldl add_item inv (c_items c) in
    Ok (set_open c, inv').

(** [for c in chs: c.try_open(player.rect, inventory)] (the [K_e] handler) *)
Fixpoint open_chests (chs : list Chest) (p_rect : Rect) (inv : Inventory)
    : res (list Chest * Inventory) :=
  match chs with
  | [] => Ok ([], inv)
  | c :: chs' =>
      let! r := try_open c p_rect inv in
      let! r' := open_chests chs' p_rect r.2 in
      Ok (r.1 :: r'.1, r'.2)
  end.

Section Eating.
Context {F : Type} `{PyFloat F}.

(** [if ev.key == K_i and inventory[it] > 0: inventory[it] -= 1;
    player.heal(item_heal[it])] *)
Definition consume_item (inv : Inventory) (p : Player F) (it : Item)
    : res (Inventory * Player F) :=
  let! n := dict_get (inv !! it) in
  if 0 <? n then Ok (<[it := n - 1]> inv, heal p (item_heal it)) else Ok (inv, p).
End Eating.

(** Every item has a count, and every count is in [0, 5]. *)
Definition inv_wf (inv : Inventory) : Prop :=
  forall it, exists n, inv !! it = Some n /\ 0 <= n <= 5.

(** How many times [it] is listed. *)
Definition occurrences (it : Item) (items : list Item) : Z :=
  Z.of_nat (length (filter (fun j => j = it) items)).

(** The inventory after the game's own operations: the fresh dict, chests
    opened with the [K_e] key, items eaten with [K_1]..[K_4]. *)
Inductive inv_reach {F} `{PyFloat F} : Inventory -> Prop :=
| inv_reach_new : inv_reach new_inventory
| inv_reach_open inv chs r chs' inv' :
    inv_reach inv -> open_chests chs r inv = Ok (chs', inv') -> inv_reach inv'
| inv_reach_eat inv (p p' : Player F) it inv' :
    inv_reach inv -> consume_item inv p it = Ok (inv', p') -> inv_reach inv'.

(** ** Lemmas *)

Lemma occurrences_cons it a items :
  occurrences it (a :: items) = (if decide (a = it) then 1 else 0) + occurrences it items.
Proof. unfold occurrences. rewrite filter_cons. case_decide; simpl; lia. Qed.

Lemma occurrences_nonneg it items : 0 <= occurrences it items.
Proof. unfold occurrences. lia. Qed.

Lemma new_inventory_wf : inv_wf new_inventory.
Proof. intros []; exists 0; (split; [reflexivity | lia]). Qed.

Lemma add_item_spec inv it :
  inv_wf inv ->
  exists inv', add_item inv it = Ok inv' /\ inv_wf inv' /\
    forall j n, inv !! j = Some n ->
      inv' !! j = Some (if decide (it = j) then Z.min 5 (n + 1) else n).
Proof.
  intros Hwf. destruct (Hwf it) as (n & Hn & Hb).
  exists (<[it := Z.min 5 (n + 1)]> inv). unfold add_item. rewrite Hn. split; [done|]. split.
  - intros j. destruct (decide (it = j)) as [<-|Hne].
    + exists (Z.min 5 (n + 1)). rewrite lookup_insert_eq. split; [done|lia].
    + rewrite lookup_insert_ne by done. apply Hwf.
  - intros j m Hm. case_decide as Hj.
    + subst j. rewrite lookup_insert_eq. congruence.
    + by rewrite lookup_insert_ne.
Qed.

(** Adding a list of items, one at a time. *)
Lemma add_items_spec items inv :
  inv_wf inv ->
  exists inv', res_foldl add_item inv items = Ok inv' /\ inv_wf inv' /\
    forall j n, inv !! j = Some n -> 0 <= n <= 5 ->
      inv' !! j = Some (Z.min 5 (n + occurrences j items)).
Proof.
  revert inv. induction items as [|a items IH]; intros inv Hwf; simpl.
  - exists inv. split; [done|]. split; [done|]. intros j n Hn Hb.
    unfold occurrences; simpl. rewrite Hn. f_equal. lia.
  - destruct (add_item_spec inv a Hwf) as (inv1 & -> & Hwf1 & H1). simpl.
    destruct (IH inv1 Hwf1) as (inv' & Hf & Hwf' & H2).
    exists inv'. split; [done|]. split; [done|]. intros j n Hn Hb.
    pose proof (H1 j n Hn) as Hj. rewrite occurrences_cons.
    pose proof (occurrences_nonneg j items).
    case_decide as Haj.
    + rewrite (H2 j _ Hj) by lia. f_equal; lia.
    + rewrite (H2 j _ Hj) by lia. f_equal; lia.
Qed.

Lemma set_open_open c : c_open (set_open c) = true.
Proof. reflexivity. Qed.

Lemma try_open_wf c r inv :
  inv_wf inv -> exists c' inv', try_open c r inv = Ok (c', inv') /\ inv_wf inv'.
Proof.
  intros Hwf. unfold try_open. destruct (_ || _); [eauto|].
  destruct (add_items_spec (c_items c) inv Hwf) as (inv' & -> & Hwf' & _). simpl. eauto.
Qed.

(** ** Theorems *)

(** C5: opening a chest once.  A closed chest the player touches adds
    each of its items to the inventory once per listing, each count
    capped at 5, and becomes open; opening it again changes nothing. *)
Theorem try_open_once c r inv :
  inv_wf inv -> c_open c = false -> colliderect r (c_rect c) = true ->
  exists inv', try_open c r inv = Ok (set_open c, inv') /\ inv_wf inv' /\
    (forall it n, inv !! it = Some n -> inv' !! it = Some (Z.min 5 (n + occurrences it (c_items c)))) /\
    try_open (set_open c) r inv' = Ok (set_open c, inv').
Proof.
  intros Hwf Hc Hr. destruct (add_items_spec (c_items c) inv Hwf) as (inv' & Hf & Hwf' & Hcnt).
  exists inv'. unfold try_open at 1. rewrite Hc, Hr, Hf. simpl. split; [done|]. split; [done|].
  split; [|reflexivity].
  intros it n Hn. apply Hcnt; [done|]. destruct (Hwf it) as (m & Hm & Hb). congruence.
Qed.

(** A chest out of reach, or already open, is left alone. *)
Lemma try_open_noop c r inv :
  c_open c = true \/ colliderect r (c_rect c) = false -> try_open c r inv = Ok (c, inv).
Proof. unfold try_open. intros [-> | ->]; simpl; [done|]. by rewrite orb_true_r. Qed.

Lemma open_chests_wf chs r inv :
  inv_wf inv -> exists chs' inv', open_chests chs r inv = Ok (chs', inv') /\ inv_wf inv'.
Proof.
  revert inv. induction chs as [|c chs IH]; intros inv Hwf; simpl; [eauto|].
  destruct (try_open_wf c r inv Hwf) as (c' & inv1 & -> & Hwf1). simpl.
  destruct (IH inv1 Hwf1) as (chs' & inv' & -> & Hwf'). simpl. eauto.
Qed.

Lemma consume_item_wf {F} `{PyFloat F} inv (p : Player F) it inv' p' :
  inv_wf inv -> consume_item inv p it = Ok (inv', p') -> inv_wf inv'.
Proof.
  intros Hwf. destruct (Hwf it) as (n & Hn & Hb). unfold consume_item. rewrite Hn. simpl.
  destruct (Z.ltb_spec 0 n); intros [= <- <-]; [|done].
  intros j. destruct (decide (it = j)) as [<-|Hne].
  - exists (n - 1). rewrite lookup_insert_eq. split; [done|lia].
  - rewrite lookup_insert_ne by done. apply Hwf.
Qed.

(** C17: inventory bounds.  Every inventory the game reaches has a count
    for each of the four items, each in [0, 5]. *)
Theorem inv_reach_wf {F} `{PyFloat F} inv : inv_reach (F:=F) inv -> inv_wf inv.
Proof.
  induction 1 as [| inv chs r chs' inv' _ IH Ho | inv p p' it inv' _ IH Hc].
  - apply new_inventory_wf.
  - destruct (open_chests_wf chs r inv IH) as (chs'' & inv'' & Ho' & Hwf).
    rewrite Ho in Ho'. injection Ho' as _ <-. done.
  - eapply consume_item_wf; eauto.
Qed.

(** C18: eating.  With a well-formed inventory [consume_item] never
    raises; at count 0 it does nothing, otherwise it takes one item and
    heals the player by the item's amount. *)
Theorem consume_item_spec {F} `{PyFloat F} inv (p : Player F) it :
  inv_wf inv ->
  exists n, inv !! it = Some n /\
    (n = 0 /\ consume_item inv p it = Ok (inv, p) \/
     0 < n /\ consume_item inv p it = Ok (<[it := n - 1]> inv, heal p (item_heal it))).
Proof.
  intros Hwf. destruct (Hwf it) as (n & Hn & Hb). exists n. split; [done|].
  unfold consume_item. rewrite Hn. simpl. destruct (Z.ltb_spec 0 n); [right|left]; split; try done; lia.
Qed.

(** ** Concrete runs *)
Section ChestWitnesses.
Import QFloat.
#[local] Existing Instance tile_sprites.

Local Abbreviation demo_chest := (chest_init 100 100 [apple; apple; meat]).

Lemma try_open_once_witness :
  exists inv', try_open demo_chest (mkRect 110 110 32 32) new_inventory = Ok (set_open demo_chest, inv') /\
    inv_wf inv' /\
    (forall it n, new_inventory !! it = Some n ->
       inv' !! it = Some (Z.min 5 (n + occurrences it (c_items demo_chest)))) /\
    try_open (set_open demo_chest) (mkRect 110 110 32 32) inv' = Ok (set_open demo_chest, inv').
Proof. apply try_open_once; [apply new_inventory_wf | reflexivity | vm_compute; reflexivity]. Defined.

Lemma inv_reach_wf_witness :
  inv_wf (<[apple := 0]> (<[bread := 0]> new_inventory)).
Proof.
  apply (inv_reach_wf (F:=QF)).
  apply (inv_reach_eat new_inventory (player_init (F:=QF)) (player_init (F:=QF)) apple);
    [apply inv_reach_new | vm_compute; reflexivity].
Defined.

Lemma consume_item_spec_witness :
  exists n, new_inventory !! apple = Some n /\
    (n = 0 /\ consume_item new_inventory (player_init (F:=QF)) apple = Ok (new_inventory, player_init) \/
     0 < n /\ consume_item new_inventory (player_init (F:=QF)) apple =
       Ok (<[apple := n - 1]> new_inventory, heal player_init (item_heal apple))).
Proof. apply consume_item_spec. apply new_inventory_wf. Defined.
End ChestWitnesses.
