(* ===== verification/Combat.v ===== *)
(** * Enemies and combat resolution (main.py 369-397, 568-580, 708, 715-719).

    [Enemy] has the attributes [Enemy.__init__] sets; an enemy is alive
    while its hit points are positive and [Enemy.take_damage] subtracts
    with no invulnerability.  [handle_melee] applies the contact damage of
    every live non-eye enemy touching the player, through the player's
    [take_damage] and so through its invulnerability frames;
    [handle_sword] damages every live enemy [can_hit] accepts;
    [purge_dead] is [enemies[:] = [e for e in enemies if e.alive()]].
    The movement of enemies ([Enemy.update]) is not modelled here. *)

From S2P Require Import Prelude PyFloat Geometry Config Dungeon Player.

Section EnemyModel.
Context {F : Type} `{PyFloat F}.

Record Enemy := mkEnemy {
  e_x : pynum F;
  e_y : pynum F;
  e_kind : EnemyKind;
  e_mask : Mask;
  e_speed : F;
  e_hp : Z;
  e_contact_damage : Z;
  e_width : Z;
  e_height : Z;
  e_next_shot : Z
}.

(** [Enemy.__init__(x, y, kind)] *)
Definition enemy_init `{Sprites} (x y : Z) (kind : EnemyKind) : Enemy :=
  let s := ENEMY_STATS kind in
  mkEnemy (PFloat (flt_of_Z x)) (PFloat (flt_of_Z y)) kind (enemy_masks kind)
    (stat_speed s) (stat_hp s) (stat_contact_damage s)
    (mask_w (enemy_masks kind)) (mask_h (enemy_masks kind)) 0.

(** [Enemy.rect] *)
Definition enemy_rect (e : Enemy) : Rect :=
  mkRect (py_int (e_x e)) (py_int (e_y e)) (e_width e) (e_height e).

#[global] Instance Enemy_HasRect : HasRect Enemy := enemy_rect.

(** [Enemy.alive()] *)
Definition enemy_alive (e : Enemy) : bool := 0 <? e_hp e.

(** [Enemy.take_damage(v)] *)
Definition enemy_take_damage (e : Enemy) (v : Z) : Enemy :=
  mkEnemy (e_x e) (e_y e) (e_kind e) (e_mask e) (e_speed e) (e_hp e - v)
    (e_contact_damage e) (e_width e) (e_height e) (e_next_shot e).

(** The test inside [handle_melee]'s loop. *)
Definition melee_hits (p : Player F) (e : Enemy) : bool :=
  enemy_alive e && negb (bool_decide (e_kind e = eye)) &&
  colliderect (player_rect p) (enemy_rect e).

(** [handle_melee(p, enemies)] at time [now] *)
Definition handle_melee (p : Player F) (enemies : list Enemy) (now : Z) : Player F :=
  if negb (p_alive p) then p
  else fold_left (fun p e => if melee_hits p e then take_damage p (e_contact_damage e) now else p)
         enemies p.

(** [handle_sword(p, enemies)] *)
Definition handle_sword (p : Player F) (enemies : list Enemy) : list Enemy :=
  if negb (p_attacking p) then enemies
  else map (fun e => if enemy_alive e && can_hit p (enemy_rect e)
                     then enemy_take_damage e SWORD_DAMAGE else e) enemies.

(** [enemies[:] = [e for e in enemies if e.alive()]] *)
Definition purge_dead (enemies : list Enemy) : list Enemy := filter enemy_alive enemies.

(** [current_room == FINAL_ROOM_INDEX and all(not e.alive() for e in enemies)] *)
Definition win_condition (current_room : Z) (enemies : list Enemy) : bool :=
  (current_room =? FINAL_ROOM_INDEX) && forallb (fun e => negb (enemy_alive e)) enemies.
End EnemyModel.

Arguments Enemy F : clear implicits.

Section CombatTheorems.
Context {F : Type} `{PyFloat F}.
Implicit Types (p : Player F) (e : Enemy F) (es : list (Enemy F)).

(** ** Lemmas *)

Lemma melee_hits_take_damage p e d now : melee_hits (take_damage p d now) e = melee_hits p e.
Proof. unfold melee_hits. by rewrite take_damage_rect. Qed.

(** While invulnerable, the melee loop leaves the player alone. *)
Lemma melee_fold_invuln es p now :
  now < p_invuln_until p ->
  fold_left (fun p e => if melee_hits p e then take_damage p (e_contact_damage e) now else p) es p = p.
Proof.
  intros Hinv. induction es as [|e es IH]; simpl; [done|].
  destruct (melee_hits p e); [|done]. unfold take_damage at 2.
  rewrite (proj2 (Z.ltb_lt _ _) Hinv). exact IH.
Qed.

Lemma melee_fold_once es p now :
  let f := fun p e => if melee_hits p e then take_damage p (e_contact_damage e) now else p in
  fold_left f es p = p \/
  exists e, e ∈ es /\ melee_hits p e = true /\ fold_left f es p = take_damage p (e_contact_damage e) now.
Proof.
  intros f. revert p. induction es as [|e es IH]; intros p; simpl; [by left|].
  replace (f p e) with (if melee_hits p e then take_damage p (e_contact_damage e) now else p)
    by reflexivity.
  destruct (melee_hits p e) eqn:Hm.
  - destruct (Z.ltb_spec now (p_invuln_until p)) as [Hinv|Hinv].
    + assert (take_damage p (e_contact_damage e) now = p) as ->
        by (unfold take_damage; by rewrite (proj2 (Z.ltb_lt _ _) Hinv)).
      destruct (IH p) as [-> | (e' & He' & Hm' & Hf)]; [by left|].
      right. exists e'. rewrite elem_of_cons. auto.
    + right. exists e. split; [apply elem_of_cons; auto|]. split; [done|].
      apply melee_fold_invuln. unfold take_damage.
      destruct (Z.ltb_spec now (p_invuln_until p)); [lia|]. simpl. unfold PLAYER_IFRAME_MS. lia.
  - destruct (IH p) as [-> | (e' & He' & Hm' & Hf)]; [by left|].
    right. exists e'. rewrite elem_of_cons. auto.
Qed.

Lemma handle_sword_rect p es e :
  e ∈ handle_sword p es -> exists e0, e0 ∈ es /\ enemy_rect e = enemy_rect e0.
Proof.
  unfold handle_sword. destruct (negb _); [eauto|].
  intros (e0 & -> & He0)%list_elem_of_fmap. exists e0. split; [done|]. by destruct (_ && _).
Qed.

Lemma handle_sword_hit p e :
  p_attacking p = true -> enemy_alive e = true -> can_hit p (enemy_rect e) = true ->
  handle_sword p [e] = [enemy_take_damage e SWORD_DAMAGE].
Proof. intros Ha Hl Hc. unfold handle_sword. rewrite Ha. simpl. by rewrite Hl, Hc. Qed.

Lemma enemy_take_damage_rect e v : enemy_rect (enemy_take_damage e v) = enemy_rect e.
Proof. reflexivity. Qed.

(** ** Theorems *)

(** C6: one contact hit per frame.  However many live non-eye enemies
    touch the player, [handle_melee] either leaves the player unchanged
    or applies exactly one of those enemies' contact damage, since the
    first hit starts the invulnerability window. *)
Theorem handle_melee_once p es now :
  handle_melee p es now = p \/
  exists e, e ∈ es /\ melee_hits p e = true /\
    handle_melee p es now = take_damage p (e_contact_damage e) now.
Proof. unfold handle_melee. destruct (negb _); [by left|]. apply melee_fold_once. Qed.

(** C20: the spider scenario.  A spider (3 hit points) that the swing
    can hit, struck by two clicks while the player is attacking (each
    click runs [handle_sword]), ends at -1 hit points and is removed by
    the purge. *)
Theorem spider_two_hits `{Sprites} p x y :
  p_attacking p = true -> can_hit p (enemy_rect (enemy_init x y spider)) = true ->
  let es := handle_sword p (handle_sword p [enemy_init x y spider]) in
  map e_hp es = [-1] /\ purge_dead es = [].
Proof.
  intros Ha Hc. cbv zeta. set (e0 := enemy_init x y spider) in *.
  rewrite (handle_sword_hit p e0) by done.
  rewrite (handle_sword_hit p (enemy_take_damage e0 SWORD_DAMAGE)) by done.
  split; reflexivity.
Qed.
End CombatTheorems.

(** ** Concrete runs *)
Section CombatWitnesses.
Import QFloat.
#[local] Existing Instance tile_sprites.

(** A swing to the right of a fresh player, and a spider just there. *)
Lemma spider_two_hits_witness :
  let p := start_attack (player_init (F:=QF)) 150 80 0 in
  let es := handle_sword p (handle_sword p [enemy_init 120 64 spider]) in
  map e_hp es = [-1] /\ purge_dead es = [].
Proof. apply spider_two_hits; vm_compute; reflexivity. Defined.
End CombatWitnesses.
