(* ===== verification/Fireball.v ===== *)
(** * Fireballs (main.py 456-489, 712-713).

    A [Fireball] has a float-or-int position, a float velocity, the
    radius 8 and an [alive] flag.  [fireball_update] is [Fireball.update]:
    it moves by the velocity, dies off screen, dies in a wall cell of the
    room grid, and otherwise hits a live player whose rect it touches,
    through [Player.take_damage], dying in the same step.  [fireballs_step]
    is the loop [for fb in projectiles: fb.update(...)] followed by the
    purge of dead fireballs; the player is threaded through the loop.
    The wall test of [update] agrees with [list_walls]: a fireball dies
    in a wall exactly when the tile under it is listed. *)

From S2P Require Import Prelude PyFloat Geometry Config Dungeon Player.

Section FireballModel.
Context {F : Type} `{PyFloat F}.

Record Fireball := mkFireball {
  fb_x : pynum F;
  fb_y : pynum F;
  fb_vx : F;
  fb_vy : F;
  fb_r : Z;
  fb_alive : bool
}.

(** [Fireball.__init__(x, y, vx, vy)] *)
Definition fireball_init (x y : pynum F) (vx vy : F) : Fireball :=
  mkFireball x y vx vy 8 true.

(** [Fireball.rect] *)
Definition fireball_rect (fb : Fireball) : Rect :=
  mkRect (py_int (fb_x fb) - fb_r fb) (py_int (fb_y fb) - fb_r fb) (fb_r fb * 2) (fb_r fb * 2).

Definition fb_set_pos (fb : Fireball) (x y : pynum F) : Fireball :=
  mkFireball x y (fb_vx fb) (fb_vy fb) (fb_r fb) (fb_alive fb).

(** [self.x += self.vx; self.y += self.vy] *)
Definition fb_move (fb : Fireball) : Fireball :=
  fb_set_pos fb (num_add_flt (fb_x fb) (fb_vx fb)) (num_add_flt (fb_y fb) (fb_vy fb)).

Definition fb_kill (fb : Fireball) : Fireball :=
  mkFireball (fb_x fb) (fb_y fb) (fb_vx fb) (fb_vy fb) (fb_r fb) false.

(** [0 <= v <= bound] on a number *)
Definition num_between (v : pynum F) (bound : Z) : bool :=
  flt_leb (flt_of_Z 0) (to_flt v) && flt_leb (to_flt v) (flt_of_Z bound).

(** The last test of [update]: [if player.alive and
    self.rect.colliderect(player.rect): player.take_damage(..);
    self.alive = False]. *)
Definition fireball_hit (fb : Fireball) (p : Player F) (now : Z) : Fireball * Player F :=
  if p_alive p && colliderect (fireball_rect fb) (player_rect p)
  then (fb_kill fb, take_damage p FIREBALL_DAMAGE now)
  else (fb, p).

(** [Fireball.update(grid, player)] at time [now] *)
Definition fireball_update (g : Grid) (p : Player F) (now : Z) (fb : Fireball)
    : res (Fireball * Player F) :=
  if negb (fb_alive fb) then Ok (fb, p)
  else
    let fb := fb_move fb in
    if negb (num_between (fb_x fb) SCREEN_WIDTH && num_between (fb_y fb) SCREEN_HEIGHT)
    then Ok (fb_kill fb, p)
    else
      let gx := py_int (fb_x fb) / TILE in
      let gy := py_int (fb_y fb) / TILE in
      if (0 <=? gx) && (gx <? ROOM_W) && (0 <=? gy) && (gy <? ROOM_H) then
        let! c := py_get2 g gy gx in
        if c =? 1 then Ok (fb_kill fb, p) else Ok (fireball_hit fb p now)
      else Ok (fireball_hit fb p now).

(** [for fb in projectiles: fb.update(grid, player)] *)
Fixpoint fireballs_update (g : Grid) (p : Player F) (now : Z) (fbs : list Fireball)
    : res (list Fireball * Player F) :=
  match fbs with
  | [] => Ok ([], p)
  | fb :: fbs' =>
      let! r := fireball_update g p now fb in
      let! r' := fireballs_update g r.2 now fbs' in
      Ok (r.1 :: r'.1, r'.2)
  end.

(** [projectiles[:] = [fb for fb in projectiles if fb.alive]] *)
Definition purge_fireballs (fbs : list Fireball) : list Fireball := filter fb_alive fbs.

(** Both, as the main loop runs them. *)
Definition fireballs_step (g : Grid) (p : Player F) (now : Z) (fbs : list Fireball)
    : res (list Fireball * Player F) :=
  let! r := fireballs_update g p now fbs in
  Ok (purge_fireballs r.1, r.2).
End FireballModel.

Arguments Fireball F : clear implicits.

Section FireballTheorems.
Context {F : Type} `{PyFloat F} `{Sprites}.
Implicit Types (p : Player F) (fb : Fireball F).

(** ** Lemmas *)

Lemma fireball_hit_cases fb p now :
  fireball_hit fb p now = (fb, p) \/
  fireball_hit fb p now = (fb_kill fb, take_damage p FIREBALL_DAMAGE now).
Proof. unfold fireball_hit. destruct (_ && _); auto. Qed.

(** One update leaves the player alone or hits it once and dies. *)
Lemma fireball_update_cases g p now fb fb' p' :
  fireball_update g p now fb = Ok (fb', p') ->
  p' = p \/ (p' = take_damage p FIREBALL_DAMAGE now /\ fb_alive fb' = false).
Proof.
  unfold fireball_update. destruct (fb_alive fb); [|intros [= _ <-]; by left]. cbn [negb].
  set (fb1 := fb_move fb).
  assert (Hhit : forall fb2 p2, fireball_hit fb1 p now = (fb2, p2) ->
            p2 = p \/ (p2 = take_damage p FIREBALL_DAMAGE now /\ fb_alive fb2 = false)).
  { intros fb2 p2. destruct (fireball_hit_cases fb1 p now) as [-> | ->]; intros [= <- <-]; auto. }
  destruct (negb _); [intros [= _ <-]; by left|].
  destruct (_ && _); [|intros [= Hr]; by apply Hhit].
  destruct (py_get2 g _ _) as [c|]; simpl; [|done].
  destruct (c =? 1); [intros [= _ <-]; by left|]. intros [= Hr]. by apply Hhit.
Qed.

Lemma fireball_update_dead g p now fb : fb_alive fb = false -> fireball_update g p now fb = Ok (fb, p).
Proof. intros Hd. unfold fireball_update. by rewrite Hd. Qed.

Lemma fireball_update_ok g p now fb :
  grid_shaped g -> exists fb' p', fireball_update g p now fb = Ok (fb', p').
Proof.
  intros Hg. unfold fireball_update. destruct (negb (fb_alive fb)); [eauto|].
  destruct (negb _); [eauto|].
  destruct ((0 <=? _) && _ && _ && _) eqn:Hin; [|destruct (fireball_hit _ _ _); eauto].
  rewrite !andb_true_iff, !Z.leb_le, !Z.ltb_lt in Hin.
  destruct (py_get2_shaped g (py_int (fb_x (fb_move fb)) / TILE) (py_int (fb_y (fb_move fb)) / TILE))
    as (c & -> & _); [done|lia|lia|]. simpl.
  destruct (c =? 1); [eauto|]. destruct (fireball_hit _ _ _); eauto.
Qed.

Lemma fireballs_update_cases g p now fbs fbs' p' :
  fireballs_update g p now fbs = Ok (fbs', p') ->
  (p' = p \/ p' = take_damage p FIREBALL_DAMAGE now) /\ length fbs' = length fbs.
Proof.
  revert p fbs'. induction fbs as [|fb fbs IH]; intros p fbs'; simpl; [intros [= <- <-]; auto|].
  destruct (fireball_update g p now fb) as [[fb1 p1]|] eqn:Hu; simpl; [|done].
  destruct (fireballs_update g p1 now fbs) as [[fbs2 p2]|] eqn:Hr; simpl; [|done].
  intros [= <- <-]. destruct (IH p1 fbs2 Hr) as [Hp Hl]. simpl. split; [|by rewrite Hl].
  destruct (fireball_update_cases g p now fb fb1 p1 Hu) as [-> | [-> _]]; [done|].
  right. destruct Hp as [-> | ->]; [done|]. apply take_damage_same_frame.
Qed.

Lemma fireballs_update_ok g p now fbs :
  grid_shaped g -> exists fbs' p', fireballs_update g p now fbs = Ok (fbs', p').
Proof.
  intros Hg. revert p. induction fbs as [|fb fbs IH]; intros p; simpl; [eauto|].
  destruct (fireball_update_ok g p now fb Hg) as (fb1 & p1 & ->). simpl.
  destruct (IH p1) as (fbs2 & p2 & ->). simpl. eauto.
Qed.

(** ** Theorems *)

(** C22: a fireball hits at most once.  An update that changes the
    player applies exactly [take_damage FIREBALL_DAMAGE] and leaves the
    fireball dead, and a dead fireball's later updates change nothing. *)
Theorem fireball_single_hit g p now fb fb' p' :
  fireball_update g p now fb = Ok (fb', p') -> p' <> p ->
  p' = take_damage p FIREBALL_DAMAGE now /\ fb_alive fb' = false /\
  forall g2 p2 now2, fireball_update g2 p2 now2 fb' = Ok (fb', p2).
Proof.
  intros Hu Hne. destruct (fireball_update_cases g p now fb fb' p' Hu) as [-> | [-> Hd]]; [done|].
  split; [done|]. split; [done|]. intros. by apply fireball_update_dead.
Qed.

(** C23: the projectile step of a frame.  On a room-shaped grid the
    update loop and the purge never raise; the player takes at most one
    fireball hit per frame however many fireballs touch it; every
    fireball left is alive and none is added. *)
Theorem fireballs_step_spec g p now fbs :
  grid_shaped g ->
  exists fbs' p', fireballs_step g p now fbs = Ok (fbs', p') /\
    (p' = p \/ p' = take_damage p FIREBALL_DAMAGE now) /\
    Forall (fun fb => fb_alive fb = true) fbs' /\ (length fbs' <= length fbs)%nat.
Proof.
  intros Hg. destruct (fireballs_update_ok g p now fbs Hg) as (fbs1 & p1 & Hu).
  destruct (fireballs_update_cases g p now fbs fbs1 p1 Hu) as [Hp Hl].
  exists (purge_fireballs fbs1), p1. unfold fireballs_step. rewrite Hu. simpl.
  split; [done|]. split; [done|]. split.
  - apply Forall_forall. intros fb Hfb.
    unfold purge_fireballs in Hfb.
    apply list_elem_of_filter in Hfb as [Ha _]. by destruct (fb_alive fb).
  - unfold purge_fireballs. rewrite <- Hl. apply length_filter.
Qed.
(** C13: the wall list and the fireball's wall test agree.  A live
    fireball whose moved position is on screen dies in the wall test of
    [Fireball.update] exactly when [list_walls] lists the pixel origin of
    the tile under that position ([int(x)//TILE], [int(y)//TILE]);
    otherwise it goes on to the player test.  Cell-to-pixel in
    [list_walls] and pixel-to-cell in [update] are inverse on walls. *)
Theorem fireball_wall_roundtrip g ws p now fb :
  grid_shaped g -> list_walls g = Ok ws -> fb_alive fb = true ->
  num_between (fb_x (fb_move fb)) SCREEN_WIDTH && num_between (fb_y (fb_move fb)) SCREEN_HEIGHT = true ->
  0 <= py_int (fb_x (fb_move fb)) < SCREEN_WIDTH -> 0 <= py_int (fb_y (fb_move fb)) < SCREEN_HEIGHT ->
  fireball_update g p now fb =
    Ok (if bool_decide ((py_int (fb_x (fb_move fb)) / TILE * TILE,
                         py_int (fb_y (fb_move fb)) / TILE * TILE) ∈ ws)
        then (fb_kill (fb_move fb), p) else fireball_hit (fb_move fb) p now).
Proof.
  intros Hg Hws Ha Hscr Hx Hy. unfold fireball_update. rewrite Ha, Hscr. cbn [negb].
  assert (Hgx : 0 <= py_int (fb_x (fb_move fb)) / TILE < ROOM_W)
    by (unfold ROOM_W, SCREEN_WIDTH, TILE in *; zlia).
  assert (Hgy : 0 <= py_int (fb_y (fb_move fb)) / TILE < ROOM_H)
    by (unfold ROOM_H, SCREEN_HEIGHT, TILE in *; zlia).
  replace ((0 <=? _) && _ && _ && _) with true
    by (symmetry; rewrite !andb_true_iff, !Z.leb_le, !Z.ltb_lt; lia).
  destruct (py_get2_shaped g _ _ Hg Hgx Hgy) as (c & -> & Hat). cbn [res_bind].
  case_bool_decide as Hm; rewrite (list_walls_cell_mem g ws _ _ Hg Hws Hgx Hgy), Hat in Hm.
  - injection Hm as ->. done.
  - destruct (Z.eqb_spec c 1); [subst; done|done].
Qed.
End FireballTheorems.

(** ** Concrete runs *)
Section FireballWitnesses.
Import QFloat.
#[local] Existing Instance tile_sprites.

Local Abbreviation room0 := (match make_static_room 0 with Ok (g, _) => g | Raise _ => [] end).

(** A fireball falling onto a fresh player's head. *)
Local Abbreviation falling := (fireball_init (F:=QF) (PInt 80) (PInt 60) (flt_of_Z 0) (flt_of_Z 3)).

Lemma fireball_single_hit_witness :
  exists fb' p', fireball_update room0 player_init 500 falling = Ok (fb', p') /\
    p' = take_damage player_init FIREBALL_DAMAGE 500 /\ fb_alive fb' = false /\
    forall g2 p2 now2, fireball_update g2 p2 now2 fb' = Ok (fb', p2).
Proof.
  eexists _, _. split; [vm_compute; reflexivity|].
  apply (fireball_single_hit room0 player_init 500 falling); [vm_compute; reflexivity|].
  intros Heq. apply (f_equal p_health) in Heq. vm_compute in Heq. discriminate.
Defined.

Lemma fireballs_step_spec_witness :
  grid_shaped room0 /\
  exists fbs' p', fireballs_step room0 player_init 500 [falling; falling] = Ok (fbs', p') /\
    (p' = player_init \/ p' = take_damage player_init FIREBALL_DAMAGE 500) /\
    Forall (fun fb => fb_alive fb = true) fbs' /\ (length fbs' <= length [falling; falling])%nat.
Proof.
  assert (Hg : grid_shaped room0) by (split; [vm_compute; reflexivity | vm_compute; repeat constructor]).
  split; [exact Hg|]. apply fireballs_step_spec. exact Hg.
Defined.
(** A fireball flying into the west wall of room 0, at tile (0, 3). *)
Local Abbreviation into_wall := (fireball_init (F:=QF) (PInt 40) (PInt 100) (flt_of_Z (-35)) (flt_of_Z 3)).

Lemma fireball_wall_roundtrip_witness :
  exists ws, list_walls room0 = Ok ws /\
    fireball_update room0 player_init 500 into_wall =
      Ok (if bool_decide ((py_int (fb_x (fb_move into_wall)) / TILE * TILE,
                           py_int (fb_y (fb_move into_wall)) / TILE * TILE) ∈ ws)
          then (fb_kill (fb_move into_wall), player_init) else fireball_hit (fb_move into_wall) player_init 500).
Proof.
  exists (match list_walls room0 with Ok ws => ws | Raise _ => [] end).
  assert (Hws : list_walls room0 = Ok (match list_walls room0 with Ok ws => ws | Raise _ => [] end))
    by (vm_compute; reflexivity).
  split; [exact Hws|].
  apply (fireball_wall_roundtrip room0 _ player_init 500 into_wall).
  - split; [vm_compute; reflexivity | vm_compute; repeat constructor].
  - exact Hws.
  - reflexivity.
  - exact eq_refl.
  - assert (E : py_int (fb_x (fb_move into_wall)) = 5) by (vm_compute; reflexivity).
    rewrite E. unfold SCREEN_WIDTH. lia.
  - assert (E : py_int (fb_y (fb_move into_wall)) = 103) by (vm_compute; reflexivity).
    rewrite E. unfold SCREEN_HEIGHT. lia.
Defined.
End FireballWitnesses.
