(* ===== verification/Enemies.v ===== *)
(** * Enemy movement and shooting (main.py 385-388, 399-450, 705-706).

    [enemy_update] is [Enemy.update(p, walls, grid, projectiles)] at time
    [now]: a dead enemy, or any enemy while the player is dead, does
    nothing; an enemy on the player's centre does nothing.  An eye keeps
    its distance (moves toward the player beyond 260 pixels, away within
    160), rolls back on a wall, and shoots through [Enemy.shoot] when the
    player is within [FIREBALL_RANGE] and its cooldown has run out.
    Spiders and skeletons walk straight at the player and roll back on a
    wall; ghosts walk through walls.  The shared [projectiles] list is
    passed in and returned: a shot appends one fireball to it.
    [Enemy.shoot] divides by the distance to the target without a check,
    so it raises [ZeroDivisionError] when that distance is 0. *)

From S2P Require Import Prelude PyFloat Geometry Config Dungeon Player Combat Fireball.

Section EnemyUpdate.
Context {F : Type} `{PyFloat F} `{Sprites}.
Implicit Types (p : Player F) (e : Enemy F).

(** [Enemy.center] *)
Definition enemy_center e : Z * Z := (rect_centerx (enemy_rect e), rect_centery (enemy_rect e)).

Definition e_set_pos e (x y : pynum F) : Enemy F :=
  mkEnemy x y (e_kind e) (e_mask e) (e_speed e) (e_hp e) (e_contact_damage e)
    (e_width e) (e_height e) (e_next_shot e).

Definition e_set_next_shot e (t : Z) : Enemy F :=
  mkEnemy (e_x e) (e_y e) (e_kind e) (e_mask e) (e_speed e) (e_hp e) (e_contact_damage e)
    (e_width e) (e_height e) t.

(** [ox, oy = self.x, self.y; self.x += mx*self.speed; self.y += my*self.speed]
    then, when [check] holds, the wall loop that restores [ox, oy]. *)
Definition enemy_step e (mx my : F) (walls : list (Z * Z)) (check : bool) : Enemy F :=
  let x' := num_add_flt (e_x e) (flt_mul mx (e_speed e)) in
  let y' := num_add_flt (e_y e) (flt_mul my (e_speed e)) in
  if check && hits_wall x' y' (e_mask e) walls then e else e_set_pos e x' y'.

(** [Enemy.shoot(tx, ty, projectiles)] *)
Definition shoot e (tx ty : Z) (projectiles : list (Fireball F)) : res (list (Fireball F)) :=
  let '(ex, ey) := enemy_center e in
  let dx := tx - ex in
  let dy := ty - ey in
  let d := flt_hypot (flt_of_Z dx) (flt_of_Z dy) in
  if flt_eqb d (flt_of_Z 0) then Raise ZeroDivisionError
  else
    let fdx := flt_div (flt_of_Z dx) d in
    let fdy := flt_div (flt_of_Z dy) d in
    Ok (projectiles ++ [fireball_init (PInt ex) (PInt ey)
                          (flt_mul fdx FIREBALL_SPEED) (flt_mul fdy FIREBALL_SPEED)]).

(** The eye's direction: toward the player beyond [maxr], away within
    [minr], still in between ([mx = my = 0]). *)
Definition eye_direction (dx dy : Z) (d : F) : F * F :=
  if flt_ltb (flt_of_Z 260) d then (flt_div (flt_of_Z dx) d, flt_div (flt_of_Z dy) d)
  else if flt_ltb d (flt_of_Z 160) then (flt_div (flt_of_Z (- dx)) d, flt_div (flt_of_Z (- dy)) d)
  else (flt_of_Z 0, flt_of_Z 0).

(** [Enemy.update(p, walls, grid, projectiles)] at time [now] *)
Definition enemy_update p (walls : list (Z * Z)) (now : Z) e (projectiles : list (Fireball F))
    : res (Enemy F * list (Fireball F)) :=
  if negb (enemy_alive e) || negb (p_alive p) then Ok (e, projectiles)
  else
    let '(px, py) := player_center p in
    let '(ex, ey) := enemy_center e in
    let dx := px - ex in
    let dy := py - ey in
    let d := flt_hypot (flt_of_Z dx) (flt_of_Z dy) in
    if flt_eqb d (flt_of_Z 0) then Ok (e, projectiles)
    else
      match e_kind e with
      | eye =>
          let '(mx, my) := eye_direction dx dy d in
          let e1 := enemy_step e mx my walls true in
          if flt_leb d (flt_of_Z FIREBALL_RANGE) && (e_next_shot e1 <=? now) then
            let! projectiles' := shoot e1 px py projectiles in
            Ok (e_set_next_shot e1 (now + FIREBALL_COOLDOWN_MS), projectiles')
          else Ok (e1, projectiles)
      | k =>
          let e1 := enemy_step e (flt_div (flt_of_Z dx) d) (flt_div (flt_of_Z dy) d) walls
                      (negb (bool_decide (k = ghost))) in
          Ok (e1, projectiles)
      end.

(** [for e in enemies: e.update(player, walls, grid, projectiles)] *)
Fixpoint enemies_update p (walls : list (Z * Z)) (now : Z) (es : list (Enemy F))
    (projectiles : list (Fireball F)) : res (list (Enemy F) * list (Fireball F)) :=
  match es with
  | [] => Ok ([], projectiles)
  | e :: es' =>
      let! r := enemy_update p walls now e projectiles in
      let! r' := enemies_update p walls now es' r.2 in
      Ok (r.1 :: r'.1, r'.2)
  end.
End EnemyUpdate.

Section EnemyTheorems.
Context {F : Type} `{PyFloat F} `{Sprites}.
Implicit Types (p : Player F) (e : Enemy F).

(** What an update leaves alone: everything but the position and the
    cooldown. *)
Definition same_stats e e' : Prop :=
  e_kind e' = e_kind e /\ e_mask e' = e_mask e /\ e_speed e' = e_speed e /\ e_hp e' = e_hp e /\
  e_contact_damage e' = e_contact_damage e /\ e_width e' = e_width e /\ e_height e' = e_height e.

(** ** Lemmas *)

Lemma enemy_step_stats e mx my walls check :
  same_stats e (enemy_step e mx my walls check) /\
  e_next_shot (enemy_step e mx my walls check) = e_next_shot e.
Proof. unfold enemy_step. destruct (_ && _); repeat split. Qed.

(** A step that passes the wall test ends off every wall. *)
Lemma enemy_step_off_walls e mx my walls :
  hits_wall (e_x e) (e_y e) (e_mask e) walls = false ->
  let e' := enemy_step e mx my walls true in
  hits_wall (e_x e') (e_y e') (e_mask e') walls = false.
Proof.
  intros He. cbv zeta. unfold enemy_step. cbn [andb].
  case_eq (hits_wall (num_add_flt (e_x e) (flt_mul mx (e_speed e)))
             (num_add_flt (e_y e) (flt_mul my (e_speed e))) (e_mask e) walls); intros Hw;
    [exact He | exact Hw].
Qed.

Lemma shoot_appends e tx ty projs projs' :
  shoot e tx ty projs = Ok projs' -> exists fb, projs' = projs ++ [fb] /\ fb_alive fb = true.
Proof. unfold shoot. destruct (enemy_center e). destruct (flt_eqb _ _); [done|]. intros [= <-]. eauto. Qed.

(** Every update: the stats are kept, and either nothing is shot and the
    cooldown is unchanged, or an eye whose cooldown had run out shoots
    one live fireball and restarts its cooldown at [now]. *)
Lemma enemy_update_cases p walls now e projs e' projs' :
  enemy_update p walls now e projs = Ok (e', projs') ->
  same_stats e e' /\
  ((projs' = projs /\ e_next_shot e' = e_next_shot e) \/
   (e_kind e = eye /\ e_next_shot e <= now /\ e_next_shot e' = now + FIREBALL_COOLDOWN_MS /\
    exists fb, projs' = projs ++ [fb] /\ fb_alive fb = true)).
Proof.
  unfold enemy_update.
  destruct (_ || _); [intros [= <- <-]; split; [repeat split | by left]|].
  destruct (player_center p) as [px py], (enemy_center e) as [ex ey].
  destruct (flt_eqb _ _); [intros [= <- <-]; split; [repeat split | by left]|].
  destruct (e_kind e) eqn:Hk;
    [ intros [= <- <-]; split; [apply enemy_step_stats | left; split; [done | apply enemy_step_stats]] ..|].
  destruct (eye_direction _ _ _) as [mx my].
  destruct (enemy_step_stats e mx my walls true) as [Hs Hn].
  destruct (flt_leb _ _ && _) eqn:Hshot; [|intros [= <- <-]; split; [done | by left]].
  apply andb_true_iff in Hshot as [_ Hc%Z.leb_le].
  destruct (shoot _ _ _ _) as [projs1|] eqn:Hsh; simpl; [|done]. intros [= <- <-].
  split; [exact Hs|]. right. split; [done|]. rewrite Hn in Hc. split; [done|]. split; [done|].
  exact (shoot_appends _ px py projs projs1 Hsh).
Qed.

(** The loop keeps the list's length and each enemy's stats, and only
    appends live fireballs to the shared list. *)
Lemma enemies_update_cases p walls now es projs es' projs' :
  enemies_update p walls now es projs = Ok (es', projs') ->
  Forall2 same_stats es es' /\
  exists new, projs' = projs ++ new /\ Forall (fun fb => fb_alive fb = true) new.
Proof.
  revert projs es'. induction es as [|e es IH]; intros projs es'; simpl.
  - intros [= <- <-]. split; [constructor|]. exists []. by rewrite app_nil_r.
  - destruct (enemy_update p walls now e projs) as [[e1 projs1]|] eqn:Hu; simpl; [|done].
    destruct (enemies_update p walls now es projs1) as [[es2 projs2]|] eqn:Hr; simpl; [|done].
    intros [= <- <-]. destruct (enemy_update_cases p walls now e projs e1 projs1 Hu) as [Hs Hc].
    destruct (IH projs1 es2 Hr) as [Hs2 (new & -> & Hnew)]. split; [by constructor|].
    destruct Hc as [[-> _] | (_ & _ & _ & fb & -> & Hfb)]; [by exists new|].
    exists (fb :: new). split; [by rewrite <- app_assoc|]. by constructor.
Qed.

(** ** Theorems *)

(** C24: the eye's rate of fire.  After an update in which an enemy
    shoots at time [now1], an update of the resulting enemy at any time
    before [now1 + FIREBALL_COOLDOWN_MS] shoots nothing. *)
Theorem eye_fire_rate p1 p2 walls1 walls2 now1 now2 e projs1 e1 fb projs2 e2 projs2' :
  enemy_update p1 walls1 now1 e projs1 = Ok (e1, projs1 ++ [fb]) ->
  now2 < now1 + FIREBALL_COOLDOWN_MS ->
  enemy_update p2 walls2 now2 e1 projs2 = Ok (e2, projs2') ->
  projs2' = projs2.
Proof.
  intros Hu1 Hw Hu2.
  destruct (enemy_update_cases _ _ _ _ _ _ _ Hu1) as [_ [[Heq _] | (_ & _ & Hn1 & _)]].
  { apply (f_equal length) in Heq. rewrite length_app in Heq. simpl in Heq. lia. }
  destruct (enemy_update_cases _ _ _ _ _ _ _ Hu2) as [_ [[-> _] | (_ & Hle & _)]]; [done|lia].
Qed.

(** C25: only eyes shoot, and only eyes can raise.  The update of a
    spider, skeleton or ghost always returns and leaves the projectile
    list as it was. *)
Theorem only_eyes_shoot p walls now e projs :
  e_kind e <> eye -> exists e', enemy_update p walls now e projs = Ok (e', projs).
Proof.
  intros Hk. unfold enemy_update. destruct (_ || _); [eauto|].
  destruct (player_center p), (enemy_center e). destruct (flt_eqb _ _); [eauto|].
  destruct (e_kind e); [eauto..|done].
Qed.

(** C26: enemy movement neither hurts nor heals.  The update loop of a
    frame keeps the number of enemies and each enemy's kind, hit points,
    contact damage, speed and size, and only appends live fireballs to
    the shared projectile list. *)
Theorem enemies_update_spec p walls now es projs es' projs' :
  enemies_update p walls now es projs = Ok (es', projs') ->
  length es' = length es /\
  (forall i e, es !! i = Some e -> exists e', es' !! i = Some e' /\ e_hp e' = e_hp e /\
     e_kind e' = e_kind e /\ e_contact_damage e' = e_contact_damage e) /\
  exists new, projs' = projs ++ new /\ Forall (fun fb => fb_alive fb = true) new.
Proof.
  intros Hu. destruct (enemies_update_cases _ _ _ _ _ _ _ Hu) as [Hs Hnew].
  split; [symmetry; by eapply Forall2_length|]. split; [|done].
  intros i e Hi. destruct (Forall2_lookup_l _ _ _ _ _ Hs Hi) as (e' & He' & Hk & _ & _ & Hhp & Hc & _).
  eauto.
Qed.

(** C27: spiders, skeletons and eyes never walk into a wall.  An enemy
    other than a ghost that starts off every wall is off every wall
    after its update; ghosts are the only kind that crosses walls. *)
Theorem enemy_update_off_walls p walls now e projs e' projs' :
  e_kind e <> ghost -> hits_wall (e_x e) (e_y e) (e_mask e) walls = false ->
  enemy_update p walls now e projs = Ok (e', projs') ->
  hits_wall (e_x e') (e_y e') (e_mask e') walls = false.
Proof.
  intros Hk He. unfold enemy_update. destruct (_ || _); [by intros [= <- _]|].
  destruct (player_center p) as [px py], (enemy_center e) as [ex ey].
  destruct (flt_eqb _ _); [by intros [= <- _]|].
  destruct (e_kind e) eqn:Hke; [..|done|];
    [intros [= <- _]; by apply enemy_step_off_walls ..|].
  destruct (eye_direction _ _ _) as [mx my].
  pose proof (enemy_step_off_walls e mx my walls He) as Hs.
  destruct (_ && _); [|by intros [= <- _]].
  destruct (shoot _ _ _ _); simpl; [|done]. by intros [= <- _].
Qed.
(** C12: the projectile list grows by at most one fireball per eye.
    The frame's enemy loop never removes a projectile and appends at
    most as many fireballs as the room has eyes. *)
Theorem enemies_update_shots p walls now es projs es' projs' :
  enemies_update p walls now es projs = Ok (es', projs') ->
  (length projs <= length projs' <=
   length projs + length (List.filter (fun e => if e_kind e is eye then true else false) es))%nat.
Proof.
  revert projs es'. induction es as [|e es IH]; intros projs es'; cbn [enemies_update].
  - intros [= _ <-]. cbn. lia.
  - destruct (enemy_update p walls now e projs) as [[e1 projs1]|] eqn:Hu; cbn [res_bind fst snd]; [|done].
    destruct (enemies_update p walls now es projs1) as [[es2 projs2]|] eqn:Hr; cbn [res_bind fst snd]; [|done].
    intros [= _ <-]. specialize (IH _ _ Hr). cbn [List.filter].
    destruct (enemy_update_cases p walls now e projs e1 projs1 Hu) as [_ [[-> _] | (-> & _ & _ & fb & -> & _)]].
    + destruct (e_kind e); cbn [length]; lia.
    + rewrite length_app in IH. cbn [length] in *. lia.
Qed.
End EnemyTheorems.

(** ** Concrete runs *)
Section EnemyWitnesses.
Import QFloat.
#[local] Existing Instance tile_sprites.

(** An eye 136 pixels right of a fresh player: it backs away and shoots. *)
Local Abbreviation eye0 := (enemy_init (F:=QF) 200 64 eye).
Local Abbreviation step1 := (enemy_update (F:=QF) player_init [] 1000 eye0 []).
Local Abbreviation eye1 := (match step1 with Ok (e, _) => e | Raise _ => eye0 end).
Local Abbreviation fb1 :=
  (match step1 with Ok (_, [fb]) => fb | _ => fireball_init (PInt 0) (PInt 0) (flt_of_Z 0) (flt_of_Z 0) end).

(** The wall list of room 0. *)
Local Abbreviation room0_walls_top :=
  (match make_static_room 0 with
   | Ok (g, _) => match list_walls g with Ok ws => ws | Raise _ => [] end
   | Raise _ => [] end).

Lemma eye_fire_rate_witness :
  step1 = Ok (eye1, [] ++ [fb1]) /\
  exists e2 projs2', enemy_update player_init [] 1500 eye1 [] = Ok (e2, projs2') /\ projs2' = [].
Proof.
  assert (H1 : step1 = Ok (eye1, [] ++ [fb1])) by (vm_compute; reflexivity).
  split; [exact H1|].
  destruct (enemy_update player_init [] 1500 eye1 []) as [[e2 projs2']|] eqn:H2;
    [|vm_compute in H2; discriminate].
  exists e2, projs2'. split; [reflexivity|].
  pose proof (eye_fire_rate player_init player_init [] [] 1000 1500 eye0 [] eye1 fb1 [] e2 projs2')
    as Hrate.
  apply Hrate; [exact H1 | unfold FIREBALL_COOLDOWN_MS; lia | exact H2].
Defined.

Lemma only_eyes_shoot_witness :
  exists e', enemy_update player_init [] 1000 (enemy_init (F:=QF) 200 64 skeleton) [] = Ok (e', []).
Proof. apply only_eyes_shoot. discriminate. Defined.

(** A skeleton walking toward the player in room 0. *)
Lemma enemy_update_off_walls_witness :
  exists e' projs', enemy_update player_init room0_walls_top 1000 (enemy_init (F:=QF) 200 64 skeleton) [] = Ok (e', projs') /\
    hits_wall (e_x e') (e_y e') (e_mask e') room0_walls_top = false.
Proof.
  destruct (enemy_update player_init room0_walls_top 1000 (enemy_init (F:=QF) 200 64 skeleton) [])
    as [[e' projs']|] eqn:Hu; [|vm_compute in Hu; discriminate].
  exists e', projs'. split; [reflexivity|].
  apply (enemy_update_off_walls player_init room0_walls_top 1000 (enemy_init 200 64 skeleton) [] e' projs');
    [discriminate | vm_compute; reflexivity | exact Hu].
Defined.

Lemma enemies_update_spec_witness :
  exists es' projs', enemies_update player_init [] 1000 [eye0; enemy_init 300 300 ghost] [] = Ok (es', projs') /\
  length es' = length [eye0; enemy_init 300 300 ghost] /\
  (forall i e, [eye0; enemy_init 300 300 ghost] !! i = Some e -> exists e', es' !! i = Some e' /\
     e_hp e' = e_hp e /\ e_kind e' = e_kind e /\ e_contact_damage e' = e_contact_damage e) /\
  exists new, projs' = [] ++ new /\ Forall (fun fb => fb_alive fb = true) new.
Proof.
  destruct (enemies_update player_init [] 1000 [eye0; enemy_init 300 300 ghost] [])
    as [[es' projs']|] eqn:Hu; [|vm_compute in Hu; discriminate].
  exists es', projs'. split; [reflexivity|]. exact (enemies_update_spec _ _ _ _ _ _ _ Hu).
Defined.
Lemma enemies_update_shots_witness :
  exists es' projs', enemies_update player_init [] 1000 [eye0; enemy_init 300 300 ghost] [] = Ok (es', projs') /\
  (length (@nil (Fireball QF)) <= length projs' <=
   length (@nil (Fireball QF)) + length (List.filter (fun e => if e_kind e is eye then true else false)
                                           [eye0; enemy_init 300 300 ghost]))%nat.
Proof.
  destruct (enemies_update player_init [] 1000 [eye0; enemy_init 300 300 ghost] [])
    as [[es' projs']|] eqn:Hu; [|vm_compute in Hu; discriminate].
  exists es', projs'. split; [reflexivity|]. exact (enemies_update_shots _ _ _ _ _ _ _ Hu).
Defined.
End EnemyWitnesses.
