(* ===== verification/Generation.v ===== *)
(** * Random placement of enemies and chests (main.py 220-264).

    Python's [random] module is an abstract generator [G] with the one
    primitive CPython builds [randint] and [choice] on: [_randbelow(n)],
    a number in [[0, n)] and the next state (class [PyRandom]).
    [randint(a, b)] is [a + _randbelow(b - a + 1)] and [choice(seq)] is
    [seq[_randbelow(len(seq))]], as in CPython's [random.py].

    [random_free] is a [while True] loop that only stops when the draw
    hits a free floor cell, so it need not terminate: it runs on [fuel]
    and answers [None] when the fuel runs out.  The computation type
    [gen A = option (res A)] has the three outcomes: out of fuel, raised,
    returned.  [generate_rooms] is the second loop of
    [generate_static_dungeon], filling [room_data] with each room's wall
    list, enemies and chests. *)

From S2P Require Import Prelude PyFloat Geometry Config Dungeon Player Chest Combat.

Class PyRandom (G : Type) := randbelow : G -> Z -> Z * G.

(** The contract of [_randbelow]. *)
Class PyRandomLaws (G : Type) `{PyRandom G} :=
  randbelow_range : forall s n, 0 < n -> 0 <= (randbelow s n).1 < n.

(** ** The computation type *)

Definition gen (A : Type) : Type := option (res A).

Definition gen_bind {A B} (m : gen A) (k : A -> gen B) : gen B :=
  match m with
  | None => None
  | Some (Raise e) => Some (Raise e)
  | Some (Ok a) => k a
  end.

Definition gen_ret {A} (a : A) : gen A := Some (Ok a).

Definition gen_res {A} (r : res A) : gen A := Some r.

Notation "'glet!' x := m 'in' k" := (gen_bind m (fun x => k))
  (at level 10, x name, m at level 100, k at level 200) : dg_scope.

(** The computation does not raise (it may run out of fuel). *)
Definition no_raise {A} (m : gen A) : Prop := forall e, m <> Some (Raise e).

Section Placement.
Context {F : Type} `{PyFloat F} `{Sprites} {G : Type} `{PyRandom G}.

(** [random.randint(a, b)] *)
Definition randint (s : G) (a b : Z) : Z * G :=
  let r := randbelow s (b - a + 1) in (a + r.1, r.2).

(** [random.choice(seq)] *)
Definition choice {A} (s : G) (l : list A) : res (A * G) :=
  let r := randbelow s (Z.of_nat (length l)) in
  let! x := py_getitem l r.1 in Ok (x, r.2).

(** One iteration's test: the drawn cell is floor and its tile touches
    nothing placed. *)
Definition cell_free (g : Grid) (placed : list Rect) (gx gy : Z) : res bool :=
  let! c := py_get2 g gy gx in
  if c =? 1 then Ok false
  else Ok (negb (existsb (colliderect (mkRect (gx * TILE) (gy * TILE) TILE TILE)) placed)).

(** [random_free(grid, placed)] *)
Fixpoint random_free (fuel : nat) (g : Grid) (placed : list Rect) (s : G) : gen (Z * Z * G) :=
  match fuel with
  | O => None
  | S fuel' =>
      let rx := randint s 1 (ROOM_W - 2) in
      let ry := randint rx.2 1 (ROOM_H - 2) in
      match cell_free g placed rx.1 ry.1 with
      | Raise e => Some (Raise e)
      | Ok false => random_free fuel' g placed ry.2
      | Ok true => gen_ret (rx.1 * TILE, ry.1 * TILE, ry.2)
      end
  end.

(** [for _ in range(n): x, y = random_free(g, placed);
    kind = random.choice(cfg["enemy_types"]); e = Enemy(x, y, kind);
    enemies.append(e); placed.append(e.rect)] *)
Fixpoint place_enemies (fuel : nat) (n : nat) (g : Grid) (kinds : list EnemyKind)
    (enemies : list (Enemy F)) (placed : list Rect) (s : G) : gen (list (Enemy F) * list Rect * G) :=
  match n with
  | O => gen_ret (enemies, placed, s)
  | S n' =>
      glet! r := random_free fuel g placed s in
      glet! k := gen_res (choice r.2 kinds) in
      let e := enemy_init r.1.1 r.1.2 k.1 in
      place_enemies fuel n' g kinds (enemies ++ [e]) (placed ++ [enemy_rect e]) k.2
  end.

(** [[random.choice(ITEM_ORDER) for _ in range(n)]] *)
Fixpoint choose_items (n : nat) (s : G) : res (list Item * G) :=
  match n with
  | O => Ok ([], s)
  | S n' =>
      let! r := choice s ITEM_ORDER in
      let! rs := choose_items n' r.2 in
      Ok (r.1 :: rs.1, rs.2)
  end.

(** [for _ in range(n): x, y = random_free(g, placed);
    items = [...]; c = Chest(x, y, items); chests.append(c);
    placed.append(c.rect)] *)
Fixpoint place_chests (fuel : nat) (n : nat) (g : Grid) (chests : list Chest)
    (placed : list Rect) (s : G) : gen (list Chest * list Rect * G) :=
  match n with
  | O => gen_ret (chests, placed, s)
  | S n' =>
      glet! r := random_free fuel g placed s in
      let k := randint r.2 1 3 in
      glet! its := gen_res (choose_items (Z.to_nat k.1) k.2) in
      let c := chest_init r.1.1 r.1.2 its.1 in
      place_chests fuel n' g (chests ++ [c]) (placed ++ [c_rect c]) its.2
  end.

(** The wall rects [placed] starts from. *)
Definition wall_rects (walls : list (Z * Z)) : list Rect :=
  (fun w => mkRect w.1 w.2 TILE TILE) <$> walls.

(** The body of the second loop of [generate_static_dungeon] for room
    [g] with configuration [cfg]. *)
Definition generate_room (fuel : nat) (g : Grid) (cfg : RoomConfig) (s : G)
    : gen (list (Z * Z) * list (Enemy F) * list Chest * G) :=
  glet! walls := gen_res (list_walls g) in
  let ne := randint s (enemy_min cfg) (enemy_max cfg) in
  glet! re := place_enemies fuel (Z.to_nat ne.1) g (enemy_types cfg) [] (wall_rects walls) ne.2 in
  if no_chests cfg then gen_ret (walls, re.1.1, [], re.2)
  else
    let nc := randint re.2 1 3 in
    glet! rc := place_chests fuel (Z.to_nat nc.1) g [] re.1.2 nc.2 in
    gen_ret (walls, re.1.1, rc.1.1, rc.2).

(** The second loop: [room_data] in room order. *)
Definition generate_rooms (fuel : nat) (rooms : list Grid) (s : G)
    : gen (list (list (Z * Z) * list (Enemy F) * list Chest) * G) :=
  fold_left (fun acc i =>
    glet! a := acc in
    glet! g := gen_res (py_getitem rooms i) in
    glet! cfg := gen_res (dict_get (ROOM_CONFIG !! i)) in
    glet! r := generate_room fuel g cfg a.2 in
    gen_ret (a.1 ++ [(r.1.1.1, r.1.1.2, r.1.2)], r.2))
    (py_range 0 ROOM_COUNT) (gen_ret ([], s)).
End Placement.

(** ** The cells that stay free

    Floor cells whose coordinates are [2 mod 3]: a rect of at most one
    tile touches at most one of them. *)
Definition cand_xs : list Z := [2; 5; 8; 11; 14; 17; 20].
Definition cand_ys : list Z := [2; 5; 8; 11; 14].

Definition room_cands (i : Z) : list (Z * Z) :=
  List.filter (fun c => room_cell_spec i c.1 c.2 =? 0) (list_prod cand_xs cand_ys).

Definition cands_ok_b (i : Z) : bool :=
  (16 <=? length (room_cands i))%nat &&
  bool_decide (NoDup (room_cands i)) &&
  forallb (fun c => (1 <=? c.1) && (c.1 <=? ROOM_W - 2) && (1 <=? c.2) && (c.2 <=? ROOM_H - 2) &&
                    (c.1 mod 3 =? 2) && (c.2 mod 3 =? 2)) (room_cands i).

(** A tile-sized rect: what an enemy or chest sprite occupies. *)
Definition small_rect (r : Rect) : Prop :=
  rect_pos r /\ rect_w r <= TILE /\ rect_h r <= TILE.

Definition cell_rect (c : Z * Z) : Rect := mkRect (c.1 * TILE) (c.2 * TILE) TILE TILE.

(** A sequence of placements [(x, y, rect)], each on a cell that was
    free when it was drawn: floor, inside the border, and touching
    nothing placed before it. *)
Fixpoint free_seq (g : Grid) (placed : list Rect) (pl : list (Z * Z * Rect)) : Prop :=
  match pl with
  | [] => True
  | p :: pl' =>
      (exists gx gy, p.1.1 = gx * TILE /\ p.1.2 = gy * TILE /\ 1 <= gx <= ROOM_W - 2 /\
         1 <= gy <= ROOM_H - 2 /\ cell_free g placed gx gy = Ok true) /\
      free_seq g (placed ++ [p.2]) pl'
  end.

(** A linear congruential generator standing in for Python's Mersenne
    twister when the model is run on concrete seeds.  It satisfies the
    only law the proofs use. *)
Definition lcg : PyRandom Z := fun s n => (s mod n, (s * 1103515245 + 12345) mod 2147483648).

Section PlacementTheorems.
Context {F : Type} `{PyFloat F} `{Sprites} {G : Type} `{PyRandomLaws G}.

(** ** Lemmas *)

Lemma randint_range s a b : a <= b -> a <= (randint s a b).1 <= b.
Proof. intros Hab. unfold randint. simpl. pose proof (randbelow_range s (b - a + 1)). lia. Qed.

Lemma cell_rect_collide c d :
  colliderect (cell_rect c) (cell_rect d) = true -> c = d.
Proof.
  destruct c as [cx cy], d as [dx dy].
  rewrite colliderect_pos_iff by (split; simpl; unfold TILE; lia).
  unfold cell_rect, rect_right, rect_bottom, TILE; simpl. intros. f_equal; lia.
Qed.

(** A rect of at most one tile meets at most one cell of the grid of
    step 3. *)
Lemma small_rect_one_cand r c d :
  small_rect r -> c.1 mod 3 = 2 -> c.2 mod 3 = 2 -> d.1 mod 3 = 2 -> d.2 mod 3 = 2 ->
  colliderect (cell_rect c) r = true -> colliderect (cell_rect d) r = true -> c = d.
Proof.
  intros (Hp & Hw & Hh) Hc1 Hc2 Hd1 Hd2.
  rewrite !colliderect_pos_iff by (done || (split; simpl; unfold TILE; lia)).
  destruct c as [cx cy], d as [dx dy]; simpl in *.
  unfold cell_rect, rect_right, rect_bottom, TILE in *; simpl in *. intros. f_equal; zlia.
Qed.

Lemma cands_ok i : 0 <= i < ROOM_COUNT -> cands_ok_b i = true.
Proof.
  intros Hi. assert (Hall : forallb cands_ok_b (py_range 0 ROOM_COUNT) = true)
    by (vm_compute; reflexivity).
  exact (forallb_py_range _ _ _ Hall i Hi).
Qed.

(** What one successful iteration of [random_free] returned. *)
Lemma random_free_sound fuel g placed s x y s' :
  random_free fuel g placed s = gen_ret (x, y, s') ->
  exists gx gy, x = gx * TILE /\ y = gy * TILE /\ 1 <= gx <= ROOM_W - 2 /\ 1 <= gy <= ROOM_H - 2 /\
    cell_free g placed gx gy = Ok true.
Proof.
  revert s. induction fuel as [|fuel IH]; intros s; simpl; [done|].
  pose proof (randint_range s 1 (ROOM_W - 2) ltac:(rewrite ROOM_W_eq; lia)).
  pose proof (randint_range (randint s 1 (ROOM_W - 2)).2 1 (ROOM_H - 2)
                ltac:(rewrite ROOM_H_eq; lia)).
  destruct (cell_free _ _ _ _) as [[]|] eqn:Hc; [|apply IH|done].
  intros [= <- <- <-]. eauto 10.
Qed.

(** A candidate cell that no extra rect touches passes the loop's test:
    it is floor, and the walls' tiles are other cells. *)
Lemma cell_free_cand i g ds ws extra c :
  0 <= i < ROOM_COUNT -> make_static_room i = Ok (g, ds) -> list_walls g = Ok ws ->
  c ∈ room_cands i -> existsb (colliderect (cell_rect c)) extra = false ->
  cell_free g (wall_rects ws ++ extra) c.1 c.2 = Ok true.
Proof.
  intros Hi Hm Hws Hc Hex.
  destruct (make_static_room_correct i Hi) as (g' & ds' & Hm' & Hshape & Hcells & _).
  rewrite Hm in Hm'. injection Hm' as <- <-.
  destruct (list_walls_correct g Hshape) as (ws' & Hws' & Hspec).
  rewrite Hws in Hws'. injection Hws' as <-.
  pose proof (cands_ok i Hi) as Hok. unfold cands_ok_b in Hok.
  rewrite !andb_true_iff, forallb_forall in Hok. destruct Hok as [_ Hin].
  apply list_elem_of_In in Hc as Hc'. specialize (Hin c Hc').
  rewrite !andb_true_iff, !Z.leb_le, !Z.eqb_eq in Hin.
  destruct Hin as [[[[[Hx1 Hx2] Hy1] Hy2] _] _].
  unfold room_cands in Hc'. apply filter_In in Hc' as [_ Hfloor%Z.eqb_eq].
  destruct (py_get2_shaped g c.1 c.2 Hshape) as (v & Hv & Hat); [lia|lia|].
  rewrite Hcells in Hat by lia. injection Hat as <-.
  unfold cell_free. rewrite Hv. simpl. rewrite Hfloor. simpl.
  rewrite existsb_app. fold (cell_rect c). rewrite Hex, orb_false_r.
  destruct (existsb _ (wall_rects ws)) eqn:Hw; [exfalso|done].
  apply existsb_exists in Hw as (r & Hr & Hcol). unfold wall_rects in Hr. apply in_map_iff in Hr as (w & <- & Hw).
  apply list_elem_of_In, Hspec in Hw as (x & y & Hx & Hy & Hat & ->).
  change (colliderect (cell_rect c) (cell_rect (x, y)) = true) in Hcol.
  apply cell_rect_collide in Hcol. subst c. simpl in *.
  rewrite Hcells in Hat by done. injection Hat. lia.
Qed.

Lemma gen_bind_ret {A B} (m : gen A) (k : A -> gen B) b :
  gen_bind m k = gen_ret b -> exists a, m = gen_ret a /\ k a = gen_ret b.
Proof. destruct m as [[a|]|]; simpl; [eauto|done|done]. Qed.

(** ** Placement never raises on a room grid *)

Lemma gen_bind_no_raise {A B} (m : gen A) (k : A -> gen B) :
  no_raise m -> (forall a, m = gen_ret a -> no_raise (k a)) -> no_raise (gen_bind m k).
Proof.
  intros Hm Hk e. destruct m as [[a|e']|]; cbn [gen_bind]; [by apply Hk| |done].
  intros _. by apply (Hm e').
Qed.

Lemma gen_ret_no_raise {A} (a : A) : no_raise (gen_ret a).
Proof. by intros e. Qed.

Lemma gen_res_no_raise {A} (r : res A) a : r = Ok a -> no_raise (gen_res r).
Proof. intros -> e. done. Qed.

Lemma gen_fold_no_raise {A B} (f : A -> B -> gen A) (l : list B) acc :
  no_raise acc -> (forall a b, b ∈ l -> no_raise (f a b)) ->
  no_raise (fold_left (fun acc b => gen_bind acc (fun a => f a b)) l acc).
Proof.
  revert acc. induction l as [|b l IH]; intros acc Hacc Hf; [done|]. cbn [fold_left].
  apply IH; [|intros a b' Hb'; apply Hf; by right].
  apply gen_bind_no_raise; [done|]. intros a _. apply Hf. by left.
Qed.

Lemma choice_ok {A} s (l : list A) : l <> [] -> exists x s', choice s l = Ok (x, s').
Proof.
  intros Hl. unfold choice.
  assert (Hn : 0 < Z.of_nat (length l)) by (destruct l; [done|cbn; lia]).
  pose proof (randbelow_range s _ Hn) as Hr.
  destruct (py_getitem_ok l (randbelow s (Z.of_nat (length l))).1 Hr) as (x & _ & ->).
  cbn [res_bind]. eauto.
Qed.

Lemma choose_items_ok n s : exists its s', choose_items n s = Ok (its, s').
Proof.
  revert s. induction n as [|n IH]; intros s; cbn [choose_items]; [eauto|].
  destruct (choice_ok s ITEM_ORDER) as (x & s1 & ->); [done|]. cbn [res_bind fst snd].
  destruct (IH s1) as (its & s2 & ->). cbn [res_bind]. eauto.
Qed.

Lemma random_free_no_raise fuel g placed s :
  grid_shaped g -> no_raise (random_free fuel g placed s).
Proof.
  intros Hg. revert s. induction fuel as [|fuel IH]; intros s; cbn [random_free]; [done|].
  pose proof (randint_range s 1 (ROOM_W - 2) ltac:(rewrite ROOM_W_eq; lia)).
  pose proof (randint_range (randint s 1 (ROOM_W - 2)).2 1 (ROOM_H - 2)
                ltac:(rewrite ROOM_H_eq; lia)).
  unfold cell_free. destruct (py_get2_shaped g (randint s 1 (ROOM_W - 2)).1
    (randint (randint s 1 (ROOM_W - 2)).2 1 (ROOM_H - 2)).1 Hg) as (c & -> & _); [lia|lia|].
  cbn [res_bind]. destruct (c =? 1); [apply IH|].
  destruct (negb _); [apply gen_ret_no_raise|apply IH].
Qed.

Lemma place_enemies_no_raise fuel n g kinds es placed s :
  grid_shaped g -> kinds <> [] -> no_raise (place_enemies fuel n g kinds es placed s).
Proof.
  intros Hg Hk. revert es placed s. induction n as [|n IH]; intros es placed s;
    cbn [place_enemies]; [apply gen_ret_no_raise|].
  apply gen_bind_no_raise; [by apply random_free_no_raise|]. intros r _.
  destruct (choice_ok r.2 kinds Hk) as (x & s' & Hc).
  apply gen_bind_no_raise; [by eapply gen_res_no_raise|]. intros k Hk'.
  rewrite Hc in Hk'. injection Hk' as <-. apply IH.
Qed.

Lemma place_chests_no_raise fuel n g chs placed s :
  grid_shaped g -> no_raise (place_chests fuel n g chs placed s).
Proof.
  intros Hg. revert chs placed s. induction n as [|n IH]; intros chs placed s;
    cbn [place_chests]; [apply gen_ret_no_raise|].
  apply gen_bind_no_raise; [by apply random_free_no_raise|]. intros r _.
  destruct (choose_items_ok (Z.to_nat (randint r.2 1 3).1) (randint r.2 1 3).2) as (its & s' & Hc).
  apply gen_bind_no_raise; [by eapply gen_res_no_raise|]. intros k Hk'.
  rewrite Hc in Hk'. injection Hk' as <-. apply IH.
Qed.

Lemma generate_room_no_raise fuel g cfg s :
  grid_shaped g -> enemy_types cfg <> [] -> no_raise (generate_room (F:=F) fuel g cfg s).
Proof.
  intros Hg Hk. destruct (list_walls_correct g Hg) as (ws & Hws & _). unfold generate_room.
  apply gen_bind_no_raise; [by eapply gen_res_no_raise|]. intros walls _.
  apply gen_bind_no_raise; [by apply place_enemies_no_raise|]. intros re _.
  destruct (no_chests cfg); [apply gen_ret_no_raise|].
  apply gen_bind_no_raise; [by apply place_chests_no_raise|]. intros. apply gen_ret_no_raise.
Qed.

(** The second loop of [generate_static_dungeon] on the dungeon's rooms
    never raises: every [rooms[i]] and [ROOM_CONFIG[i]] exists and every
    room lists an enemy kind to choose from. *)
Lemma generate_rooms_no_raise fuel s : no_raise (generate_rooms (F:=F) fuel static_rooms s).
Proof.
  unfold generate_rooms. apply gen_fold_no_raise; [apply gen_ret_no_raise|].
  intros a i Hi%py_range_spec.
  destruct (static_rooms_get i Hi) as (g & Hg & Hshape & _).
  destruct (ROOM_CONFIG_lookup i Hi) as (cfg & Hcfg & Hk).
  cbv beta. rewrite Hg, Hcfg. cbn [dict_get gen_res gen_bind].
  apply gen_bind_no_raise; [by apply generate_room_no_raise|]. intros. apply gen_ret_no_raise.
Qed.

Lemma choose_items_length n s its s' : choose_items n s = Ok (its, s') -> length its = n.
Proof.
  revert s its. induction n as [|n IH]; intros s its; simpl; [by intros [= <- _]|].
  destruct (choice s ITEM_ORDER) as [r|]; simpl; [|done].
  destruct (choose_items n r.2) as [[its1 s1]|] eqn:Hr; simpl; [|done].
  intros [= <- <-]. simpl. f_equal. exact (IH _ _ Hr).
Qed.

Lemma choice_elem {A} s (l : list A) x s' : choice s l = Ok (x, s') -> x ∈ l.
Proof.
  unfold choice. destruct (py_getitem l _) as [y|] eqn:Hg; simpl; [|done].
  intros [= <- _]. by eapply py_getitem_elem.
Qed.

Lemma place_enemies_spec fuel n g kinds es placed s es' placed' s' :
  place_enemies fuel n g kinds es placed s = gen_ret (es', placed', s') ->
  exists new pl, es' = es ++ new /\ length new = n /\ placed' = placed ++ (enemy_rect <$> new) /\
    Forall (fun e => e_kind e ∈ kinds) new /\ free_seq g placed pl /\
    Forall2 (fun e p => e = enemy_init p.1.1 p.1.2 (e_kind e) /\ p.2 = enemy_rect e) new pl.
Proof.
  revert es placed s. induction n as [|n IH]; intros es placed s; simpl.
  - intros [= <- <- <-]. exists [], []. rewrite !app_nil_r. repeat split; constructor.
  - intros (r & Hr & Hk)%gen_bind_ret. destruct (choice r.2 kinds) as [[k s1]|] eqn:Hc; [|done].
    simpl in Hk. destruct (IH _ _ _ Hk) as (new & pl & -> & Hlen & -> & Hkinds & Hfree & Hpl).
    destruct r as [[x y] s0]. destruct (random_free_sound _ _ _ _ _ _ _ Hr) as (gx & gy & Hfr).
    exists (enemy_init x y k :: new), ((x, y, enemy_rect (enemy_init x y k)) :: pl). simpl.
    split; [by rewrite <- app_assoc|]. split; [by rewrite Hlen|]. split; [by rewrite <- app_assoc|].
    split; [constructor; [by eapply choice_elem|done]|]. split; [split; [eauto 10|done]|].
    by constructor.
Qed.

Lemma place_chests_spec fuel n g chs placed s chs' placed' s' :
  place_chests fuel n g chs placed s = gen_ret (chs', placed', s') ->
  exists new pl, chs' = chs ++ new /\ length new = n /\
    Forall (fun c => 1 <= Z.of_nat (length (c_items c)) <= 3) new /\ free_seq g placed pl /\
    Forall2 (fun c p => c_x c = p.1.1 /\ c_y c = p.1.2 /\ p.2 = c_rect c) new pl.
Proof.
  revert chs placed s. induction n as [|n IH]; intros chs placed s; simpl.
  - intros [= <- <- <-]. exists [], []. rewrite !app_nil_r. repeat split; constructor.
  - intros (r & Hr & Hk)%gen_bind_ret. destruct r as [[x y] s0]. revert Hk. cbn [fst snd].
    destruct (choose_items _ _) as [[its s2]|] eqn:Hits;
      simpl; [intros Hk|done].
    destruct (IH _ _ _ Hk) as (new & pl & -> & Hlen & Hitems & Hfree & Hpl).
    destruct (random_free_sound _ _ _ _ _ _ _ Hr) as (gx & gy & Hfr).
    apply choose_items_length in Hits.
    pose proof (randint_range s0 1 3 ltac:(lia)) as Hk3.
    exists (chest_init x y its :: new), ((x, y, c_rect (chest_init x y its)) :: pl). simpl.
    split; [by rewrite <- app_assoc|]. split; [by rewrite Hlen|].
    split; [constructor; [simpl; rewrite Hits; unfold randint in *; simpl in *; lia|done]|].
    split; [split; [eauto 10|done]|].
    by constructor.
Qed.

(** ** Theorems *)

(** C28: [random_free] can always stop.  In every room of the dungeon,
    with the room's wall tiles and up to 15 more sprites of at most one
    tile already placed (the most [generate_static_dungeon] places: 12
    enemies and 3 chests), some interior cell passes the loop's test,
    and a draw of that cell ends the [while True] loop there. *)
Theorem random_free_can_exit i g ds ws extra :
  0 <= i < ROOM_COUNT -> make_static_room i = Ok (g, ds) -> list_walls g = Ok ws ->
  Forall small_rect extra -> (length extra <= 15)%nat ->
  exists gx gy, 1 <= gx <= ROOM_W - 2 /\ 1 <= gy <= ROOM_H - 2 /\
    cell_free g (wall_rects ws ++ extra) gx gy = Ok true /\
    forall fuel s, (randint s 1 (ROOM_W - 2)).1 = gx ->
      (randint (randint s 1 (ROOM_W - 2)).2 1 (ROOM_H - 2)).1 = gy ->
      random_free (S fuel) g (wall_rects ws ++ extra) s =
        gen_ret (gx * TILE, gy * TILE, (randint (randint s 1 (ROOM_W - 2)).2 1 (ROOM_H - 2)).2).
Proof.
  intros Hi Hm Hws Hsmall Hlen.
  pose proof (cands_ok i Hi) as Hok. unfold cands_ok_b in Hok.
  rewrite !andb_true_iff, forallb_forall in Hok.
  destruct Hok as [[Hn%Nat.leb_le Hnd%bool_decide_eq_true] Hin].
  destruct (pigeonhole_free (fun r c => colliderect (cell_rect c) r) extra (room_cands i))
    as (c & Hc & Hfree); [done| |lia|].
  { intros r c1 c2 Hr Hc1 Hc2. apply list_elem_of_In in Hc1, Hc2.
    pose proof (Hin c1 Hc1) as Hk1. pose proof (Hin c2 Hc2) as Hk2.
    rewrite !andb_true_iff, !Z.eqb_eq in Hk1, Hk2.
    apply small_rect_one_cand; [|tauto..]. by eapply Forall_forall; [exact Hsmall|]. }
  assert (Hex : existsb (colliderect (cell_rect c)) extra = false) by exact Hfree.
  pose proof (cell_free_cand i g ds ws extra c Hi Hm Hws Hc Hex) as Hcf.
  apply list_elem_of_In in Hc. specialize (Hin c Hc).
  rewrite !andb_true_iff, !Z.leb_le in Hin.
  exists c.1, c.2. split; [tauto|]. split; [tauto|]. split; [done|].
  intros fuel s Hx Hy. cbn [random_free]. cbv zeta. rewrite Hx, Hy, Hcf. reflexivity.
Qed.

(** C29: what a generated room holds.  When the placement of a room
    returns, [room_data] gets the room's wall list, between [enemy_min]
    and [enemy_max] enemies of the room's kinds, no chest in a
    [no_chests] room and otherwise one to three chests of one to three
    items each; each enemy, then each chest, sits on an interior floor
    cell whose tile touched no wall and nothing placed before it. *)
Theorem generate_room_spec fuel g cfg s walls es chs s' :
  0 <= enemy_min cfg <= enemy_max cfg ->
  generate_room fuel g cfg s = gen_ret (walls, es, chs, s') ->
  list_walls g = Ok walls /\
  enemy_min cfg <= Z.of_nat (length es) <= enemy_max cfg /\
  Forall (fun e => e_kind e ∈ enemy_types cfg) es /\
  (no_chests cfg = true -> chs = []) /\
  (no_chests cfg = false -> 1 <= Z.of_nat (length chs) <= 3 /\
     Forall (fun c => 1 <= Z.of_nat (length (c_items c)) <= 3) chs) /\
  exists ple plc, free_seq g (wall_rects walls) ple /\
    Forall2 (fun e p => e = enemy_init p.1.1 p.1.2 (e_kind e) /\ p.2 = enemy_rect e) es ple /\
    free_seq g (wall_rects walls ++ (enemy_rect <$> es)) plc /\
    Forall2 (fun c p => c_x c = p.1.1 /\ c_y c = p.1.2 /\ p.2 = c_rect c) chs plc.
Proof.
  intros Hcfg. unfold generate_room.
  intros (walls' & Hw & Hk)%gen_bind_ret. injection Hw as Hw.
  apply gen_bind_ret in Hk as ([[es1 placed1] s1] & He & Hk).
  pose proof (randint_range s (enemy_min cfg) (enemy_max cfg) ltac:(lia)) as Hne.
  destruct (place_enemies_spec _ _ _ _ _ _ _ _ _ _ He)
    as (new & ple & Hes1 & Hlen & -> & Hkinds & Hfree & Hpl). simpl in Hes1. subst es1.
  destruct (no_chests cfg) eqn:Hnc; simpl in Hk.
  - injection Hk as <- <- <- _. split; [done|]. split; [rewrite Hlen, Z2Nat.id; lia|].
    split; [done|].
    split; [done|]. split; [done|]. exists ple, []. repeat split; done.
  - apply gen_bind_ret in Hk as ([[chs1 placed2] s2] & Hc & Hk). injection Hk as <- <- <- _.
    pose proof (randint_range s1 1 3 ltac:(lia)) as Hnc3.
    destruct (place_chests_spec _ _ _ _ _ _ _ _ _ Hc)
      as (newc & plc & Hchs & Hlenc & Hitems & Hfreec & Hplc). simpl in Hchs. subst chs1.
    split; [done|]. split; [rewrite Hlen, Z2Nat.id; lia|]. split; [done|]. split; [done|].
    split; [intros _; split; [rewrite Hlenc, Z2Nat.id; unfold randint in *; simpl in *; lia|done]|]. exists ple, plc. repeat split; done.
Qed.
End PlacementTheorems.

(** ** Concrete runs

    A linear congruential generator stands in for Python's Mersenne
    Twister; it meets the [_randbelow] contract. *)
Lemma lcg_laws : PyRandomLaws (H:=lcg) Z.
Proof. intros s n Hn. apply Z.mod_pos_bound, Hn. Qed.

Section GenerationWitnesses.
Import QFloat.
#[local] Existing Instance tile_sprites.
#[local] Existing Instance lcg.
#[local] Existing Instance lcg_laws.

Local Abbreviation room0 := (match make_static_room 0 with Ok (g, _) => g | Raise _ => [] end).
Local Abbreviation room0_doors := (match make_static_room 0 with Ok (_, ds) => ds | Raise _ => ∅ end).
Local Abbreviation room0_walls := (match list_walls room0 with Ok ws => ws | Raise _ => [] end).

(** Two enemy-sized rects already placed in room 0. *)
Local Abbreviation two_sprites := [mkRect 70 70 32 32; mkRect 300 200 20 30].

Lemma random_free_can_exit_witness :
  exists gx gy, 1 <= gx <= ROOM_W - 2 /\ 1 <= gy <= ROOM_H - 2 /\
    cell_free room0 (wall_rects room0_walls ++ two_sprites) gx gy = Ok true /\
    forall fuel s, (randint s 1 (ROOM_W - 2)).1 = gx ->
      (randint (randint s 1 (ROOM_W - 2)).2 1 (ROOM_H - 2)).1 = gy ->
      random_free (S fuel) room0 (wall_rects room0_walls ++ two_sprites) s =
        gen_ret (gx * TILE, gy * TILE, (randint (randint s 1 (ROOM_W - 2)).2 1 (ROOM_H - 2)).2).
Proof.
  apply (random_free_can_exit 0 room0 room0_doors room0_walls two_sprites).
  - unfold ROOM_COUNT. lia.
  - vm_compute. reflexivity.
  - vm_compute. reflexivity.
  - repeat constructor; unfold TILE; simpl; lia.
  - simpl. lia.
Defined.

Local Abbreviation gen0 := (generate_room (F:=QF) 100 room0 (room_config 0) 42).
Local Abbreviation gen0_walls := (match gen0 with Some (Ok r) => r.1.1.1 | _ => [] end).
Local Abbreviation gen0_enemies := (match gen0 with Some (Ok r) => r.1.1.2 | _ => [] end).
Local Abbreviation gen0_chests := (match gen0 with Some (Ok r) => r.1.2 | _ => [] end).
Local Abbreviation gen0_seed := (match gen0 with Some (Ok r) => r.2 | _ => 0 end).

Lemma generate_room_spec_witness :
  gen0 = gen_ret (gen0_walls, gen0_enemies, gen0_chests, gen0_seed) /\
  list_walls room0 = Ok gen0_walls /\
  enemy_min (room_config 0) <= Z.of_nat (length gen0_enemies) <= enemy_max (room_config 0) /\
  Forall (fun e => e_kind e ∈ enemy_types (room_config 0)) gen0_enemies /\
  (no_chests (room_config 0) = true -> gen0_chests = []) /\
  (no_chests (room_config 0) = false -> 1 <= Z.of_nat (length gen0_chests) <= 3 /\
     Forall (fun c => 1 <= Z.of_nat (length (c_items c)) <= 3) gen0_chests) /\
  exists ple plc, free_seq room0 (wall_rects gen0_walls) ple /\
    Forall2 (fun e p => e = enemy_init p.1.1 p.1.2 (e_kind e) /\ p.2 = enemy_rect e) gen0_enemies ple /\
    free_seq room0 (wall_rects gen0_walls ++ (enemy_rect <$> gen0_enemies)) plc /\
    Forall2 (fun c p => c_x c = p.1.1 /\ c_y c = p.1.2 /\ p.2 = c_rect c) gen0_chests plc.
Proof.
  assert (Hg : gen0 = gen_ret (gen0_walls, gen0_enemies, gen0_chests, gen0_seed))
    by (vm_compute; reflexivity).
  split; [exact Hg|].
  apply (generate_room_spec 100 room0 (room_config 0) 42 gen0_walls gen0_enemies gen0_chests gen0_seed);
    [vm_compute; split; discriminate | exact Hg].
Defined.
End GenerationWitnesses.
