(* ===== verification/Game.v ===== *)
(** * The game: global state, [reset_run], events and the frame
    (main.py 510-526, 641-721).

    [World] holds the module's globals: [game_state], [running],
    [player], [current_room], [projectiles], [inventory], the lists
    [rooms], [room_doors], [room_themes] and [room_data], and the state
    of the random generator.  [room_data[i]] is a tuple
    [(walls, enemies, chests)] whose lists the loop mutates in place;
    the model writes the new lists back at index [i].

    A frame is [frame]: the events of the frame in order
    ([handle_event], which reads [game_state] afresh for each event),
    then, in the [play] state, the update sequence of the loop body:
    movement, room transition, attack expiry, enemy updates, the purge,
    contact damage, fireballs, and the two state tests.  The frame's
    [pygame.time.get_ticks()] readings are one value [now]; the keys
    held are four booleans.  Drawing is not modelled. *)

From S2P Require Import Prelude PyFloat Geometry Config Dungeon Player Transition Chest Combat Fireball Enemies Generation.

Inductive GameState := st_title | st_play | st_gameover | st_win.

#[export] Instance GameState_eq_dec : EqDecision GameState.
Proof. solve_decision. Defined.

(** The keys the handlers test. *)
Inductive Key := K_RETURN | K_SPACE | K_1 | K_2 | K_3 | K_4 | K_e | K_other.

Inductive Event :=
| ev_quit
| ev_keydown (k : Key)
| ev_mousedown (button : Z) (pos : Z * Z)
| ev_other.

(** [ev.key in (pygame.K_RETURN, pygame.K_SPACE)] *)
Definition start_key (k : Key) : bool :=
  match k with K_RETURN | K_SPACE => true | _ => false end.

(** The item the keys [1]..[4] eat. *)
Definition key_item (k : Key) : option Item :=
  match k with K_1 => Some apple | K_2 => Some bread | K_3 => Some meat | K_4 => Some chicken
          | _ => None end.

(** What the loop reads of the keyboard and clock in one frame. *)
Record FrameInput := mkInput {
  fi_events : list Event;
  fi_right : bool;   (** [keys[K_d] or keys[K_RIGHT]] *)
  fi_left : bool;
  fi_down : bool;
  fi_up : bool;
  fi_now : Z
}.

Section Game.
Context {F : Type} `{PyFloat F} `{Sprites} {G : Type} `{PyRandom G}.

Abbreviation RoomData := (list (Z * Z) * list (Enemy F) * list Chest)%type.

Record World := mkWorld {
  w_state : GameState;
  w_running : bool;
  w_player : Player F;
  w_room : Z;
  w_projectiles : list (Fireball F);
  w_inventory : Inventory;
  w_rooms : list Grid;
  w_doors : list Doors;
  w_themes : list Theme;
  w_data : list RoomData;
  w_rng : G
}.

Definition set_state (w : World) (st : GameState) : World :=
  mkWorld st (w_running w) (w_player w) (w_room w) (w_projectiles w) (w_inventory w)
    (w_rooms w) (w_doors w) (w_themes w) (w_data w) (w_rng w).

Definition set_running (w : World) (b : bool) : World :=
  mkWorld (w_state w) b (w_player w) (w_room w) (w_projectiles w) (w_inventory w)
    (w_rooms w) (w_doors w) (w_themes w) (w_data w) (w_rng w).

Definition set_player (w : World) (p : Player F) : World :=
  mkWorld (w_state w) (w_running w) p (w_room w) (w_projectiles w) (w_inventory w)
    (w_rooms w) (w_doors w) (w_themes w) (w_data w) (w_rng w).

Definition set_inventory (w : World) (inv : Inventory) : World :=
  mkWorld (w_state w) (w_running w) (w_player w) (w_room w) (w_projectiles w) inv
    (w_rooms w) (w_doors w) (w_themes w) (w_data w) (w_rng w).

Definition set_data (w : World) (d : list RoomData) : World :=
  mkWorld (w_state w) (w_running w) (w_player w) (w_room w) (w_projectiles w) (w_inventory w)
    (w_rooms w) (w_doors w) (w_themes w) d (w_rng w).

(** [generate_static_dungeon()]: both loops. *)
Definition generate_static_dungeon (fuel : nat) (s : G)
    : gen (list Grid * list Doors * list Theme * list RoomData * G) :=
  glet! b := gen_res build_static_rooms in
  glet! r := generate_rooms fuel b.1.1 s in
  gen_ret (b.1.1, b.1.2, b.2, r.1, r.2).

(** [reset_run()]: the dungeon, a fresh player in room 0, no
    projectiles, an empty inventory; [game_state] is not touched. *)
Definition reset_run (fuel : nat) (w : World) : gen World :=
  glet! d := generate_static_dungeon fuel (w_rng w) in
  gen_ret (mkWorld (w_state w) (w_running w) player_init 0 [] new_inventory
             d.1.1.1.1 d.1.1.1.2 d.1.1.2 d.1.2 d.2).

(** The left click of the [play] state: swing, then [handle_sword] on
    the current room's enemies. *)
Definition click (w : World) (mx my now : Z) : res World :=
  let p := start_attack (w_player w) mx my now in
  let! rd := py_getitem (w_data w) (w_room w) in
  let! data := py_setitem (w_data w) (w_room w) (rd.1.1, handle_sword p rd.1.2, rd.2) in
  Ok (set_data (set_player w p) data).

(** The [K_e] key: every chest of the current room tries to open. *)
Definition press_e (w : World) : res World :=
  let! rd := py_getitem (w_data w) (w_room w) in
  let! r := open_chests rd.2 (player_rect (w_player w)) (w_inventory w) in
  let! data := py_setitem (w_data w) (w_room w) (rd.1.1, rd.1.2, r.1) in
  Ok (set_inventory (set_data w data) r.2).

(** The [KEYDOWN] handler of the [play] state. *)
Definition play_key (w : World) (k : Key) : res World :=
  match key_item k with
  | Some it =>
      let! r := consume_item (w_inventory w) (w_player w) it in
      Ok (set_player (set_inventory w r.1) r.2)
  | None => match k with K_e => press_e w | _ => Ok w end
  end.

(** One event: [QUIT] clears [running]; then the branch of the current
    [game_state]. *)
Definition handle_event (fuel : nat) (now : Z) (w : World) (ev : Event) : gen World :=
  let w := match ev with ev_quit => set_running w false | _ => w end in
  match w_state w with
  | st_play =>
      match ev with
      | ev_mousedown b (mx, my) => if b =? 1 then gen_res (click w mx my now) else gen_ret w
      | ev_keydown k => gen_res (play_key w k)
      | _ => gen_ret w
      end
  | _ =>
      match ev with
      | ev_keydown k =>
          if start_key k then glet! w' := reset_run fuel w in gen_ret (set_state w' st_play)
          else gen_ret w
      | _ => gen_ret w
      end
  end.

Fixpoint handle_events (fuel : nat) (now : Z) (w : World) (evs : list Event) : gen World :=
  match evs with
  | [] => gen_ret w
  | ev :: evs' => glet! w' := handle_event fuel now w ev in handle_events fuel now w' evs'
  end.

(** The body of [if game_state == "play":] in the loop. *)
Definition play_update (w : World) (dx dy now : Z) : res World :=
  let! rd := py_getitem (w_data w) (w_room w) in
  let! grid := py_getitem (w_rooms w) (w_room w) in
  let p := move (w_player w) dx dy rd.1.1 in
  let! tr := try_room_transition (w_room w) p (w_doors w) in
  let room := tr.1 in
  let p := update_attack tr.2 now in
  let! rd := py_getitem (w_data w) room in
  let! grid := py_getitem (w_rooms w) room in
  let! eu := enemies_update p rd.1.1 now rd.1.2 (w_projectiles w) in
  let es := purge_dead eu.1 in
  let! data := py_setitem (w_data w) room (rd.1.1, es, rd.2) in
  let p := handle_melee p es now in
  let! fs := fireballs_step grid p now eu.2 in
  let p := fs.2 in
  let st := if negb (p_alive p) then st_gameover else st_play in
  let st := if win_condition room es then st_win else st in
  Ok (mkWorld st (w_running w) p room fs.1 (w_inventory w) (w_rooms w) (w_doors w)
        (w_themes w) data (w_rng w)).

(** One pass of [while running:]. *)
Definition frame (fuel : nat) (w : World) (inp : FrameInput) : gen World :=
  glet! w := handle_events fuel (fi_now inp) w (fi_events inp) in
  match w_state w with
  | st_play =>
      let dx := Z.b2z (fi_right inp) - Z.b2z (fi_left inp) in
      let dy := Z.b2z (fi_down inp) - Z.b2z (fi_up inp) in
      gen_res (play_update w dx dy (fi_now inp))
  | _ => gen_ret w
  end.

(** The program start: [game_state = "title"], [running = True], then
    [reset_run()] before the loop. *)
Definition initial_world (fuel : nat) (s : G) : gen World :=
  glet! d := generate_static_dungeon fuel s in
  gen_ret (mkWorld st_title true player_init 0 [] new_inventory
             d.1.1.1.1 d.1.1.1.2 d.1.1.2 d.1.2 d.2).
End Game.


(** ** The game's invariant *)
Section Invariant.
Context {F : Type} `{PyFloat F} `{Sprites} {G : Type} `{PyRandom G}.

(** A player the loop can hold: the health invariant, the maximum health
    [Player.__init__] sets, and a body of at most one tile. *)
Definition player_ok (p : Player F) : Prop :=
  player_inv p /\ p_max_health p = PLAYER_MAX_HEARTS * 2 /\
  0 < p_width p <= TILE /\ 0 < p_height p <= TILE.

(** The fields [player_ok] reads. *)
Definition same_body (p p' : Player F) : Prop :=
  p_health p' = p_health p /\ p_alive p' = p_alive p /\ p_max_health p' = p_max_health p /\
  p_width p' = p_width p /\ p_height p' = p_height p.

(** The room data of the invariant: one entry per room, no enemy with a
    negative contact damage. *)
Definition data_ok (d : list (list (Z * Z) * list (Enemy F) * list Chest)) : Prop :=
  length d = Z.to_nat ROOM_COUNT /\
  Forall (fun rd : list (Z * Z) * list (Enemy F) * list Chest =>
            Forall (fun e => 0 <= e_contact_damage e) rd.1.2) d.

Definition world_inv (w : World (F:=F) (G:=G)) : Prop :=
  w_rooms w = static_rooms /\ w_doors w = static_room_doors /\ w_themes w = static_themes /\
  0 <= w_room w < ROOM_COUNT /\ data_ok (w_data w) /\
  inv_wf (w_inventory w) /\ player_ok (w_player w) /\
  (w_state w = st_play -> p_alive (w_player w) = true).

(** The worlds of a run: the start, then any number of frames that
    returned, each run while [running] holds ([while running:]). *)
Inductive reachable : World (F:=F) (G:=G) -> Prop :=
| reach_start fuel s w : initial_world fuel s = gen_ret w -> reachable w
| reach_frame fuel w inp w' :
    reachable w -> w_running w = true -> frame fuel w inp = gen_ret w' -> reachable w'.
End Invariant.

Section InvariantLemmas.
Context {F : Type} `{PyFloat F} `{Sprites} {G : Type} `{PyRandom G}.
Implicit Types (p : Player F) (w : World (F:=F) (G:=G)).

(** ** The player *)

Lemma player_ok_same p p' : same_body p p' -> player_ok p -> player_ok p'.
Proof. unfold same_body, player_ok, player_inv. intros (-> & -> & -> & -> & ->). done. Qed.

Lemma set_pos_body p x y : same_body p (set_pos p x y).
Proof. repeat split. Qed.

Lemma move_body p dx dy walls : same_body p (move p dx dy walls).
Proof. unfold move. repeat case_match; repeat split. Qed.

Lemma start_attack_body p mx my now : same_body p (start_attack p mx my now).
Proof. unfold start_attack. repeat case_match; repeat split. Qed.

Lemma update_attack_body p now : same_body p (update_attack p now).
Proof. unfold update_attack. repeat case_match; repeat split. Qed.

Lemma take_damage_ok p d now : player_ok p -> 0 <= d -> player_ok (take_damage p d now).
Proof.
  intros (Hinv & Hm & Hw & Hh) Hd. split; [by apply take_damage_inv|].
  unfold take_damage. destruct (_ <? _); simpl; lia.
Qed.

Lemma heal_ok p amt : player_ok p -> p_alive p = true -> 0 <= amt -> player_ok (heal p amt).
Proof. intros (Hinv & Hm & Hw & Hh) Ha Hamt. split; [by apply heal_inv|]. simpl. lia. Qed.

Lemma heal_alive p amt : p_alive (heal p amt) = p_alive p.
Proof. reflexivity. Qed.

Lemma handle_melee_ok p es now :
  player_ok p -> Forall (fun e => 0 <= e_contact_damage e) es -> player_ok (handle_melee p es now).
Proof.
  intros Hp Hes. unfold handle_melee. destruct (negb _); [done|].
  pose proof (melee_fold_once es p now) as Hm. cbv zeta in Hm.
  destruct Hm as [Heq | (e & He & _ & Heq)]; rewrite Heq; [done|].
  apply take_damage_ok; [done|]. rewrite Forall_forall in Hes. by apply Hes.
Qed.

Lemma fireballs_step_ok g p now fbs fbs' p' :
  fireballs_step g p now fbs = Ok (fbs', p') -> player_ok p -> player_ok p'.
Proof.
  unfold fireballs_step. destruct (fireballs_update g p now fbs) as [[fbs1 p1]|] eqn:Hu; [|done].
  intros [= _ <-] Hp. destruct (fireballs_update_cases _ _ _ _ _ _ Hu) as [[-> | ->] _]; [done|].
  apply take_damage_ok; [done|]. unfold FIREBALL_DAMAGE. lia.
Qed.

(** A transition only moves the player, to a room of the dungeon. *)
Lemma try_room_transition_ok c p t p' :
  0 <= c < ROOM_COUNT -> player_ok p ->
  try_room_transition c p static_room_doors = Ok (t, p') ->
  0 <= t < ROOM_COUNT /\ player_ok p'.
Proof.
  intros Hc (Hinv & Hm & Hw & Hh) Htr.
  destruct (try_room_transition_landing c p p' t Hc Hw Hh Htr)
    as [[-> ->] | (Ht & x & y & -> & _)]; [done|].
  split; [done|]. apply (player_ok_same p); [apply set_pos_body|done].
Qed.
(** ** The play update, step by step *)

(** [play_update] returns exactly when each of its reads and calls
    returns; the world it returns is built from their results. *)
Lemma play_update_ok w dx dy now w' :
  play_update w dx dy now = Ok w' ->
  exists rd0 t p2 rd g es projs data fbs p4,
    py_getitem (w_data w) (w_room w) = Ok rd0 /\
    try_room_transition (w_room w) (move (w_player w) dx dy rd0.1.1) (w_doors w) = Ok (t, p2) /\
    py_getitem (w_data w) t = Ok rd /\ py_getitem (w_rooms w) t = Ok g /\
    enemies_update (update_attack p2 now) rd.1.1 now rd.1.2 (w_projectiles w) = Ok (es, projs) /\
    py_setitem (w_data w) t (rd.1.1, purge_dead es, rd.2) = Ok data /\
    fireballs_step g (handle_melee (update_attack p2 now) (purge_dead es) now) now projs = Ok (fbs, p4) /\
    w' = mkWorld (if win_condition t (purge_dead es) then st_win
                  else if negb (p_alive p4) then st_gameover else st_play)
           (w_running w) p4 t fbs (w_inventory w) (w_rooms w) (w_doors w) (w_themes w) data (w_rng w).
Proof.
  unfold play_update.
  destruct (py_getitem (w_data w) (w_room w)) as [rd0|] eqn:Hg0; cbn [res_bind]; [|done].
  destruct (py_getitem (w_rooms w) (w_room w)) as [g0|]; cbn [res_bind]; [|done].
  destruct (try_room_transition _ _ _) as [[t p2]|] eqn:Htr; cbn [res_bind fst snd]; [|done].
  destruct (py_getitem (w_data w) t) as [rd|] eqn:Hg; cbn [res_bind]; [|done].
  destruct (py_getitem (w_rooms w) t) as [g|] eqn:Hgr; cbn [res_bind]; [|done].
  destruct (enemies_update _ _ _ _ _) as [[es projs]|] eqn:Heu; cbn [res_bind fst snd]; [|done].
  destruct (py_setitem _ _ _) as [data|] eqn:Hs; cbn [res_bind]; [|done].
  destruct (fireballs_step _ _ _ _) as [[fbs p4]|] eqn:Hf; cbn [res_bind fst snd]; [|done].
  intros [= <-]. exists rd0, t, p2, rd, g, es, projs, data, fbs, p4. by repeat split.
Qed.
End InvariantLemmas.

Section DataLemmas.
Context {F : Type} `{PyFloat F} `{Sprites} {G : Type} `{PyRandomLaws G}.
Implicit Types (d : list (list (Z * Z) * list (Enemy F) * list Chest)).

Lemma data_get_ok d i rd :
  data_ok d -> py_getitem d i = Ok rd -> Forall (fun e => 0 <= e_contact_damage e) rd.1.2.
Proof.
  intros [_ Hd] Hg%py_getitem_elem. rewrite Forall_forall in Hd. by apply Hd.
Qed.

Lemma data_set_ok d i rd d' :
  data_ok d -> Forall (fun e => 0 <= e_contact_damage e) rd.1.2 -> py_setitem d i rd = Ok d' ->
  data_ok d'.
Proof.
  intros [Hl Hd] Hrd Hs. split.
  - rewrite <- Hl. by eapply py_setitem_length.
  - by eapply py_setitem_Forall.
Qed.

Lemma handle_sword_contact p (es : list (Enemy F)) :
  Forall (fun e => 0 <= e_contact_damage e) es ->
  Forall (fun e => 0 <= e_contact_damage e) (handle_sword p es).
Proof.
  intros Hes. unfold handle_sword. destruct (negb _); [done|].
  apply Forall_fmap. eapply Forall_impl; [exact Hes|]. intros e He. simpl. by destruct (_ && _).
Qed.

Lemma purge_contact (es : list (Enemy F)) :
  Forall (fun e => 0 <= e_contact_damage e) es ->
  Forall (fun e => 0 <= e_contact_damage e) (purge_dead es).
Proof.
  rewrite !Forall_forall. intros Hes e He. unfold purge_dead in He.
  apply list_elem_of_filter in He as [_ He]. by apply Hes.
Qed.

Lemma enemies_update_contact (p : Player F) walls now es projs es' projs' :
  Forall (fun e => 0 <= e_contact_damage e) es ->
  enemies_update p walls now es projs = Ok (es', projs') ->
  Forall (fun e => 0 <= e_contact_damage e) es'.
Proof.
  intros Hes Hu. destruct (enemies_update_cases _ _ _ _ _ _ _ Hu) as [Hs _]. clear Hu.
  revert Hes. induction Hs as [|e e' es es' (_ & _ & _ & _ & Hc & _) _ IH]; intros Hes; [done|].
  apply Forall_cons in Hes as [He Hes]. constructor; [lia|]. by apply IH.
Qed.

(** ** Generation *)

Lemma enemy_init_contact x y k : 0 <= e_contact_damage (enemy_init (F:=F) x y k).
Proof. destruct k; simpl; lia. Qed.

Lemma generate_room_contact fuel g cfg s walls es chs s' :
  generate_room (F:=F) fuel g cfg s = gen_ret (walls, es, chs, s') ->
  Forall (fun e => 0 <= e_contact_damage e) es.
Proof.
  unfold generate_room. intros (walls' & _ & Hk)%gen_bind_ret.
  apply gen_bind_ret in Hk as ([[es1 placed1] s1] & He & Hk).
  destruct (place_enemies_spec _ _ _ _ _ _ _ _ _ _ He) as (new & ple & Hes1 & _ & _ & _ & _ & Hpl).
  simpl in Hes1. subst es1.
  assert (Hnew : Forall (fun e => 0 <= e_contact_damage e) new).
  { clear -Hpl. induction Hpl as [|e p new pl [Heq _] _ IH]; [constructor|].
    constructor; [|done]. rewrite Heq. apply enemy_init_contact. }
  destruct (no_chests cfg); simpl in Hk.
  - by injection Hk as _ <- _ _.
  - apply gen_bind_ret in Hk as (? & _ & Hk). by injection Hk as _ <- _ _.
Qed.

Lemma gen_fold_none {A B} (f : A -> B -> gen A) (l : list B) :
  fold_left (fun acc b => gen_bind acc (fun a => f a b)) l None = None.
Proof. induction l; simpl; auto. Qed.

Lemma gen_fold_raise {A B} (f : A -> B -> gen A) (l : list B) e :
  fold_left (fun acc b => gen_bind acc (fun a => f a b)) l (Some (Raise e)) = Some (Raise e).
Proof. induction l; simpl; auto. Qed.

Lemma generate_rooms_ok fuel rooms s d s' :
  generate_rooms (F:=F) fuel rooms s = gen_ret (d, s') -> data_ok d.
Proof.
  unfold generate_rooms.
  assert (Hgen : forall (l : list Z) d0 s0,
    Forall (fun rd : list (Z * Z) * list (Enemy F) * list Chest =>
              Forall (fun e => 0 <= e_contact_damage e) rd.1.2) d0 ->
    fold_left (fun acc i =>
      glet! a := acc in
      glet! g := gen_res (py_getitem rooms i) in
      glet! cfg := gen_res (dict_get (ROOM_CONFIG !! i)) in
      glet! r := generate_room fuel g cfg a.2 in
      gen_ret (a.1 ++ [(r.1.1.1, r.1.1.2, r.1.2)], r.2)) l (gen_ret (d0, s0)) = gen_ret (d, s') ->
    length d = (length d0 + length l)%nat /\
    Forall (fun rd : list (Z * Z) * list (Enemy F) * list Chest =>
              Forall (fun e => 0 <= e_contact_damage e) rd.1.2) d).
  { induction l as [|i l IH]; intros d0 s0 Hd0; simpl.
    - intros [= <- _]. split; [lia|done].
    - destruct (py_getitem rooms i) as [g|]; simpl; [|by rewrite gen_fold_raise].
      destruct (dict_get (ROOM_CONFIG !! i)) as [cfg|]; simpl; [|by rewrite gen_fold_raise].
      destruct (generate_room fuel g cfg s0) as [[[[[walls es] chs] s1]|e]|] eqn:Hr; simpl;
        [|by rewrite gen_fold_raise|by rewrite gen_fold_none].
      intros Hf.
      assert (Hd1 : Forall (fun rd : list (Z * Z) * list (Enemy F) * list Chest =>
                      Forall (fun e => 0 <= e_contact_damage e) rd.1.2) (d0 ++ [(walls, es, chs)])).
      { apply Forall_app. split; [done|]. constructor; [|constructor].
        exact (generate_room_contact _ _ _ _ _ _ _ _ Hr). }
      destruct (IH _ _ Hd1 Hf) as [Hl Hall].
      rewrite length_app in Hl. simpl in Hl. split; [lia|done]. }
  intros Hf. destruct (Hgen _ [] s ltac:(constructor) Hf) as [Hl Hall].
  split; [rewrite Hl, length_py_range; reflexivity|done].
Qed.

Lemma generate_static_dungeon_ok fuel s rooms doors themes d s' :
  generate_static_dungeon (F:=F) fuel s = gen_ret (rooms, doors, themes, d, s') ->
  rooms = static_rooms /\ doors = static_room_doors /\ themes = static_themes /\ data_ok d.
Proof.
  unfold generate_static_dungeon. rewrite build_static_rooms_eq. cbn [gen_bind gen_res fst snd].
  destruct (generate_rooms fuel static_rooms s) as [[[d1 s1]|]|] eqn:Hg; cbn [gen_bind gen_ret];
    [|done|done].
  intros [= <- <- <- <- <-]. split; [done|]. split; [done|]. split; [done|].
  by eapply generate_rooms_ok.
Qed.
Lemma reset_run_outcome fuel (w : World (F:=F) (G:=G)) :
  reset_run fuel w = None \/ exists w', reset_run fuel w = gen_ret w'.
Proof.
  assert (Hn : no_raise (reset_run fuel w)).
  { unfold reset_run, generate_static_dungeon. rewrite build_static_rooms_eq.
    cbn [gen_res gen_bind fst snd].
    apply gen_bind_no_raise; [|intros; apply gen_ret_no_raise].
    apply gen_bind_no_raise; [apply generate_rooms_no_raise|intros; apply gen_ret_no_raise]. }
  destruct (reset_run fuel w) as [[w'|e]|]; [eauto| |auto]. by destruct (Hn e).
Qed.

(** C36: restarting never crashes.  [reset_run()] on any world either
    returns or runs out of fuel in [random_free]; it never raises: every
    room index, [ROOM_CONFIG] entry, grid cell and [random.choice] it
    reads exists. *)
Theorem reset_run_no_raise fuel (w : World (F:=F) (G:=G)) :
  reset_run fuel w = None \/ exists w', reset_run fuel w = gen_ret w'.
Proof. exact (reset_run_outcome fuel w). Qed.

(** C19: a finished or unstarted game can always be restarted.  On the
    title, game-over or win screen, a [RETURN] or [SPACE] key never
    crashes the program: the handler either enters [play] or is still
    drawing positions in [random_free]'s [while True] loop (the model's
    fuel ran out). *)
Theorem restart_enters_play fuel now (w : World (F:=F) (G:=G)) k :
  w_state w <> st_play -> start_key k = true ->
  handle_event fuel now w (ev_keydown k) = None \/
  exists w', handle_event fuel now w (ev_keydown k) = gen_ret w' /\ w_state w' = st_play.
Proof.
  intros Hst Hk. unfold handle_event.
  destruct (w_state w); [| by destruct Hst | ..]; rewrite Hk;
    (destruct (reset_run_outcome fuel w) as [-> | (w' & ->)]; [by left | right; by eexists]).
Qed.
End DataLemmas.

(** Reduce the world's projections and setters, and nothing else (the
    dungeon's tables are large closed terms). *)
Ltac world_simpl :=
  cbn [w_state w_running w_player w_room w_projectiles w_inventory w_rooms w_doors w_themes
       w_data w_rng set_state set_running set_player set_inventory set_data] in *.

Section FrameLemmas.
Context {F : Type} `{PyFloat F} `{Sprites} {G : Type} `{PyRandomLaws G}.
Hypothesis player_mask_tile : tile_sized player_mask.
Implicit Types (w : World (F:=F) (G:=G)).

Lemma world_inv_intro w :
  w_rooms w = static_rooms -> w_doors w = static_room_doors -> w_themes w = static_themes ->
  0 <= w_room w < ROOM_COUNT -> data_ok (w_data w) -> inv_wf (w_inventory w) ->
  player_ok (w_player w) -> (w_state w = st_play -> p_alive (w_player w) = true) -> world_inv w.
Proof. intros ? ? ? ? ? ? ? ?. unfold world_inv. done. Qed.

Lemma player_init_ok : player_ok (player_init (F:=F)).
Proof.
  destruct player_mask_tile as [Hw Hh]. split; [|split; [reflexivity|simpl; lia]].
  unfold player_inv. simpl. unfold PLAYER_MAX_HEARTS. split; [lia|]. split; [lia|done].
Qed.

Lemma world_inv_fresh fuel s st running rooms doors themes d s' :
  generate_static_dungeon (F:=F) fuel s = gen_ret (rooms, doors, themes, d, s') ->
  world_inv (mkWorld st running player_init 0 [] new_inventory rooms doors themes d s').
Proof.
  intros (-> & -> & -> & Hd)%generate_static_dungeon_ok.
  apply world_inv_intro; world_simpl;
    [done|done|done|unfold ROOM_COUNT; lia|exact Hd|apply new_inventory_wf|apply player_init_ok|done].
Qed.

Lemma reset_run_inv fuel w w' st :
  reset_run fuel w = gen_ret w' -> world_inv (set_state w' st).
Proof.
  unfold reset_run. intros (d & Hd & Hr)%gen_bind_ret. injection Hr as <-.
  destruct d as [[[[rooms doors] themes] data] s']. by eapply world_inv_fresh.
Qed.

Lemma set_running_inv w b : world_inv w -> world_inv (set_running w b).
Proof. done. Qed.

Lemma click_inv w mx my now w' :
  world_inv w -> w_state w = st_play -> click w mx my now = Ok w' -> world_inv w'.
Proof.
  intros (Hr & Hd & Hth & Hc & Hdata & Hwf & Hp & Halive) Hst.
  unfold click. destruct (py_getitem (w_data w) (w_room w)) as [rd|] eqn:Hg; cbn [res_bind]; [|done].
  destruct (py_setitem _ _ _) as [data|] eqn:Hs; cbn [res_bind]; [|done]. intros [= <-].
  set (p := start_attack (w_player w) mx my now) in *.
  assert (Hb : same_body (w_player w) p) by apply start_attack_body.
  pose proof (data_set_ok (w_data w) (w_room w) (rd.1.1, handle_sword p rd.1.2, rd.2) data Hdata
                (handle_sword_contact p _ (data_get_ok _ _ _ Hdata Hg)) Hs) as Hok.
  apply world_inv_intro; world_simpl; try assumption; [exact (player_ok_same _ _ Hb Hp)|].
  intros _. destruct Hb as (_ & -> & _). by apply Halive.
Qed.

Lemma play_key_inv w k w' :
  world_inv w -> w_state w = st_play -> play_key w k = Ok w' -> world_inv w'.
Proof.
  intros Hw Hst. pose proof Hw as (Hr & Hd & Hth & Hc & Hdata & Hinv & Hp & Halive).
  specialize (Halive Hst). unfold play_key. destruct (key_item k) as [it|].
  - destruct (consume_item _ _ it) as [[inv' p']|] eqn:Hci; simpl; [|done]. intros [= <-].
    pose proof (consume_item_wf _ _ _ _ _ Hinv Hci) as Hinv'.
    unfold consume_item in Hci. destruct (Hinv it) as (n & Hn & _). rewrite Hn in Hci. simpl in Hci.
    destruct (0 <? n); injection Hci as <- <-;
      apply world_inv_intro; world_simpl; try assumption;
      try (intros _; exact Halive).
    apply heal_ok; [done..|]. pose proof (item_heal_pos it). lia.
  - destruct k; try (intros [= <-]; exact Hw).
    unfold press_e. destruct (py_getitem (w_data w) (w_room w)) as [rd|] eqn:Hg; simpl; [|done].
    destruct (open_chests _ _ _) as [[chs inv']|] eqn:Ho; simpl; [|done].
    destruct (py_setitem _ _ _) as [data|] eqn:Hs; simpl; [|done]. intros [= <-].
    destruct (open_chests_wf rd.2 (player_rect (w_player w)) _ Hinv) as (chs'' & inv'' & Ho' & Hwf).
    rewrite Ho in Ho'. injection Ho' as <- <-.
    pose proof (data_set_ok (w_data w) (w_room w) (rd.1.1, rd.1.2, chs) data Hdata
                (data_get_ok _ _ _ Hdata Hg) Hs) as Hok.
    apply world_inv_intro; world_simpl; try assumption. intros _; exact Halive.
Qed.

Lemma handle_event_inv fuel now w ev w' :
  world_inv w -> handle_event fuel now w ev = gen_ret w' -> world_inv w'.
Proof.
  intros Hw. unfold handle_event.
  set (w1 := match ev with ev_quit => set_running w false | _ => w end).
  assert (Hw1 : world_inv w1) by (subst w1; destruct ev; exact Hw).
  clearbody w1. destruct (w_state w1) eqn:Hst.
  2: { destruct ev as [|k|b [mx my]|]; try (intros [= <-]; exact Hw1).
       - intros [= Hk]. exact (play_key_inv _ _ _ Hw1 Hst Hk).
       - destruct (b =? 1); [|intros [= <-]; exact Hw1]. intros [= Hk].
         exact (click_inv _ _ _ _ _ Hw1 Hst Hk). }
  all: destruct ev as [|k| |]; [intros [= <-]; exact Hw1| |intros [= <-]; exact Hw1..];
    destruct (start_key k); [|intros [= <-]; exact Hw1];
    intros (w2 & Hr & [= <-])%gen_bind_ret; exact (reset_run_inv _ _ _ _ Hr).
Qed.

Lemma handle_events_inv fuel now w evs w' :
  world_inv w -> handle_events fuel now w evs = gen_ret w' -> world_inv w'.
Proof.
  revert w. induction evs as [|ev evs IH]; intros w Hw; cbn [handle_events]; [intros [= <-]; exact Hw|].
  intros (w1 & Hh & Hr)%gen_bind_ret. exact (IH _ (handle_event_inv _ _ _ _ _ Hw Hh) Hr).
Qed.
Lemma play_update_inv w dx dy now w' :
  world_inv w -> play_update w dx dy now = Ok w' -> world_inv w'.
Proof.
  intros Hw. pose proof Hw as (Hr & Hd & Hth & Hc & Hdata & Hinv & Hp & Halive).
  intros (rd0 & t & p2 & rd & g & es & projs & data & fbs & p4 & _ & Htr & Hg & _ & Heu & Hs & Hf & ->)
    %play_update_ok.
  rewrite Hd in Htr.
  destruct (try_room_transition_ok _ _ _ _ Hc (player_ok_same _ _ (move_body _ _ _ _) Hp) Htr)
    as [Ht Hp2].
  pose proof (player_ok_same _ _ (update_attack_body p2 now) Hp2) as Hp3.
  pose proof (purge_contact _ (enemies_update_contact _ _ _ _ _ _ _
                (data_get_ok _ _ _ Hdata Hg) Heu)) as Hes.
  pose proof (data_set_ok _ _ (rd.1.1, purge_dead es, rd.2) data Hdata Hes Hs) as Hok.
  pose proof (fireballs_step_ok _ _ _ _ _ _ Hf (handle_melee_ok _ _ _ Hp3 Hes)) as Hp4.
  apply world_inv_intro; world_simpl; try assumption.
  destruct (win_condition t (purge_dead es)), (p_alive p4); cbn; congruence.
Qed.

Lemma frame_inv fuel w inp w' :
  world_inv w -> frame fuel w inp = gen_ret w' -> world_inv w'.
Proof.
  intros Hw. unfold frame. intros (w1 & Hh & Hk)%gen_bind_ret.
  pose proof (handle_events_inv _ _ _ _ _ Hw Hh) as Hw1.
  destruct (w_state w1); [injection Hk as <-; exact Hw1| |injection Hk as <-; exact Hw1..].
  injection Hk as Hk. exact (play_update_inv _ _ _ _ _ Hw1 Hk).
Qed.

Lemma initial_world_inv fuel s w :
  initial_world fuel s = gen_ret w -> world_inv w.
Proof.
  unfold initial_world. intros (d & Hd & Hr)%gen_bind_ret. injection Hr as <-.
  destruct d as [[[[rooms doors] themes] data] s']. exact (world_inv_fresh _ _ _ _ _ _ _ _ _ Hd).
Qed.

Lemma reachable_inv w : reachable w -> world_inv w.
Proof.
  induction 1 as [fuel s w Hi | fuel w inp w' _ IH _ Hf].
  - exact (initial_world_inv _ _ _ Hi).
  - exact (frame_inv _ _ _ _ IH Hf).
Qed.

(** C30: the invariant of the game.  In every world the program reaches
    (the start, then any number of frames that return), the room list
    and door table are the static dungeon's, the current room is one of
    its ten rooms, the room data has one entry per room and no enemy of
    it deals negative contact damage, the inventory is well formed, the
    player has [max_health = 10], [0 <= health <= max_health], [alive]
    exactly when health is positive and a body of at most one tile, and
    in the [play] state the player is alive. *)
Theorem reachable_world_inv w : reachable w -> world_inv w.
Proof. exact (reachable_inv w). Qed.
End FrameLemmas.


(** ** Outcomes of a frame *)
Section Outcomes.
Context {F : Type} `{PyFloat F} `{Sprites} {G : Type} `{PyRandom G}.
Implicit Types (w : World (F:=F) (G:=G)).

Lemma purge_dead_clear (es : list (Enemy F)) :
  forallb (fun e => negb (enemy_alive e)) (purge_dead es) = true <-> purge_dead es = [].
Proof.
  unfold purge_dead. induction es as [|e es IH]; [done|]. rewrite filter_cons.
  destruct (decide (enemy_alive e)) as [Ha|Ha]; [|exact IH].
  cbn [forallb]. apply Is_true_true_1 in Ha. rewrite Ha. split; discriminate.
Qed.

Lemma set_running_twice w b b' : set_running (set_running w b) b' = set_running w b'.
Proof. reflexivity. Qed.

Lemma set_running_same w : set_running w (w_running w) = w.
Proof. by destruct w. Qed.

(** Outside [play] an event that is not a start key changes at most
    [running]. *)
Lemma handle_event_frozen fuel now w ev :
  w_state w <> st_play ->
  match ev with ev_keydown k => start_key k = false | _ => True end ->
  handle_event fuel now w ev = gen_ret (match ev with ev_quit => set_running w false | _ => w end).
Proof.
  intros Hst Hk. unfold handle_event.
  destruct ev as [|k| |]; cbn [w_state set_running];
    destruct (w_state w); try congruence; try done; by rewrite Hk.
Qed.

Lemma handle_events_frozen fuel now w evs w' :
  w_state w <> st_play ->
  Forall (fun ev => match ev with ev_keydown k => start_key k = false | _ => True end) evs ->
  handle_events fuel now w evs = gen_ret w' -> w' = set_running w (w_running w').
Proof.
  revert w. induction evs as [|ev evs IH]; intros w Hst Hevs; cbn [handle_events].
  - intros [= <-]. by rewrite set_running_same.
  - apply Forall_cons in Hevs as [Hk Hevs].
    rewrite (handle_event_frozen _ _ _ _ Hst Hk). cbn [gen_bind gen_ret].
    destruct ev; try (by apply IH).
    intros Hr. rewrite (IH (set_running w false) Hst Hevs Hr). reflexivity.
Qed.
(** C31: the win test comes last and overrides the death test.  A play
    update ends in [win] exactly when the room the player ends in is the
    final room and its enemy list, purged of the dead, is empty; the
    player's health is not consulted, so a player killed in that same
    frame wins (main.py 715-718). *)
Theorem final_room_win w dx dy now w' :
  play_update w dx dy now = Ok w' ->
  (w_state w' = st_win <->
   w_room w' = FINAL_ROOM_INDEX /\
   exists rd, py_getitem (w_data w') (w_room w') = Ok rd /\ rd.1.2 = []).
Proof.
  intros (rd0 & t & p2 & rd & g & es & projs & data & fbs & p4 & _ & _ & _ & _ & _ & Hs & _ & ->)
    %play_update_ok.
  world_simpl. rewrite (py_getitem_setitem _ _ _ _ Hs). unfold win_condition. split.
  - destruct (_ && _) eqn:Hw; [|by destruct (negb _)]. intros _.
    apply andb_true_iff in Hw as [Ht%Z.eqb_eq Hc%purge_dead_clear].
    split; [exact Ht|]. by exists (rd.1.1, purge_dead es, rd.2).
  - intros [-> (rd' & [= <-] & Hc)]. cbn [fst snd] in Hc.
    by rewrite Z.eqb_refl, (proj2 (purge_dead_clear es) Hc).
Qed.

(** C32: the title, game-over and win screens are frozen.  Outside the
    [play] state a frame whose events hold no [RETURN] or [SPACE] key
    changes nothing but [running] (which a [QUIT] clears): clicks, the
    item keys and [e] are ignored and no update runs. *)
Theorem end_screen_frozen fuel w inp w' :
  w_state w <> st_play ->
  Forall (fun ev => match ev with ev_keydown k => start_key k = false | _ => True end) (fi_events inp) ->
  frame fuel w inp = gen_ret w' -> w' = set_running w (w_running w').
Proof.
  intros Hst Hevs. unfold frame. intros (w1 & Hh & Hk)%gen_bind_ret.
  pose proof (handle_events_frozen _ _ _ _ _ Hst Hevs Hh) as E.
  assert (Hs1 : w_state w1 = w_state w) by (rewrite E; reflexivity).
  rewrite Hs1 in Hk. destruct (w_state w); [| by destruct Hst | ..]; injection Hk as <-; exact E.
Qed.

(** C33: a start key on a screen other than [play] runs [reset_run()]
    and enters [play]: a fresh player in room 0, no projectiles, the
    empty inventory, [running] kept. *)
Theorem start_key_starts fuel now w k w' :
  w_state w <> st_play -> start_key k = true ->
  handle_event fuel now w (ev_keydown k) = gen_ret w' ->
  w_state w' = st_play /\ w_player w' = player_init /\ w_room w' = 0 /\
  w_projectiles w' = [] /\ w_inventory w' = new_inventory /\ w_running w' = w_running w.
Proof.
  intros Hst Hk. unfold handle_event.
  destruct (w_state w); [| by destruct Hst | ..]; rewrite Hk;
    intros (w2 & Hr & [= <-])%gen_bind_ret; unfold reset_run in Hr;
    apply gen_bind_ret in Hr as (d & _ & [= <-]); repeat split.
Qed.
End Outcomes.


(** ** The claims on concrete worlds *)
Section GameWitnesses.
Import QFloat.
#[local] Existing Instance tile_sprites.
#[local] Existing Instance lcg.
#[local] Existing Instance lcg_laws.

Local Abbreviation dummy :=
  (mkWorld (F:=QF) (G:=Z) st_title true player_init 0 [] new_inventory [] [] [] [] 0).
(** The world of the program start with seed 7, and after a frame in
    which [RETURN] is pressed. *)
Local Abbreviation W0 := (match initial_world (F:=QF) (G:=Z) 100 7 with Some (Ok w) => w | _ => dummy end).
Local Abbreviation start_input := (mkInput [ev_keydown K_RETURN] false false false false 0).
Local Abbreviation W1 := (match frame 100 W0 start_input with Some (Ok w) => w | _ => dummy end).

Lemma reachable_world_inv_witness :
  tile_sized player_mask /\ reachable W1 /\ w_state W1 = st_play /\ world_inv W1.
Proof.
  assert (Ht : tile_sized player_mask) by (unfold tile_sized; cbn; unfold TILE; lia).
  assert (H0 : initial_world (F:=QF) (G:=Z) 100 7 = gen_ret W0) by (vm_compute; reflexivity).
  assert (H1 : frame 100 W0 start_input = gen_ret W1) by (vm_compute; reflexivity).
  pose proof (@reach_start QF _ _ Z _ 100 7 W0) as Hs. specialize (Hs H0).
  pose proof (@reach_frame QF _ _ Z _ 100 W0 start_input W1) as Hr.
  specialize (Hr Hs ltac:(vm_compute; reflexivity) H1).
  split; [exact Ht|]. split; [exact Hr|]. split; [vm_compute; reflexivity|].
  pose proof (reachable_world_inv (F:=QF) (G:=Z) Ht W1) as Hinv. exact (Hinv Hr).
Defined.

Lemma reset_run_no_raise_witness :
  reset_run 100 W0 = None \/ exists w', reset_run 100 W0 = gen_ret w'.
Proof. pose proof (reset_run_no_raise (F:=QF) (G:=Z) 100 W0) as Hr. exact Hr. Defined.

Lemma restart_enters_play_witness :
  w_state W0 <> st_play /\ start_key K_RETURN = true /\
  exists w', handle_event 100 0 W0 (ev_keydown K_RETURN) = gen_ret w' /\ w_state w' = st_play.
Proof.
  assert (Hs : w_state W0 <> st_play) by (vm_compute; discriminate).
  split; [exact Hs|]. split; [reflexivity|].
  pose proof (restart_enters_play (F:=QF) (G:=Z) 100 0 W0 K_RETURN) as Hr.
  destruct (Hr Hs eq_refl) as [Hn | Hw]; [vm_compute in Hn; discriminate | exact Hw].
Defined.

(** A player with one health point in the cleared final room, a fireball
    on top of it. *)
Local Abbreviation hurt :=
  (mkPlayer (F:=QF) (PInt (TILE * 2)) (PInt (TILE * 2)) PLAYER_SPEED player_mask
     (mask_w player_mask) (mask_h player_mask) (PLAYER_MAX_HEARTS * 2) 1 0 true false (PInt 0) 0).
Local Abbreviation last_fb :=
  (mkFireball (F:=QF) (PInt (TILE * 2 + 16)) (PInt (TILE * 2 + 16)) (flt_of_Z 0) (flt_of_Z 0) 8 true).
Local Abbreviation Wf :=
  (mkWorld (F:=QF) (G:=Z) st_play true hurt FINAL_ROOM_INDEX [last_fb] new_inventory
     static_rooms static_room_doors [] (repeat ([], [], []) 10) 0).
Local Abbreviation Wf' := (match play_update Wf 0 0 1000 with Ok w => w | _ => Wf end).

Lemma final_room_win_witness :
  play_update Wf 0 0 1000 = Ok Wf' /\ p_alive (w_player Wf') = false /\ w_state Wf' = st_win.
Proof.
  assert (Hp : play_update Wf 0 0 1000 = Ok Wf') by (vm_compute; reflexivity).
  split; [exact Hp|]. split; [vm_compute; reflexivity|].
  pose proof (final_room_win (F:=QF) (G:=Z) Wf 0 0 1000 Wf') as Hw. specialize (Hw Hp). apply Hw.
  split; [vm_compute; reflexivity|]. exists ([], [], []). split; [vm_compute; reflexivity | reflexivity].
Defined.

(** The game-over screen under a click, two item keys and [QUIT]. *)
Local Abbreviation Wgo :=
  (mkWorld (F:=QF) (G:=Z) st_gameover true player_init 0 [] new_inventory [] [] [] [] 0).
Local Abbreviation go_input :=
  (mkInput [ev_mousedown 1 (5, 5); ev_keydown K_1; ev_keydown K_e; ev_quit] true false false false 500).
Local Abbreviation Wgo' := (match frame 100 Wgo go_input with Some (Ok w) => w | _ => dummy end).

Lemma end_screen_frozen_witness :
  frame 100 Wgo go_input = gen_ret Wgo' /\ Wgo' = set_running Wgo (w_running Wgo').
Proof.
  assert (Hf : frame 100 Wgo go_input = gen_ret Wgo') by (vm_compute; reflexivity).
  split; [exact Hf|].
  pose proof (end_screen_frozen (F:=QF) (G:=Z) 100 Wgo go_input Wgo') as Hfr.
  apply Hfr; [discriminate | repeat constructor | exact Hf].
Defined.

(** [RETURN] on the title screen of the program start. *)
Local Abbreviation W2 := (match handle_event 100 0 W0 (ev_keydown K_RETURN) with Some (Ok w) => w | _ => dummy end).

Lemma start_key_starts_witness :
  w_state W2 = st_play /\ w_player W2 = player_init /\ w_room W2 = 0 /\
  w_projectiles W2 = [] /\ w_inventory W2 = new_inventory /\ w_running W2 = w_running W0.
Proof.
  assert (Hs : w_state W0 <> st_play) by (vm_compute; discriminate).
  assert (He : handle_event 100 0 W0 (ev_keydown K_RETURN) = gen_ret W2) by (vm_compute; reflexivity).
  pose proof (start_key_starts (F:=QF) (G:=Z) 100 0 W0 K_RETURN W2) as Hst.
  apply Hst; [exact Hs | reflexivity | exact He].
Defined.
End GameWitnesses.
