(* ===== verification/Render.v ===== *)
(** * Drawing a frame (main.py 358-368, 452-454, 486-489, 506-507,
    529-563, 684-691, 720-752).

    Drawing is the sequence of calls the code makes on the screen
    surface: [screen.fill], [s.blit(image, (x, y))] and
    [pygame.display.flip()], a list of [DrawOp] in call order.  The
    images are named by the globals they are loaded into ([Image]); their
    sizes come from the image files and the fonts, so they are the class
    [Surfaces], with the math functions [Player.draw] calls on floats.
    A frame's drawing is [draw_frame]: the title screen, or the room,
    chests, enemies, fireballs, the player, the hearts, the inventory and
    the end-screen overlay.  The reads that can raise ([rooms[i]],
    [grid[y][x]], [inventory[name]], [room_data[i]]) raise here too. *)

From S2P Require Import Prelude PyFloat Geometry Config Dungeon Player Chest Combat Fireball Generation Game.
From stdpp Require Import strings pretty.
From Stdlib Require Import QArith.
Local Open Scope Z_scope.

Inductive Font := title_font | info_font | hud_font.

Abbreviation Color := (Z * Z * Z)%type.

Section Images.
Context {F : Type}.

(** The surfaces the code blits: the loaded images, the rotated sword,
    rendered text and the translucent overlay. *)
Inductive Image :=
| img_player | img_floor | img_wall | img_library_wall
| img_enemy (k : EnemyKind) | img_chest | img_chest_open
| img_heart_full | img_heart_half | img_heart_empty
| img_item (it : Item) | img_fireball
| img_sword_rot (angle : pynum F)           (** [pygame.transform.rotate(sword_img, angle)] *)
| img_text (font : Font) (text : string) (color : Color)   (** [font.render(text, True, color)] *)
| img_overlay (rgba : Z * Z * Z * Z).       (** a screen-sized [SRCALPHA] surface filled with [rgba] *)

Inductive DrawOp :=
| op_fill (c : Color)                       (** [screen.fill(c)] *)
| op_blit (img : Image) (x y : pynum F)     (** [s.blit(img, (x, y))] *)
| op_flip.                                  (** [pygame.display.flip()] *)
End Images.

Arguments Image F : clear implicits.
Arguments DrawOp F : clear implicits.

(** What drawing reads of the surfaces and the float functions it calls. *)
Class Surfaces (F : Type) := {
  img_width : Image F -> Z;                 (** [img.get_width()] *)
  img_height : Image F -> Z;                (** [img.get_height()] *)
  flt_neg : F -> F;                         (** [-x] *)
  flt_radians : F -> F;                     (** [math.radians] *)
  flt_cos : F -> F;
  flt_sin : F -> F
}.

(** Surfaces of one tile and text 10 pixels per character, with
    truncated series for the trigonometry: an instance to run the model
    on concrete worlds, not the game's art. *)
Definition tile_surfaces : Surfaces Q := {|
  img_width i := match i with img_text _ t _ => 10 * Z.of_nat (String.length t) | img_overlay _ => SCREEN_WIDTH | _ => TILE end;
  img_height i := match i with img_text _ _ _ => 20 | img_overlay _ => SCREEN_HEIGHT | _ => TILE end;
  flt_neg := Qopp;
  flt_radians x := Qred (x * QFloat.q_pi / 180)%Q;
  flt_cos x := Qred (1 - x * x / 2 + x * x * x * x / 24)%Q;
  flt_sin x := Qred (x - x * x * x / 6 + x * x * x * x * x / 120)%Q
|}.

Section Drawing.
Context {F : Type} `{PyFloat F} `{Surfaces F}.
Implicit Types (p : Player F) (e : Enemy F) (fb : Fireball F) (c : Chest).

(** [-x] on an int-or-float *)
Definition num_neg (x : pynum F) : pynum F :=
  match x with PInt z => PInt (- z) | PFloat f => PFloat (flt_neg f) end.

Definition blit_at (img : Image F) (x y : Z) : DrawOp F := op_blit img (PInt x) (PInt y).

(** [Player.draw(s)] *)
Definition player_draw p : list (DrawOp F) :=
  blit_at img_player (py_int (p_x p)) (py_int (p_y p)) ::
  if p_attacking p then
    let '(px, py) := player_center p in
    let rot := img_sword_rot (num_neg (p_attack_angle p)) in
    let rad := flt_radians (to_flt (p_attack_angle p)) in
    let ox := flt_sub (flt_add (flt_of_Z px) (flt_mul (flt_cos rad) (flt_of_Z 28)))
                      (flt_div (flt_of_Z (img_width rot)) (flt_of_Z 2)) in
    let oy := flt_sub (flt_add (flt_of_Z py) (flt_mul (flt_sin rad) (flt_of_Z 28)))
                      (flt_div (flt_of_Z (img_height rot)) (flt_of_Z 2)) in
    [op_blit rot (PFloat ox) (PFloat oy)]
  else [].

(** [Enemy.draw(s)] *)
Definition enemy_draw e : list (DrawOp F) :=
  if enemy_alive e then [blit_at (img_enemy (e_kind e)) (py_int (e_x e)) (py_int (e_y e))] else [].

(** [Fireball.draw(s)] *)
Definition fireball_draw fb : list (DrawOp F) :=
  if fb_alive fb then
    [blit_at img_fireball (py_int (fb_x fb) - img_width img_fireball / 2)
                          (py_int (fb_y fb) - img_height img_fireball / 2)]
  else [].

(** [Chest.draw(s)] *)
Definition chest_draw c : list (DrawOp F) :=
  [blit_at (if c_open c then img_chest_open else img_chest) (c_x c) (c_y c)].

(** The heart drawn at index [i] for a health of [h]. *)
Definition heart_image (h i : Z) : Image F :=
  let idx := i * 2 in
  if idx + 2 <=? h then img_heart_full
  else if h =? idx + 1 then img_heart_half
  else img_heart_empty.

(** [draw_hearts(s, p)] *)
Definition draw_hearts p : list (DrawOp F) :=
  let x := 10 in
  let y := 10 in
  let sp := img_width img_heart_full + 4 in
  (fun i => blit_at (heart_image (p_health p) i) (x + i * sp) y) <$> py_range 0 (p_max_health p / 2).

(** [draw_inventory(s)]: [inventory[name]] raises on a missing key. *)
Definition draw_inventory (inv : Inventory) : res (list (DrawOp F)) :=
  let x := SCREEN_WIDTH - 10 in
  let y := 10 in
  res_concat_map (fun '(i, name) =>
    let img := img_item name in
    let ix := x - img_width img in
    let iy := y + i * 26 in
    let! n := dict_get (inv !! name) in
    Ok [blit_at img ix iy;
        blit_at (img_text hud_font (String.append "x" (pretty n)) (255, 255, 255)) (ix - 35) (iy + 4)])
    (zip (py_range 0 (Z.of_nat (length ITEM_ORDER))) ITEM_ORDER).

(** [draw_room(s, i)] *)
Definition draw_room (rooms : list Grid) (themes : list Theme) (i : Z) : res (list (DrawOp F)) :=
  let! grid := py_getitem rooms i in
  let! th := py_getitem themes i in
  let tile := if th is library then img_library_wall else img_wall in
  res_concat_map (fun y =>
    res_concat_map (fun x =>
      let! c := py_get2 grid y x in
      Ok [blit_at (if c =? 0 then img_floor else tile) (x * TILE) (y * TILE)])
      (py_range 0 ROOM_W))
    (py_range 0 ROOM_H).

(** [SCREEN_WIDTH//2 - t.get_width()//2] *)
Definition centered (img : Image F) : Z := SCREEN_WIDTH / 2 - img_width img / 2.

(** The title screen, then [continue]. *)
Definition title_screen : list (DrawOp F) :=
  let t := img_text title_font "Dungeon Explorer" (255, 255, 255) in
  let i := img_text info_font "Press Enter to Start" (200, 200, 200) in
  [op_fill (0, 0, 0); blit_at t (centered t) (SCREEN_HEIGHT / 2 - 40);
   blit_at i (centered i) (SCREEN_HEIGHT / 2 + 20); op_flip].

(** The overlay of the game-over and win screens. *)
Definition end_overlay (title info : string) (color : Color) : list (DrawOp F) :=
  let t := img_text title_font title color in
  let i := img_text info_font info (230, 230, 230) in
  [blit_at (img_overlay (0, 0, 0, 180)) 0 0; blit_at t (centered t) (SCREEN_HEIGHT / 2 - 20);
   blit_at i (centered i) (SCREEN_HEIGHT / 2 + 30)].
End Drawing.

Section FrameDrawing.
Context {F : Type} `{PyFloat F} `{Surfaces F} `{Sprites} {G : Type} `{PyRandom G}.

(** The drawing part of one pass of [while running:], on the world the
    frame's events and update left. *)
Definition draw_frame (w : World (F:=F) (G:=G)) : res (list (DrawOp F)) :=
  match w_state w with
  | st_title => Ok title_screen
  | st =>
      let! room := draw_room (w_rooms w) (w_themes w) (w_room w) in
      let! rd := py_getitem (w_data w) (w_room w) in
      let! inv := draw_inventory (w_inventory w) in
      Ok ([op_fill (0, 0, 0)] ++ room ++
          concat (chest_draw <$> rd.2) ++ concat (enemy_draw <$> rd.1.2) ++
          concat (fireball_draw <$> w_projectiles w) ++
          player_draw (w_player w) ++ draw_hearts (w_player w) ++ inv ++
          match st with
          | st_gameover => end_overlay "You Died" "Press Enter to Restart" (220, 50, 50)
          | st_win => end_overlay "You Win!" "Press Enter to Play Again" (50, 220, 80)
          | _ => []
          end ++ [op_flip])
  end.
End FrameDrawing.

(** The images of the blits of a list of calls, in order. *)
Fixpoint blit_images {F} (ops : list (DrawOp F)) : list (Image F) :=
  match ops with
  | [] => []
  | op_blit img _ _ :: ops' => img :: blit_images ops'
  | _ :: ops' => blit_images ops'
  end.

Section DrawingTheorems.
Context {F : Type} `{PyFloat F} `{Surfaces F}.

Lemma blit_images_blits {A} (f : A -> Image F) (x y : A -> Z) (l : list A) :
  blit_images ((fun a => blit_at (f a) (x a) (y a)) <$> l) = f <$> l.
Proof. induction l as [|a l IH]; [done|]. cbn. by rewrite IH. Qed.

Lemma draw_hearts_images (p : Player F) :
  0 <= p_health p <= 2 * (p_max_health p / 2) ->
  blit_images (draw_hearts p) =
    replicate (Z.to_nat (p_health p / 2)) img_heart_full ++
    replicate (Z.to_nat (p_health p mod 2)) img_heart_half ++
    replicate (Z.to_nat (p_max_health p / 2 - p_health p / 2 - p_health p mod 2)) img_heart_empty.
Proof.
  intros Hh. unfold draw_hearts. rewrite blit_images_blits, fmap_list_map. unfold py_range.
  rewrite map_map. set (h := p_health p) in *. set (n := p_max_health p / 2) in *.
  replace (Z.to_nat (n - 0)) with (Z.to_nat (h / 2) + Z.to_nat (h mod 2) +
             Z.to_nat (n - h / 2 - h mod 2))%nat by zlia.
  rewrite !seq_app, !map_app, <- app_assoc.
  f_equal; [|f_equal]; apply map_seq_const; intros j Hj; unfold heart_image;
    zbool_cases; first [reflexivity | exfalso; zlia].
Qed.
(** ** Drawing never raises on the game's data *)

(** C34: the heart row shows the health exactly.  For a health between
    0 and the row's capacity, [draw_hearts] draws [max_health // 2]
    hearts: [health // 2] full ones, a half one when the health is odd,
    and empty ones for the rest. *)
Theorem draw_hearts_spec (p : Player F) :
  0 <= p_health p <= 2 * (p_max_health p / 2) ->
  blit_images (draw_hearts p) =
    replicate (Z.to_nat (p_health p / 2)) img_heart_full ++
    replicate (Z.to_nat (p_health p mod 2)) img_heart_half ++
    replicate (Z.to_nat (p_max_health p / 2 - p_health p / 2 - p_health p mod 2)) img_heart_empty.
Proof. exact (draw_hearts_images p). Qed.

Lemma draw_room_ok i :
  0 <= i < ROOM_COUNT -> exists ops, draw_room (F:=F) static_rooms static_themes i = Ok ops.
Proof.
  intros Hi. destruct (static_rooms_get i Hi) as (g & Hg & Hshape & _).
  unfold draw_room. rewrite Hg, (static_themes_get i Hi). cbn [res_bind].
  apply res_concat_map_ok. intros y Hy%py_range_spec.
  apply res_concat_map_ok. intros x Hx%py_range_spec.
  destruct (py_get2_shaped g x y Hshape) as (c & -> & _); [lia|lia|]. cbn [res_bind]. eauto.
Qed.

(** C37: the drawn room is the declared room.  For each of the ten
    rooms, [draw_room] blits one tile per cell, row by row, at the
    cell's pixel origin: the floor image exactly where the declarative
    room ([room_cell_spec]) has floor, and elsewhere the wall image of
    the room's theme (the library tile in rooms 3 and 5). *)
Theorem draw_room_spec i :
  0 <= i < ROOM_COUNT ->
  draw_room (F:=F) static_rooms static_themes i =
    Ok (concat ((fun y => (fun x =>
          blit_at (if room_cell_spec i x y =? 0 then img_floor
                   else if theme (room_config i) is library then img_library_wall else img_wall)
                  (x * TILE) (y * TILE)) <$> py_range 0 ROOM_W) <$> py_range 0 ROOM_H)).
Proof.
  intros Hi. destruct (static_rooms_get i Hi) as (g & Hg & Hshape & Hcells).
  unfold draw_room. rewrite Hg, (static_themes_get i Hi). cbn [res_bind].
  apply res_concat_map_pointwise. intros y Hy%py_range_spec.
  rewrite <- concat_fmap_singleton. apply res_concat_map_pointwise. intros x Hx%py_range_spec.
  destruct (py_get2_shaped g x y Hshape) as (c & -> & Hat); [lia|lia|].
  rewrite Hcells in Hat by lia. injection Hat as <-. reflexivity.
Qed.

Lemma draw_inventory_ok inv :
  inv_wf inv -> exists ops, draw_inventory (F:=F) inv = Ok ops.
Proof.
  intros Hinv. apply res_concat_map_ok. intros [i name] _.
  destruct (Hinv name) as (n & Hn & _). cbn [dict_get]. rewrite Hn. cbn [res_bind]. eauto.
Qed.
End DrawingTheorems.

Section FrameDrawingTheorems.
Context {F : Type} `{PyFloat F} `{Surfaces F} `{Sprites} {G : Type} `{PyRandomLaws G}.

Lemma draw_frame_ok (w : World (F:=F) (G:=G)) :
  world_inv w -> exists ops, draw_frame w = Ok ops.
Proof.
  intros (Hr & _ & Hth & Hc & [Hl _] & Hinv & _ & _). unfold draw_frame.
  destruct (w_state w); [eauto| | |];
    rewrite Hr, Hth; destruct (draw_room_ok (F:=F) _ Hc) as (room & ->); cbn [res_bind];
    (destruct (py_getitem_ok (w_data w) (w_room w)) as (rd & _ & ->); [rewrite Hl; lia|]);
    cbn [res_bind]; destruct (draw_inventory_ok (F:=F) _ Hinv) as (inv & ->); cbn [res_bind]; eauto.
Qed.

(** C35: drawing never crashes the game.  In every world a run reaches,
    drawing the frame reads [rooms], [room_themes], every cell of the
    current grid, [room_data] and every inventory count without raising. *)
Theorem reachable_draw_ok (w : World (F:=F) (G:=G)) :
  tile_sized player_mask -> reachable w -> exists ops, draw_frame w = Ok ops.
Proof. intros Ht Hr. exact (draw_frame_ok w (reachable_inv Ht w Hr)). Qed.
End FrameDrawingTheorems.


(** ** The claims on concrete inputs *)
Section RenderWitnesses.
Import QFloat.
#[local] Existing Instance tile_sprites.
#[local] Existing Instance tile_surfaces.
#[local] Existing Instance lcg.
#[local] Existing Instance lcg_laws.

(** A player down to seven half-hearts. *)
Local Abbreviation hurt7 :=
  (mkPlayer (F:=QF) (PInt 64) (PInt 64) PLAYER_SPEED player_mask
     (mask_w player_mask) (mask_h player_mask) 10 7 0 true false (PInt 0) 0).

Lemma draw_hearts_spec_witness :
  0 <= p_health hurt7 <= 2 * (p_max_health hurt7 / 2) /\
  blit_images (draw_hearts hurt7) =
    [img_heart_full; img_heart_full; img_heart_full; img_heart_half; img_heart_empty].
Proof.
  assert (Hh : 0 <= p_health hurt7 <= 2 * (p_max_health hurt7 / 2))
    by (split; apply Z.leb_le; vm_compute; reflexivity).
  split; [exact Hh|].
  pose proof (draw_hearts_spec hurt7 Hh) as Hs. rewrite Hs. vm_compute. reflexivity.
Defined.

Lemma draw_room_spec_witness :
  0 <= 3 < ROOM_COUNT /\
  draw_room (F:=QF) static_rooms static_themes 3 =
    Ok (concat ((fun y => (fun x =>
          blit_at (if room_cell_spec 3 x y =? 0 then img_floor
                   else if theme (room_config 3) is library then img_library_wall else img_wall)
                  (x * TILE) (y * TILE)) <$> py_range 0 ROOM_W) <$> py_range 0 ROOM_H)).
Proof.
  assert (Hi : 0 <= 3 < ROOM_COUNT) by (unfold ROOM_COUNT; lia).
  split; [exact Hi|]. exact (draw_room_spec (F:=QF) 3 Hi).
Defined.

Local Abbreviation dummy :=
  (mkWorld (F:=QF) (G:=Z) st_title true player_init 0 [] new_inventory [] [] [] [] 0).
Local Abbreviation W0 := (match initial_world (F:=QF) (G:=Z) 100 7 with Some (Ok w) => w | _ => dummy end).
Local Abbreviation start_input := (mkInput [ev_keydown K_RETURN] false false false false 0).
Local Abbreviation W1 := (match frame 100 W0 start_input with Some (Ok w) => w | _ => dummy end).

(** The first frame of play after [RETURN] on the title screen. *)
Lemma reachable_draw_ok_witness :
  tile_sized player_mask /\ reachable W1 /\ w_state W1 = st_play /\
  exists ops, draw_frame W1 = Ok ops.
Proof.
  assert (Ht : tile_sized player_mask) by (unfold tile_sized; cbn; unfold TILE; lia).
  assert (H0 : initial_world (F:=QF) (G:=Z) 100 7 = gen_ret W0) by (vm_compute; reflexivity).
  assert (H1 : frame 100 W0 start_input = gen_ret W1) by (vm_compute; reflexivity).
  pose proof (@reach_start QF _ _ Z _ 100 7 W0) as Hs. specialize (Hs H0).
  pose proof (@reach_frame QF _ _ Z _ 100 W0 start_input W1) as Hr.
  specialize (Hr Hs ltac:(vm_compute; reflexivity) H1).
  split; [exact Ht|]. split; [exact Hr|]. split; [vm_compute; reflexivity|].
  pose proof (reachable_draw_ok (F:=QF) (G:=Z) W1) as Hd. exact (Hd Ht Hr).
Defined.
End RenderWitnesses.
